(** * Annotation scanner ([scan_annotations.py]): model and properties

    A shallow embedding of the annotation scanner: the syntax trees of
    Python's [ast] module, the breadth-first [ast.walk], the three token
    classes, the per-file statistics record, the mutable group
    accumulator and the generator-based corpus walker. *)

From Stdlib Require Import ZArith String Ascii List Permutation Sorted Lia Bool
  DecimalString.
From stdpp Require Import base gmap list strings.

Set Warnings "-register-all".

Local Open Scope Z_scope.
Local Open Scope string_scope.

(** ** Syntax trees of the [ast] module *)

Module Ast.

Inductive expr_context := Load | Store | Del.

Inductive operator := Add | Sub | Mult | Div | Mod | Pow.

Inductive constant :=
| CNone
| CBool (b : bool)
| CInt (z : Z)
| CStr (s : string)
| CEllipsis.

(** The [lineno] and [end_lineno] attributes of a located node. *)
Record position := { lineno : Z; end_lineno : option Z }.

Inductive expr :=
| Name (id : string) (ctx : expr_context)
| Constant (value : constant)
| BinOp (left : expr) (op : operator) (right : expr)
| Call (func : expr) (args : list expr)
| Attribute (value : expr) (attr : string) (ctx : expr_context)
| Subscript (value : expr) (slice : expr) (ctx : expr_context)
| Tuple (elts : list expr) (ctx : expr_context)
| NamedExpr (target : expr) (value : expr)
| Lambda (args : arguments) (body : expr)
with arguments :=
| mk_arguments (posonlyargs : list arg) (args : list arg)
    (vararg : option arg) (kwonlyargs : list arg)
    (kw_defaults : list (option expr)) (kwarg : option arg)
    (defaults : list expr)
with arg :=
| mk_arg (pos : position) (name : string) (annotation : option expr)
    (type_comment : option string).

Inductive stmt :=
| FunctionDef (pos : position) (name : string) (args : arguments)
    (body : list stmt) (decorator_list : list expr)
    (returns : option expr) (type_comment : option string)
| AsyncFunctionDef (pos : position) (name : string) (args : arguments)
    (body : list stmt) (decorator_list : list expr)
    (returns : option expr) (type_comment : option string)
| ClassDef (pos : position) (name : string) (bases : list expr)
    (body : list stmt) (decorator_list : list expr)
| Return (pos : position) (value : option expr)
| Assign (pos : position) (targets : list expr) (value : expr)
    (type_comment : option string)
| AugAssign (pos : position) (target : expr) (op : operator) (value : expr)
| AnnAssign (pos : position) (target : expr) (annotation : expr)
    (value : option expr) (simple : Z)
| For (pos : position) (target : expr) (iter : expr)
    (body : list stmt) (orelse : list stmt)
| While (pos : position) (test : expr)
    (body : list stmt) (orelse : list stmt)
| If (pos : position) (test : expr)
    (body : list stmt) (orelse : list stmt)
| Expr (pos : position) (value : expr)
| Pass (pos : position).

Inductive mod_ :=
| Module (body : list stmt).

(** Any object of class [ast.AST]: what [ast.walk] yields. *)
Inductive node :=
| NMod (m : mod_)
| NStmt (s : stmt)
| NExpr (e : expr)
| NArguments (a : arguments)
| NArg (a : arg)
| NCtx (c : expr_context)
| NOp (o : operator).

(** Nodes built by hand ([ast.Expr(ast.Constant(...))]) carry no line
    attributes; the model gives them this position, which no token reads. *)
Definition unlocated : position := {| lineno := 0; end_lineno := None |}.

Definition opt_nodes {A} (f : A -> node) (o : option A) : list node :=
  match o with Some a => [f a] | None => [] end.

Definition opts_nodes {A} (f : A -> node) (l : list (option A)) : list node :=
  flat_map (opt_nodes f) l.

(** [ast.iter_child_nodes]: the fields of the node in [_fields] order; a
    field holding a node gives that node, a field holding a list gives its
    items that are nodes, strings and numbers give nothing. *)
Definition iter_child_nodes (n : node) : list node :=
  match n with
  | NMod (Module body) => map NStmt body
  | NStmt s =>
      match s with
      | FunctionDef _ _ args body decorator_list returns _
      | AsyncFunctionDef _ _ args body decorator_list returns _ =>
          [NArguments args] ++ map NStmt body ++ map NExpr decorator_list
            ++ opt_nodes NExpr returns
      | ClassDef _ _ bases body decorator_list =>
          map NExpr bases ++ map NStmt body ++ map NExpr decorator_list
      | Return _ value => opt_nodes NExpr value
      | Assign _ targets value _ => map NExpr targets ++ [NExpr value]
      | AugAssign _ target op value => [NExpr target; NOp op; NExpr value]
      | AnnAssign _ target annotation value _ =>
          [NExpr target; NExpr annotation] ++ opt_nodes NExpr value
      | For _ target iter body orelse =>
          [NExpr target; NExpr iter] ++ map NStmt body ++ map NStmt orelse
      | While _ test body orelse | If _ test body orelse =>
          [NExpr test] ++ map NStmt body ++ map NStmt orelse
      | Expr _ value => [NExpr value]
      | Pass _ => []
      end
  | NExpr e =>
      match e with
      | Name _ ctx => [NCtx ctx]
      | Constant _ => []
      | BinOp lhs op rhs => [NExpr lhs; NOp op; NExpr rhs]
      | Call func args => [NExpr func] ++ map NExpr args
      | Attribute value _ ctx => [NExpr value; NCtx ctx]
      | Subscript value slice ctx => [NExpr value; NExpr slice; NCtx ctx]
      | Tuple elts ctx => map NExpr elts ++ [NCtx ctx]
      | NamedExpr target value => [NExpr target; NExpr value]
      | Lambda args body => [NArguments args; NExpr body]
      end
  | NArguments (mk_arguments posonlyargs args vararg kwonlyargs
                  kw_defaults kwarg defaults) =>
      map NArg posonlyargs ++ map NArg args ++ opt_nodes NArg vararg
        ++ map NArg kwonlyargs ++ opts_nodes NExpr kw_defaults
        ++ opt_nodes NArg kwarg ++ map NExpr defaults
  | NArg (mk_arg _ _ annotation _) => opt_nodes NExpr annotation
  | NCtx _ => []
  | NOp _ => []
  end.

(** *** Additive measures on trees

    A measure gives every node a weight [w] and sums it over the whole
    subtree.  The number of nodes is the measure of weight one; the number
    of nodes of a class is the measure of that class's indicator. *)
Section Measure.
Variable w : node -> nat.

Definition sum_with {A} (f : A -> nat) (l : list A) : nat :=
  fold_right (fun a acc => (f a + acc)%nat) 0%nat l.

Definition opt_with {A} (f : A -> nat) (o : option A) : nat :=
  match o with Some a => f a | None => 0%nat end.

Fixpoint measure_expr (e : expr) : nat :=
  (w (NExpr e) +
   match e with
   | Name _ ctx => w (NCtx ctx)
   | Constant _ => 0
   | BinOp lhs op rhs =>
       measure_expr lhs + w (NOp op) + measure_expr rhs
   | Call func args => measure_expr func + sum_with measure_expr args
   | Attribute value _ ctx => measure_expr value + w (NCtx ctx)
   | Subscript value slice ctx =>
       measure_expr value + measure_expr slice + w (NCtx ctx)
   | Tuple elts ctx => sum_with measure_expr elts + w (NCtx ctx)
   | NamedExpr target value => measure_expr target + measure_expr value
   | Lambda args body => measure_arguments args + measure_expr body
   end)%nat
with measure_arguments (a : arguments) : nat :=
  (w (NArguments a) +
   match a with
   | mk_arguments posonlyargs args vararg kwonlyargs kw_defaults kwarg
       defaults =>
       sum_with measure_arg posonlyargs + sum_with measure_arg args
       + opt_with measure_arg vararg + sum_with measure_arg kwonlyargs
       + sum_with (opt_with measure_expr) kw_defaults
       + opt_with measure_arg kwarg + sum_with measure_expr defaults
   end)%nat
with measure_arg (a : arg) : nat :=
  (w (NArg a) +
   match a with
   | mk_arg _ _ annotation _ => opt_with measure_expr annotation
   end)%nat.

Fixpoint measure_stmt (s : stmt) : nat :=
  (w (NStmt s) +
   match s with
   | FunctionDef _ _ args body decorator_list returns _
   | AsyncFunctionDef _ _ args body decorator_list returns _ =>
       measure_arguments args + sum_with measure_stmt body
       + sum_with measure_expr decorator_list
       + opt_with measure_expr returns
   | ClassDef _ _ bases body decorator_list =>
       sum_with measure_expr bases + sum_with measure_stmt body
       + sum_with measure_expr decorator_list
   | Return _ value => opt_with measure_expr value
   | Assign _ targets value _ =>
       sum_with measure_expr targets + measure_expr value
   | AugAssign _ target op value =>
       measure_expr target + w (NOp op) + measure_expr value
   | AnnAssign _ target annotation value _ =>
       measure_expr target + measure_expr annotation
       + opt_with measure_expr value
   | For _ target iter body orelse =>
       measure_expr target + measure_expr iter
       + sum_with measure_stmt body + sum_with measure_stmt orelse
   | While _ test body orelse | If _ test body orelse =>
       measure_expr test + sum_with measure_stmt body
       + sum_with measure_stmt orelse
   | Expr _ value => measure_expr value
   | Pass _ => 0
   end)%nat.

Definition measure (n : node) : nat :=
  match n with
  | NMod (Module body) => (w n + sum_with measure_stmt body)%nat
  | NStmt s => measure_stmt s
  | NExpr e => measure_expr e
  | NArguments a => measure_arguments a
  | NArg a => measure_arg a
  | NCtx _ | NOp _ => w n
  end.
End Measure.

Definition node_count : node -> nat := measure (fun _ => 1%nat).

(** [ast.walk]: breadth first, from a queue holding the root; each popped
    node is yielded and its children are appended to the queue.  The loop
    runs once per node of the tree, which is the fuel given to it. *)
Fixpoint walk_todo (fuel : nat) (todo : list node) : list node :=
  match fuel with
  | O => []
  | S fuel' =>
      match todo with
      | [] => []
      | n :: rest => n :: walk_todo fuel' (rest ++ iter_child_nodes n)
      end
  end.

Definition walk (n : node) : list node := walk_todo (node_count n) [n].

End Ast.

(** ** Python strings *)

Module Str.

(** The characters [str.strip] removes (ASCII white space). *)
Definition is_space (c : ascii) : bool :=
  let n := nat_of_ascii c in
  ((9 <=? n) && (n <=? 13) || (28 <=? n) && (n <=? 32))%nat.

Fixpoint lstrip (s : string) : string :=
  match s with
  | String c s' => if is_space c then lstrip s' else s
  | EmptyString => EmptyString
  end.

Definition reverse (s : string) : string :=
  string_of_list_ascii (rev (list_ascii_of_string s)).

Definition rstrip (s : string) : string := reverse (lstrip (reverse s)).

Definition strip (s : string) : string := rstrip (lstrip s).

(** [sep.join(parts)] *)
Definition join (sep : string) (parts : list string) : string :=
  String.concat sep parts.

(** [s * n] *)
Fixpoint repeat (s : string) (n : nat) : string :=
  match n with O => "" | S n' => s ++ repeat s n' end.

(** [sub in s] *)
Fixpoint contains (sub s : string) : bool :=
  String.prefix sub s
  || match s with String _ s' => contains sub s' | EmptyString => false end.

Definition newline : string := String (ascii_of_nat 10) EmptyString.

End Str.

(** ** The [astunparse] printer

    [astunparse.unparse] is a library function; this is its [Unparser]
    class on the node classes of [Ast], one function per [_Class] method. *)

Module Astunparse.
Import Ast.

Definition hex_digit (n : nat) : string :=
  String.substring n 1 "0123456789abcdef".

Definition dquote : ascii := ascii_of_nat 34.

(** One character of [repr(str)], inside quotes [q]. *)
Definition repr_char (q : ascii) (c : ascii) : string :=
  let n := nat_of_ascii c in
  if (n =? 92)%nat then "\\"
  else if Ascii.eqb c q then String "\" (String q "")
  else if (n =? 10)%nat then "\n"
  else if (n =? 13)%nat then "\r"
  else if (n =? 9)%nat then "\t"
  else if ((n <? 32) || (n =? 127))%nat
       then "\x" ++ hex_digit (n / 16) ++ hex_digit (n mod 16)
  else String c "".

Fixpoint repr_chars (q : ascii) (s : string) : string :=
  match s with
  | EmptyString => ""
  | String c s' => repr_char q c ++ repr_chars q s'
  end.

(** [repr] of a string: single quotes, unless the string holds a single
    quote and no double quote. *)
Definition repr_str (s : string) : string :=
  let q := if Str.contains "'" s && negb (Str.contains (String dquote "") s)
           then dquote else "'"%char in
  String q (repr_chars q s ++ String q "").

Definition repr_int (z : Z) : string :=
  NilZero.string_of_int (Z.to_int z).

(** [_Constant]: [...] for [Ellipsis], otherwise [repr] of the value. *)
Definition _Constant (c : constant) : string :=
  match c with
  | CEllipsis => "..."
  | CNone => "None"
  | CBool true => "True"
  | CBool false => "False"
  | CInt z => repr_int z
  | CStr s => repr_str s
  end.

(** The [binop] table. *)
Definition binop (o : operator) : string :=
  match o with
  | Add => "+" | Sub => "-" | Mult => "*" | Div => "/" | Mod => "%"
  | Pow => "**"
  end.

Definition is_int_constant (e : expr) : bool :=
  match e with
  | Constant (CInt _) | Constant (CBool _) => true
  | _ => false
  end.

Definition is_name (e : expr) : bool :=
  match e with Name _ _ => true | _ => false end.

(** [[None] * (n - len(l)) + l], as printed defaults. *)
Definition pad_defaults (n : nat) (l : list string) : list (option string) :=
  (List.repeat None (n - length l) ++ map Some l)%list.

Definition with_default (a : string) (d : option string) : string :=
  match d with Some d' => a ++ "=" ++ d' | None => a end.

(** The first loop of [_arguments]: positional parameters with their
    defaults, [, /] after the last positional-only one. *)
Fixpoint positional (nposonly : nat) (index : nat)
    (l : list (string * option string)) : list string :=
  match l with
  | [] => []
  | (a, d) :: l' =>
      (with_default a d ++ (if (index =? nposonly)%nat then ", /" else ""))
        :: positional nposonly (S index) l'
  end.

Fixpoint dispatch_expr (e : expr) : string :=
  match e with
  | Name id _ => id
  | Constant value => _Constant value
  | BinOp lhs op rhs =>
      "(" ++ dispatch_expr lhs ++ " " ++ binop op ++ " "
        ++ dispatch_expr rhs ++ ")"
  | Call func args =>
      dispatch_expr func ++ "(" ++ Str.join ", " (map dispatch_expr args)
        ++ ")"
  | Attribute value attr _ =>
      dispatch_expr value ++ (if is_int_constant value then " " else "")
        ++ "." ++ attr
  | Subscript value slice _ =>
      dispatch_expr value ++ "[" ++ dispatch_expr slice ++ "]"
  | Tuple elts _ =>
      match elts with
      | [elt] => "(" ++ dispatch_expr elt ++ ",)"
      | _ => "(" ++ Str.join ", " (map dispatch_expr elts) ++ ")"
      end
  | NamedExpr target value =>
      "(" ++ dispatch_expr target ++ " := " ++ dispatch_expr value ++ ")"
  | Lambda args body =>
      "(lambda " ++ _arguments args ++ ": " ++ dispatch_expr body ++ ")"
  end
with _arguments (t : arguments) : string :=
  match t with
  | mk_arguments posonlyargs args vararg kwonlyargs kw_defaults kwarg
      defaults =>
      let all_args := (map _arg posonlyargs ++ map _arg args)%list in
      let defaults' :=
        pad_defaults (length all_args) (map dispatch_expr defaults) in
      let star :=
        match vararg, kwonlyargs with
        | Some v, _ => ["*" ++ _arg v]
        | None, _ :: _ => ["*"]
        | None, [] => []
        end in
      let kwonly :=
        map (fun ad => with_default (fst ad) (snd ad))
          (combine (map _arg kwonlyargs)
             (map (option_map dispatch_expr) kw_defaults)) in
      let kwargs :=
        match kwarg with Some k => ["**" ++ _arg k] | None => [] end in
      Str.join ", "
        (positional (length posonlyargs) 1 (combine all_args defaults')
           ++ star ++ kwonly ++ kwargs)%list
  end
with _arg (t : arg) : string :=
  match t with
  | mk_arg _ name annotation _ =>
      match annotation with
      | Some a => name ++ ": " ++ dispatch_expr a
      | None => name
      end
  end.

(** [fill]: a new line at the current indentation, then the text. *)
Definition fill (indent : nat) (text : string) : string :=
  Str.newline ++ Str.repeat "    " indent ++ text.

Definition decorators (indent : nat) (l : list expr) : string :=
  Str.join "" (map (fun d => fill indent "@" ++ dispatch_expr d) l).

(** Statements.  [elif] is set where [_If] prints a lone nested [If] of an
    [orelse] as [elif]. *)
Fixpoint dispatch_stmt (elif : bool) (indent : nat) (s : stmt) : string :=
  let block := fun l => Str.join "" (map (dispatch_stmt false (S indent)) l) in
  let orelse_block := fun l =>
    match l with
    | [] => ""
    | _ => fill indent "else" ++ ":" ++ block l
    end in
  let funcdef := fun kw name args body decorator_list returns =>
    Str.newline ++ decorators indent decorator_list
      ++ fill indent (kw ++ " " ++ name ++ "(") ++ _arguments args ++ ")"
      ++ match returns with
         | Some r => " -> " ++ dispatch_expr r
         | None => ""
         end
      ++ ":" ++ block body in
  match s with
  | FunctionDef _ name args body decorator_list returns _ =>
      funcdef "def" name args body decorator_list returns
  | AsyncFunctionDef _ name args body decorator_list returns _ =>
      funcdef "async def" name args body decorator_list returns
  | ClassDef _ name bases body decorator_list =>
      Str.newline ++ decorators indent decorator_list
        ++ fill indent ("class " ++ name) ++ "("
        ++ Str.join ", " (map dispatch_expr bases) ++ ")" ++ ":"
        ++ block body
  | Return _ value =>
      fill indent "return"
        ++ match value with
           | Some v => " " ++ dispatch_expr v
           | None => ""
           end
  | Assign _ targets value _ =>
      fill indent ""
        ++ Str.join "" (map (fun t => dispatch_expr t ++ " = ") targets)
        ++ dispatch_expr value
  | AugAssign _ target op value =>
      fill indent "" ++ dispatch_expr target ++ " " ++ binop op ++ "= "
        ++ dispatch_expr value
  | AnnAssign _ target annotation value simple =>
      let paren := (simple =? 0)%Z && is_name target in
      fill indent "" ++ (if paren then "(" else "") ++ dispatch_expr target
        ++ (if paren then ")" else "") ++ ": " ++ dispatch_expr annotation
        ++ match value with
           | Some v => " = " ++ dispatch_expr v
           | None => ""
           end
  | For _ target iter body orelse =>
      fill indent "for " ++ dispatch_expr target ++ " in "
        ++ dispatch_expr iter ++ ":" ++ block body ++ orelse_block orelse
  | While _ test body orelse =>
      fill indent "while " ++ dispatch_expr test ++ ":" ++ block body
        ++ orelse_block orelse
  | If _ test body orelse =>
      fill indent (if elif then "elif " else "if ") ++ dispatch_expr test
        ++ ":" ++ block body
        ++ match orelse with
           | [If _ _ _ _ as t] => dispatch_stmt true indent t
           | _ => orelse_block orelse
           end
  | Expr _ value => fill indent "" ++ dispatch_expr value
  | Pass _ => fill indent "pass"
  end.

(** [dispatch] on any node.  The context and operator classes have no
    method of their own: their parents print them, and the scanner never
    passes one to the printer. *)
Definition dispatch (n : node) : string :=
  match n with
  | NMod (Module body) => Str.join "" (map (dispatch_stmt false 0) body)
  | NStmt s => dispatch_stmt false 0 s
  | NExpr e => dispatch_expr e
  | NArguments a => _arguments a
  | NArg a => _arg a
  | NCtx _ | NOp _ => ""
  end.

(** [unparse(tree)]: the printer's output, closed by a new line. *)
Definition unparse (tree : node) : string := dispatch tree ++ Str.newline.

End Astunparse.

(** ** Natural sorting ([natsort.humansorted])

    [humansorted] is [natsorted] with [ns.LOCALE].  The program never sets a
    locale, so the collation is that of the C locale, where natsort swaps
    the case of the input and groups letters to give the order a person
    expects.  The model covers ASCII text. *)

Module Natsort.

Definition is_digit (c : ascii) : bool :=
  let n := nat_of_ascii c in ((48 <=? n) && (n <=? 57))%nat.

Definition is_upper (c : ascii) : bool :=
  let n := nat_of_ascii c in ((65 <=? n) && (n <=? 90))%nat.

Definition is_lower (c : ascii) : bool :=
  let n := nat_of_ascii c in ((97 <=? n) && (n <=? 122))%nat.

Definition lower (c : ascii) : ascii :=
  if is_upper c then ascii_of_nat (nat_of_ascii c + 32) else c.

Definition upper (c : ascii) : ascii :=
  if is_lower c then ascii_of_nat (nat_of_ascii c - 32) else c.

Definition swapcase_char (c : ascii) : ascii :=
  if is_upper c then lower c else upper c.

Fixpoint swapcase (s : string) : string :=
  match s with
  | EmptyString => EmptyString
  | String c s' => String (swapcase_char c) (swapcase s')
  end.

(** [groupletters]: every character preceded by its lower-case form. *)
Fixpoint groupletters (s : string) : string :=
  match s with
  | EmptyString => EmptyString
  | String c s' => String (lower c) (String c (groupletters s'))
  end.

(** Splitting on the runs of digits, empty pieces dropped: the maximal
    runs of digits and of other characters, in order. *)
Fixpoint split (s : string) : list (bool * string) :=
  match s with
  | EmptyString => []
  | String c s' =>
      let d := is_digit c in
      match split s' with
      | (d', run) :: rest =>
          if Bool.eqb d d' then (d, String c run) :: rest
          else (d, String c "") :: (d', run) :: rest
      | [] => [(d, String c "")]
      end
  end.

(** [int(run)] for a run of digits. *)
Definition int_of_digits (run : string) : N :=
  fold_left
    (fun acc c => (10 * acc + N.of_nat (nat_of_ascii c - 48))%N)
    (list_ascii_of_string run) 0%N.

(** A component of a key: transformed text, or a number. *)
Inductive component :=
| Text (s : string)
| Number (n : N).

Definition component_transform (piece : bool * string) : component :=
  let (digits, run) := piece in
  if digits then Number (int_of_digits run) else Text (groupletters run).

Definition is_number (c : component) : bool :=
  match c with Number _ => true | Text _ => false end.

(** [sep_inserter]: the empty text before a leading number and between
    two adjacent numbers, so that text and numbers alternate. *)
Fixpoint sep_between (first : component) (rest : list component)
    : list component :=
  match rest with
  | [] => []
  | second :: rest' =>
      (if is_number first && is_number second then [Text ""] else [])
        ++ second :: sep_between second rest'
  end.

Definition sep_inserter (l : list component) : list component :=
  match l with
  | [] => []
  | first :: rest =>
      (if is_number first then [Text ""] else [])
        ++ first :: sep_between first rest
  end.

(** The key [natsort_keygen(alg=ns.LOCALE)] gives a path. *)
Definition natsort_key (path : string) : list component :=
  sep_inserter (map component_transform (split (swapcase path))).

(** Texts and numbers alternate in [k], from a number or from a text. *)
Fixpoint alternates (number : bool) (k : list component) : bool :=
  match k with
  | [] => true
  | c :: k' => Bool.eqb (is_number c) number && alternates (negb number) k'
  end.

Definition component_compare (a b : component) : comparison :=
  match a, b with
  | Text s, Text t => String.compare s t
  | Number n, Number m => N.compare n m
  | Text _, Number _ => Lt
  | Number _, Text _ => Gt
  end.

(** Comparison of keys, as Python compares tuples: at the first position
    where they differ, or by length.  Keys alternate text and numbers
    from a text, so equal positions hold components of one kind; the mixed
    cases of [component_compare] are never reached on keys. *)
Fixpoint key_compare (k1 k2 : list component) : comparison :=
  match k1, k2 with
  | [], [] => Eq
  | [], _ :: _ => Lt
  | _ :: _, [] => Gt
  | a :: k1', b :: k2' =>
      match component_compare a b with
      | Eq => key_compare k1' k2'
      | c => c
      end
  end.

(** [natsort_key x < natsort_key y] *)
Definition key_lt (x y : string) : bool :=
  match key_compare (natsort_key x) (natsort_key y) with
  | Lt => true
  | _ => false
  end.

(** The natural order on paths: [y] does not sort before [x]. *)
Definition natural_le (x y : string) : Prop := key_lt y x = false.

(** [sorted] is stable: an item goes before the first later item that is
    not smaller than it. *)
Fixpoint insert (x : string) (l : list string) : list string :=
  match l with
  | [] => [x]
  | y :: l' => if key_lt y x then y :: insert x l' else x :: y :: l'
  end.

Definition humansorted (seq : list string) : list string :=
  fold_right insert [] seq.

End Natsort.

(** ** The scanner: tokens, per-file results, group results *)

Module Scanner.
Import Ast.

(** *** Exceptions *)

Inductive exn :=
| SyntaxError (msg : string)
| TypeError (msg : string)
| AttributeError (msg : string)
| OSError (msg : string).

Inductive result (A : Type) :=
| Ok (a : A)
| Raise (e : exn).
Arguments Ok {A} a.
Arguments Raise {A} e.

Definition bind {A B} (r : result A) (k : A -> result B) : result B :=
  match r with
  | Ok a => k a
  | Raise e => Raise e
  end.

Notation "'do' x <- r ; k" := (bind r (fun x => k))
  (at level 10, x name, r at level 100, k at level 200).

(** *** Tokens *)

(** The attributes every token class shares ([AnnotationItemBase]). *)
Record AnnotationItemBase := {
  is_annotated : bool;
  annotated_text : option string;
  code : string;
  line_range : Z * option Z
}.

Definition _unparse_ast (n : node) : string :=
  Str.strip (Astunparse.unparse n).

Definition init_line_range (pos : position) : Z * option Z :=
  (lineno pos, end_lineno pos).

(** [Assignment.__init__] *)
Definition Assignment (n : node) : result AnnotationItemBase :=
  match n with
  | NStmt (AnnAssign pos _ annotation _ _) =>
      Ok {| is_annotated := true;
            annotated_text := Some (_unparse_ast (NExpr annotation));
            code := _unparse_ast n;
            line_range := init_line_range pos |}
  | NStmt (Assign pos _ _ _) =>
      Ok {| is_annotated := false;
            annotated_text := None;
            code := _unparse_ast n;
            line_range := init_line_range pos |}
  | _ => Raise (TypeError "Expected node type ast.AnnAssign or ast.Assign")
  end.

(** [FunctionParameter.__init__] *)
Definition FunctionParameter (n : node) : result AnnotationItemBase :=
  match n with
  | NArg (mk_arg pos _ annotation _) =>
      Ok match annotation with
         | None =>
             {| is_annotated := false;
                annotated_text := None;
                code := _unparse_ast n;
                line_range := init_line_range pos |}
         | Some a =>
             {| is_annotated := true;
                annotated_text := Some (_unparse_ast (NExpr a));
                code := _unparse_ast n;
                line_range := init_line_range pos |}
         end
  | _ => Raise (AttributeError "annotation")
  end.

(** The single statement that stands for the body of [bodyless_node]. *)
Definition placeholder : stmt := Expr unlocated (Constant CEllipsis).

(** [type(node)(node.name, node.args, ast.Expr(ast.Constant(...)),
    node.decorator_list, node.returns, node.type_comment)]: a node of the
    class of [node].  The source passes the placeholder itself as [body];
    the printer treats a statement and a list of one statement alike. *)
Definition bodyless_node (async : bool) (name : string) (args : arguments)
    (decorator_list : list expr) (returns : option expr)
    (type_comment : option string) : stmt :=
  if async
  then AsyncFunctionDef unlocated name args [placeholder] decorator_list
         returns type_comment
  else FunctionDef unlocated name args [placeholder] decorator_list
         returns type_comment.

Definition init_return (async : bool) (pos : position) (name : string)
    (args : arguments) (decorator_list : list expr) (returns : option expr)
    (type_comment : option string) : AnnotationItemBase :=
  let code :=
    _unparse_ast
      (NStmt (bodyless_node async name args decorator_list returns
                type_comment)) in
  match returns with
  | None =>
      {| is_annotated := false;
         annotated_text := None;
         code := code;
         line_range := init_line_range pos |}
  | Some r =>
      {| is_annotated := true;
         annotated_text := Some (_unparse_ast (NExpr r));
         code := code;
         line_range := init_line_range pos |}
  end.

(** [FunctionReturn.__init__] *)
Definition FunctionReturn (n : node) : result AnnotationItemBase :=
  match n with
  | NStmt (FunctionDef pos name args _ decorator_list returns type_comment) =>
      Ok (init_return false pos name args decorator_list returns
            type_comment)
  | NStmt (AsyncFunctionDef pos name args _ decorator_list returns
             type_comment) =>
      Ok (init_return true pos name args decorator_list returns
            type_comment)
  | _ => Raise (AttributeError "returns")
  end.

(** *** Statistics *)

(** [AnnotationScanStatsBase]: the nine counters. *)
Record AnnotationScanStatsBase := {
  total_assign_count : Z;
  annotated_assign_count : Z;
  unannotated_assign_count : Z;
  total_func_params_count : Z;
  annotated_func_params_count : Z;
  unannotated_func_params_count : Z;
  total_func_returns_count : Z;
  annotated_func_returns_count : Z;
  unannotated_func_returns_count : Z
}.

(** [AnnotationScanResult]: the three token lists of
    [AnnotationScanResultBase] and the counters of
    [AnnotationScanStatsBase]. *)
Record AnnotationScanResult := {
  assignments : list AnnotationItemBase;
  func_params : list AnnotationItemBase;
  func_returns : list AnnotationItemBase;
  stats : AnnotationScanStatsBase
}.

Definition len {A} (l : list A) : Z := Z.of_nat (length l).

(** [len([True for item in anno_items if item.is_annotated])] *)
Definition _count_annotated (anno_items : list AnnotationItemBase) : Z :=
  len (List.filter is_annotated anno_items).

Definition _init_compute_stats
    (assignments func_params func_returns : list AnnotationItemBase)
    : AnnotationScanStatsBase :=
  let total_assignments := len assignments in
  let annotated_assignments := _count_annotated assignments in
  let unannotated_assignments := total_assignments - annotated_assignments in
  let total_func_params := len func_params in
  let annotated_func_params := _count_annotated func_params in
  let unannotated_func_params := total_func_params - annotated_func_params in
  let total_func_returns := len func_returns in
  let annotated_func_returns := _count_annotated func_returns in
  let unannotated_func_returns :=
    total_func_returns - annotated_func_returns in
  {| total_assign_count := total_assignments;
     annotated_assign_count := annotated_assignments;
     unannotated_assign_count := unannotated_assignments;
     total_func_params_count := total_func_params;
     annotated_func_params_count := annotated_func_params;
     unannotated_func_params_count := unannotated_func_params;
     total_func_returns_count := total_func_returns;
     annotated_func_returns_count := annotated_func_returns;
     unannotated_func_returns_count := unannotated_func_returns |}.

(** [AnnotationScanResult.__init__] *)
Definition AnnotationScanResult_init
    (assignments func_params func_returns : list AnnotationItemBase)
    : AnnotationScanResult :=
  {| assignments := assignments;
     func_params := func_params;
     func_returns := func_returns;
     stats := _init_compute_stats assignments func_params func_returns |}.

(** *** Group results *)

(** [fields(self)]: the dataclass fields, in declaration order. *)
Inductive field :=
| f_total_assign_count
| f_annotated_assign_count
| f_unannotated_assign_count
| f_total_func_params_count
| f_annotated_func_params_count
| f_unannotated_func_params_count
| f_total_func_returns_count
| f_annotated_func_returns_count
| f_unannotated_func_returns_count.

Definition fields : list field :=
  [f_total_assign_count; f_annotated_assign_count;
   f_unannotated_assign_count; f_total_func_params_count;
   f_annotated_func_params_count; f_unannotated_func_params_count;
   f_total_func_returns_count; f_annotated_func_returns_count;
   f_unannotated_func_returns_count].

Definition getattr (o : AnnotationScanStatsBase) (f : field) : Z :=
  match f with
  | f_total_assign_count => total_assign_count o
  | f_annotated_assign_count => annotated_assign_count o
  | f_unannotated_assign_count => unannotated_assign_count o
  | f_total_func_params_count => total_func_params_count o
  | f_annotated_func_params_count => annotated_func_params_count o
  | f_unannotated_func_params_count => unannotated_func_params_count o
  | f_total_func_returns_count => total_func_returns_count o
  | f_annotated_func_returns_count => annotated_func_returns_count o
  | f_unannotated_func_returns_count => unannotated_func_returns_count o
  end.

Definition setattr (o : AnnotationScanStatsBase) (f : field) (v : Z)
    : AnnotationScanStatsBase :=
  let (a1, a2, a3, p1, p2, p3, r1, r2, r3) := o in
  match f with
  | f_total_assign_count =>
      Build_AnnotationScanStatsBase v a2 a3 p1 p2 p3 r1 r2 r3
  | f_annotated_assign_count =>
      Build_AnnotationScanStatsBase a1 v a3 p1 p2 p3 r1 r2 r3
  | f_unannotated_assign_count =>
      Build_AnnotationScanStatsBase a1 a2 v p1 p2 p3 r1 r2 r3
  | f_total_func_params_count =>
      Build_AnnotationScanStatsBase a1 a2 a3 v p2 p3 r1 r2 r3
  | f_annotated_func_params_count =>
      Build_AnnotationScanStatsBase a1 a2 a3 p1 v p3 r1 r2 r3
  | f_unannotated_func_params_count =>
      Build_AnnotationScanStatsBase a1 a2 a3 p1 p2 v r1 r2 r3
  | f_total_func_returns_count =>
      Build_AnnotationScanStatsBase a1 a2 a3 p1 p2 p3 v r2 r3
  | f_annotated_func_returns_count =>
      Build_AnnotationScanStatsBase a1 a2 a3 p1 p2 p3 r1 v r3
  | f_unannotated_func_returns_count =>
      Build_AnnotationScanStatsBase a1 a2 a3 p1 p2 p3 r1 r2 v
  end.

(** [AnnotationScanGroupResult.__init__]: [*([0] * 9)]. *)
Definition zeros : AnnotationScanStatsBase :=
  Build_AnnotationScanStatsBase 0 0 0 0 0 0 0 0 0.

(** The attribute values [_add_result] leaves in [self]. *)
Definition _add_result (self result : AnnotationScanStatsBase)
    : AnnotationScanStatsBase :=
  fold_left
    (fun self field_name =>
       let val := getattr self field_name in
       let new_val := val + getattr result field_name in
       setattr self field_name new_val)
    fields self.

(** *** What the scanner takes from its runtime

    The parser and the file system are outside the program: [ast.parse]
    (a [SyntaxError] for text that is not valid Python),
    [str(charset_normalizer.from_path(file_path).best())] and
    [folder_path.glob(glob)]. *)
Class Runtime := {
  ast_parse : string -> result mod_;
  from_path_best : string -> result string;
  path_glob : string -> string -> list string
}.

(** *** [AnnotationScanner] *)

(** The three lists [scan_text] fills. *)
Record token_lists := {
  l_assignments : list AnnotationItemBase;
  l_func_params : list AnnotationItemBase;
  l_func_returns : list AnnotationItemBase
}.

Definition isinstance_assign (n : node) : bool :=
  match n with
  | NStmt (AnnAssign _ _ _ _ _) | NStmt (Assign _ _ _ _) => true
  | _ => false
  end.

Definition isinstance_arg (n : node) : bool :=
  match n with NArg _ => true | _ => false end.

Definition isinstance_funcdef (n : node) : bool :=
  match n with
  | NStmt (FunctionDef _ _ _ _ _ _ _)
  | NStmt (AsyncFunctionDef _ _ _ _ _ _ _) => true
  | _ => false
  end.

(** The body of the loop over [ast.walk(tree)]. *)
Definition scan_node (acc : token_lists) (n : node) : result token_lists :=
  do acc1 <-
    (if isinstance_assign n
     then do t <- Assignment n;
          Ok {| l_assignments := l_assignments acc ++ [t];
                l_func_params := l_func_params acc;
                l_func_returns := l_func_returns acc |}
     else Ok acc);
  do acc2 <-
    (if isinstance_arg n
     then do t <- FunctionParameter n;
          Ok {| l_assignments := l_assignments acc1;
                l_func_params := l_func_params acc1 ++ [t];
                l_func_returns := l_func_returns acc1 |}
     else Ok acc1);
  if isinstance_funcdef n
  then do t <- FunctionReturn n;
       Ok {| l_assignments := l_assignments acc2;
             l_func_params := l_func_params acc2;
             l_func_returns := l_func_returns acc2 ++ [t] |}
  else Ok acc2.

Fixpoint scan_nodes (acc : token_lists) (nodes : list node)
    : result token_lists :=
  match nodes with
  | [] => Ok acc
  | n :: nodes' => do acc' <- scan_node acc n; scan_nodes acc' nodes'
  end.

(** [scan_text], from the parsed tree on. *)
Definition scan_tree (tree : mod_) : result AnnotationScanResult :=
  do acc <- scan_nodes
              {| l_assignments := []; l_func_params := [];
                 l_func_returns := [] |}
              (walk (NMod tree));
  Ok (AnnotationScanResult_init (l_assignments acc) (l_func_params acc)
        (l_func_returns acc)).

Definition scan_text `{Runtime} (code : string)
    : result AnnotationScanResult :=
  do tree <- ast_parse code; scan_tree tree.

Definition scan_file `{Runtime} (file_path : string)
    : result AnnotationScanResult :=
  do text <- from_path_best file_path; scan_text text.

(** *** Objects

    A group result is a mutable object: the store maps its address to its
    nine attributes, and a variable or a yielded tuple holds the address. *)
Definition address := positive.

Abbreviation store := (gmap address AnnotationScanStatsBase).

(** [AnnotationScanGroupResult()]: a new object, all counters zero. *)
Definition AnnotationScanGroupResult (h : store) : store * address :=
  let a := fresh (dom h) in (<[a := zeros]> h, a).

(** [self + result]: [_add_result] changes the attributes of [self] in
    the store, and the value of the expression is [self]. *)
Definition __add__ (h : store) (self : address)
    (result : AnnotationScanStatsBase) : store * address :=
  (alter (fun o => _add_result o result) self h, self).

(** *** The generator of [scan_files] *)

Inductive generator :=
| Created (paths : list string)
| Suspended (result : address) (paths : list string)
| Closed.

(** What a call of [next] gives: the yielded triple, the end of the
    iteration, or the exception that left the generator. *)
Inductive outcome :=
| Yielded (summary : address) (file_path : string)
    (file_result : AnnotationScanResult)
| StopIteration
| Raised (e : exn).

(** One turn of [for file_path in paths], up to the [yield]. *)
Definition for_paths `{Runtime} (h : store) (result : address)
    (paths : list string) : store * generator * outcome :=
  match paths with
  | [] => (h, Closed, StopIteration)
  | file_path :: paths' =>
      match scan_file file_path with
      | Raise e => (h, Closed, Raised e)
      | Ok file_result =>
          let (h', result') := __add__ h result (stats file_result) in
          (h', Suspended result' paths',
           Yielded result' file_path file_result)
      end
  end.

(** [next(gen)]: the body runs from its start, or from the last [yield],
    to the next [yield]. *)
Definition next `{Runtime} (h : store) (g : generator)
    : store * generator * outcome :=
  match g with
  | Created paths =>
      let (h', result) := AnnotationScanGroupResult h in
      for_paths h' result paths
  | Suspended result paths => for_paths h result paths
  | Closed => (h, Closed, StopIteration)
  end.

(** [n] calls of [next] in a row, with what each gave. *)
Fixpoint nexts `{Runtime} (n : nat) (h : store) (g : generator)
    : store * generator * list outcome :=
  match n with
  | O => (h, g, [])
  | S n' =>
      let '(h1, g1, o) := next h g in
      let '(h2, g2, os) := nexts n' h1 g1 in
      (h2, g2, o :: os)
  end.

Definition scan_files (paths : list string) : generator :=
  Created paths.

(** [scan_folder]: [None] if no path is found, the generator of
    [scan_files] otherwise. *)
Definition scan_folder `{Runtime} (folder_path : string) (glob : string)
    : option generator :=
  let file_paths := Natsort.humansorted (path_glob folder_path glob) in
  if (len file_paths =? 0)%Z then None else Some (scan_files file_paths).

(** *** Notions the properties are stated with *)

(** The tokens a constructor gives the nodes of a class, in their order. *)
Definition tokens_of (isinstance : node -> bool)
    (init : node -> result AnnotationItemBase) (nodes : list node)
    : list AnnotationItemBase :=
  flat_map
    (fun n =>
       if isinstance n
       then match init n with Ok t => [t] | Raise _ => [] end
       else [])
    nodes.

(** The lists after the loop has met [nodes], from the lists [acc]. *)
Definition collected (acc : token_lists) (nodes : list node) : token_lists :=
  {| l_assignments :=
       (l_assignments acc ++ tokens_of isinstance_assign Assignment nodes)%list;
     l_func_params :=
       (l_func_params acc
          ++ tokens_of isinstance_arg FunctionParameter nodes)%list;
     l_func_returns :=
       (l_func_returns acc
          ++ tokens_of isinstance_funcdef FunctionReturn nodes)%list |}.

(** The indicator of a class of nodes, as a weight. *)
Definition indicator (isinstance : node -> bool) (n : node) : nat :=
  if isinstance n then 1%nat else 0%nat.

(** The number of nodes of a class in a tree. *)
Definition count_nodes (isinstance : node -> bool) (tree : mod_) : nat :=
  measure (indicator isinstance) (NMod tree).

(** In the words of the specification: the node binds one or more names
    to a value.  The assignment forms of the language do, when they have
    a target and a value; a bare annotated declaration has no value. *)
Definition binds_names_to_value (n : node) : bool :=
  match n with
  | NStmt (Assign _ targets _ _) =>
      match targets with [] => false | _ :: _ => true end
  | NStmt (AnnAssign _ _ _ value _) =>
      match value with Some _ => true | None => false end
  | NStmt (AugAssign _ _ _ _) => true
  | NExpr (NamedExpr _ _) => true
  | _ => false
  end.

(** The header the printer gives a definition: a line per decorator,
    then the keyword, the name, the parameters and the return
    annotation. *)
Definition header (async : bool) (name : string) (args : arguments)
    (decorator_list : list expr) (returns : option expr) : string :=
  Astunparse.decorators 0 decorator_list
    ++ Astunparse.fill 0
         ((if async then "async def" else "def") ++ " " ++ name ++ "(")
    ++ Astunparse._arguments args ++ ")"
    ++ match returns with
       | Some r => " -> " ++ Astunparse.dispatch_expr r
       | None => ""
       end.

(** The same definition with another body. *)
Definition set_body (body : list stmt) (s : stmt) : stmt :=
  match s with
  | FunctionDef pos name args _ decorator_list returns type_comment =>
      FunctionDef pos name args body decorator_list returns type_comment
  | AsyncFunctionDef pos name args _ decorator_list returns type_comment =>
      AsyncFunctionDef pos name args body decorator_list returns
        type_comment
  | _ => s
  end.

(** The three counters of a category agree with its list of tokens. *)
Definition category_counted (tokens : list AnnotationItemBase)
    (total annotated unannotated : Z) : Prop :=
  total = Z.of_nat (length tokens)
  /\ annotated
     = Z.of_nat (count_occ bool_dec (map is_annotated tokens) true)
  /\ annotated + unannotated = total.

Definition counters_agree (r : AnnotationScanResult) : Prop :=
  category_counted (assignments r) (total_assign_count (stats r))
    (annotated_assign_count (stats r)) (unannotated_assign_count (stats r))
  /\ category_counted (func_params r) (total_func_params_count (stats r))
       (annotated_func_params_count (stats r))
       (unannotated_func_params_count (stats r))
  /\ category_counted (func_returns r) (total_func_returns_count (stats r))
       (annotated_func_returns_count (stats r))
       (unannotated_func_returns_count (stats r)).

(** A token has an annotation text exactly when it is annotated. *)
Definition annotation_invariant (t : AnnotationItemBase) : Prop :=
  (is_annotated t = false -> annotated_text t = None)
  /\ (is_annotated t = true -> annotated_text t <> None).

(** The sum of the counters of a list of per-file results, from zero. *)
Definition fold_results (results : list AnnotationScanResult)
    : AnnotationScanStatsBase :=
  fold_left (fun acc r => _add_result acc (stats r)) results zeros.

(** The triples a generator yields for paths with these results, all
    carrying the summary [a]. *)
Definition triples (a : address) (paths : list string)
    (results : list AnnotationScanResult) : list outcome :=
  map (fun pr => Yielded a (fst pr) (snd pr)) (combine paths results).

(** The paths and the summaries a list of outcomes yielded. *)
Definition yielded_paths (os : list outcome) : list string :=
  flat_map (fun o => match o with Yielded _ p _ => [p] | _ => [] end) os.

Definition yielded_summaries (os : list outcome) : list address :=
  flat_map (fun o => match o with Yielded a _ _ => [a] | _ => [] end) os.

End Scanner.

(** ** A sample runtime

    The texts of the examples with the trees [ast.parse] gives them, and a
    small file system holding them. *)

Module Sample.
Import Ast Scanner.

Definition line (n : Z) : position :=
  {| lineno := n; end_lineno := Some n |}.

Definition lines (n m : Z) : position :=
  {| lineno := n; end_lineno := Some m |}.

Definition no_arguments : arguments := mk_arguments [] [] None [] [] None [].

(** [a = 1] *)
Definition plain_src : string := "a = 1".
Definition plain_tree : mod_ :=
  Module [Assign (line 1) [Name "a" Store] (Constant (CInt 1)) None].

(** [b: int = 2 + 2] *)
Definition annotated_src : string := "b: int = 2 + 2".
Definition annotated_tree : mod_ :=
  Module [AnnAssign (line 1) (Name "b" Store) (Name "int" Load)
            (Some (BinOp (Constant (CInt 2)) Add (Constant (CInt 2)))) 1].

(** [def foo(bar) -> None:] with the body [print(bar + 2)] *)
Definition foo_src : string :=
  "def foo(bar) -> None:" ++ Str.newline ++ "    print(bar + 2)".
Definition foo_body : list stmt :=
  [Expr (line 2)
     (Call (Name "print" Load)
        [BinOp (Name "bar" Load) Add (Constant (CInt 2))])].
Definition foo_def : stmt :=
  FunctionDef (lines 1 2) "foo"
    (mk_arguments [] [mk_arg (line 1) "bar" None None] None [] [] None [])
    foo_body [] (Some (Constant CNone)) None.
Definition foo_tree : mod_ := Module [foo_def].

(** [async def hmm() -> 9:] with the body [...] *)
Definition hmm_src : string :=
  "async def hmm() -> 9:" ++ Str.newline ++ "    ...".
Definition hmm_def : stmt :=
  AsyncFunctionDef (lines 1 2) "hmm" no_arguments
    [Expr (line 2) (Constant CEllipsis)] [] (Some (Constant (CInt 9))) None.
Definition hmm_tree : mod_ := Module [hmm_def].

(** [a = b = 1] *)
Definition chained_src : string := "a = b = 1".
Definition chained_tree : mod_ :=
  Module [Assign (line 1) [Name "a" Store; Name "b" Store]
            (Constant (CInt 1)) None].

(** [a, b = 1, 2] *)
Definition unpacking_src : string := "a, b = 1, 2".
Definition unpacking_tree : mod_ :=
  Module [Assign (line 1)
            [Tuple [Name "a" Store; Name "b" Store] Store]
            (Tuple [Constant (CInt 1); Constant (CInt 2)] Load) None].

(** [x: int], a declaration without a value *)
Definition declaration_src : string := "x: int".
Definition declaration : stmt :=
  AnnAssign (line 1) (Name "x" Store) (Name "int" Load) None 1.
Definition declaration_tree : mod_ := Module [declaration].

(** [x += 1] *)
Definition augmented_src : string := "x += 1".
Definition augmented : stmt :=
  AugAssign (line 1) (Name "x" Store) Add (Constant (CInt 1)).
Definition augmented_tree : mod_ := Module [augmented].

(** The results of scanning three of the texts. *)
Definition result_of (tree : mod_) : AnnotationScanResult :=
  match scan_tree tree with
  | Ok r => r
  | Raise _ => AnnotationScanResult_init [] [] []
  end.
Definition plain_result : AnnotationScanResult := result_of plain_tree.
Definition annotated_result : AnnotationScanResult :=
  result_of annotated_tree.
Definition foo_result : AnnotationScanResult := result_of foo_tree.

(** A text that is not Python. *)
Definition broken_src : string := "def broken(:".

Definition parses : list (string * mod_) :=
  [(plain_src, plain_tree); (annotated_src, annotated_tree);
   (foo_src, foo_tree); (hmm_src, hmm_tree);
   (chained_src, chained_tree); (unpacking_src, unpacking_tree);
   (declaration_src, declaration_tree);
   (augmented_src, augmented_tree)].

Fixpoint assoc {A} (k : string) (l : list (string * A)) : option A :=
  match l with
  | [] => None
  | (k', v) :: l' => if String.eqb k k' then Some v else assoc k l'
  end.

Definition files : list (string * string) :=
  [("f1.py", plain_src); ("f2.py", annotated_src); ("f10.py", foo_src);
   ("mixed/a.py", plain_src); ("mixed/b.py", broken_src);
   ("mixed/c.py", annotated_src)].

Definition folders : list (string * list string) :=
  [(".", ["f2.py"; "f10.py"; "f1.py"]);
   ("mixed", ["mixed/c.py"; "mixed/b.py"; "mixed/a.py"]);
   ("empty", [])].

#[export] Instance runtime : Runtime := {|
  ast_parse code :=
    match assoc code parses with
    | Some tree => Ok tree
    | None => Raise (SyntaxError "invalid syntax")
    end;
  from_path_best file_path :=
    match assoc file_path files with
    | Some text => Ok text
    | None => Raise (OSError "No such file or directory")
    end;
  path_glob folder_path _ :=
    match assoc folder_path folders with
    | Some paths => paths
    | None => []
    end
|}.

End Sample.

(** ** Classes of nodes behind the counters *)

Module Census.
Import Ast Scanner.

Definition annotated_assign (n : node) : bool :=
  match n with NStmt (AnnAssign _ _ _ _ _) => true | _ => false end.

Definition plain_assign (n : node) : bool :=
  match n with NStmt (Assign _ _ _ _) => true | _ => false end.

Definition annotated_arg (n : node) : bool :=
  match n with NArg (mk_arg _ _ (Some _) _) => true | _ => false end.

Definition plain_arg (n : node) : bool :=
  match n with NArg (mk_arg _ _ None _) => true | _ => false end.

Definition annotated_funcdef (n : node) : bool :=
  match n with
  | NStmt (FunctionDef _ _ _ _ _ (Some _) _)
  | NStmt (AsyncFunctionDef _ _ _ _ _ (Some _) _) => true
  | _ => false
  end.

Definition plain_funcdef (n : node) : bool :=
  match n with
  | NStmt (FunctionDef _ _ _ _ _ None _)
  | NStmt (AsyncFunctionDef _ _ _ _ _ None _) => true
  | _ => false
  end.

(** The counters of a tree, read off the classes of its nodes. *)
Definition census (tree : mod_) : AnnotationScanStatsBase :=
  {| total_assign_count := Z.of_nat (count_nodes isinstance_assign tree);
     annotated_assign_count := Z.of_nat (count_nodes annotated_assign tree);
     unannotated_assign_count := Z.of_nat (count_nodes plain_assign tree);
     total_func_params_count := Z.of_nat (count_nodes isinstance_arg tree);
     annotated_func_params_count :=
       Z.of_nat (count_nodes annotated_arg tree);
     unannotated_func_params_count := Z.of_nat (count_nodes plain_arg tree);
     total_func_returns_count :=
       Z.of_nat (count_nodes isinstance_funcdef tree);
     annotated_func_returns_count :=
       Z.of_nat (count_nodes annotated_funcdef tree);
     unannotated_func_returns_count :=
       Z.of_nat (count_nodes plain_funcdef tree) |}.

(** A node that is not a statement or a module: an expression, a
    parameter list, a parameter, a context or an operator. *)
Definition below_statements (n : node) : bool :=
  match n with
  | NMod _ | NStmt _ => false
  | _ => true
  end.

(** All counters are at least zero. *)
Definition nonnegative (o : AnnotationScanStatsBase) : Prop :=
  forall f : field, 0 <= getattr o f.

(** In each category the annotated and the unannotated make the total. *)
Definition balanced (o : AnnotationScanStatsBase) : Prop :=
  annotated_assign_count o + unannotated_assign_count o
  = total_assign_count o
  /\ annotated_func_params_count o + unannotated_func_params_count o
     = total_func_params_count o
  /\ annotated_func_returns_count o + unannotated_func_returns_count o
     = total_func_returns_count o.

(** A text with no white space at its start or at its end: stripping
    either end leaves it as it is. *)
Definition trimmed (s : string) : Prop :=
  Str.lstrip s = s /\ Str.rstrip s = s.

End Census.

(** ** Paths with one sort key *)

Module Ties.
Import Natsort.

(** The path has the key [k]: it ties with every path of that key. *)
Definition has_key (k : list component) (path : string) : bool :=
  match key_compare (natsort_key path) k with
  | Eq => true
  | _ => false
  end.

End Ties.

(** ** The callers of the scanner ([06_compute_metrics.py]) *)

Module Metrics.
Import Ast Scanner.

(** *** Exceptions and results *)

(** What can leave a function of this layer: an exception of the scanner
    passing through, or one raised here. *)
Inductive raised :=
| ScanError (e : exn)
| IndexError
| ValueError
| SummaryTypeError
| UnboundLocalError
| WrongDirectoryName (dir_name : string).

Inductive answer (A : Type) :=
| Returns (a : A)
| Raises (e : raised).
Arguments Returns {A} a.
Arguments Raises {A} e.

(** *** Strings *)

(** [len(s)] *)
Definition strlen (s : string) : Z := Z.of_nat (String.length s).

(** [s[:stop]]: a negative [stop] counts from the end, and the bounds are
    clipped. *)
Definition slice_to (s : string) (stop : Z) : string :=
  let stop' :=
    if (stop <? 0)%Z then Z.max (stop + strlen s) 0
    else Z.min stop (strlen s) in
  String.substring 0 (Z.to_nat stop') s.

(** [s[i]]: a negative [i] counts from the end; [None] is the
    [IndexError] of an index out of range. *)
Definition item (s : string) (i : Z) : option ascii :=
  let i' := if (i <? 0)%Z then i + strlen s else i in
  if ((0 <=? i') && (i' <? strlen s))%Z then String.get (Z.to_nat i') s
  else None.

(** [s.ljust(width)] *)
Definition ljust (s : string) (width : Z) : string :=
  s ++ Str.repeat " " (Z.to_nat (width - strlen s)).

(** [s.split(sep, 1)] for a separator of one character: the text before
    its first occurrence and the text after it, or the text alone. *)
Fixpoint split_once (sep : ascii) (s : string) : list string :=
  match s with
  | EmptyString => [""]
  | String c s' =>
      if Ascii.eqb c sep then [""; s']
      else match split_once sep s' with
           | part :: parts => String c part :: parts
           | [] => []
           end
  end.

(** *** [short_path] *)

Definition default_delim : string := " .. ".

(** [int(max_len/2)] rounds toward zero. *)
Definition short_path (path : string) (max_len : Z) (delim : string)
    : answer string :=
  let half_mlen := Z.quot max_len 2 in
  let delim_len := strlen delim in
  let reduced_half_mlen := half_mlen - delim_len in
  if (strlen path <=? max_len)%Z then Returns (ljust path max_len)
  else
    match item path (- reduced_half_mlen) with
    | Some c => Returns (slice_to path half_mlen ++ delim ++ String c "")
    | None => Raises IndexError
    end.

(** *** Dictionaries

    A [dict] keeps its keys in the order they were first set. *)
Inductive value :=
| VInt (z : Z)
| VStr (s : string).

Definition dict := list (string * value).

(** [d.get(key)], or [key in d] when only its presence is looked at. *)
Fixpoint dict_get (d : dict) (key : string) : option value :=
  match d with
  | [] => None
  | (k, v) :: d' => if String.eqb k key then Some v else dict_get d' key
  end.

(** [d[key] = v]: in place for a key of [d], at the end for a new key. *)
Fixpoint dict_set (d : dict) (key : string) (v : value) : dict :=
  match d with
  | [] => [(key, v)]
  | (k, v') :: d' =>
      if String.eqb k key then (k, v) :: d'
      else (k, v') :: dict_set d' key v
  end.

Definition keys (d : dict) : list string := map fst d.

(** [a + b] on the values of a summary; numbers add, texts join, a number
    and a text raise [TypeError]. *)
Definition value_add (a b : value) : answer value :=
  match a, b with
  | VInt x, VInt y => Returns (VInt (x + y))
  | VStr x, VStr y => Returns (VStr (x ++ y))
  | _, _ => Raises SummaryTypeError
  end.

(** The step both loops of [ScanSummary._add_result] share:
    [self[key] += val] for a key of [self], [self[key] = val] otherwise. *)
Definition summary_put (self : dict) (key : string) (val : value)
    : answer dict :=
  match dict_get self key with
  | Some old =>
      match value_add old val with
      | Returns new => Returns (dict_set self key new)
      | Raises e => Raises e
      end
  | None => Returns (dict_set self key val)
  end.

(** What [summary_put] leaves in [self] for a number, when [self] has
    no text under the key. *)
Definition put_int (self : dict) (key : string) (z : Z) : dict :=
  dict_set self key
    (VInt match dict_get self key with
          | Some (VInt x) => x + z
          | _ => z
          end).

(** The key is not bound to a text. *)
Definition no_text (self : dict) (key : string) : Prop :=
  forall s : string, dict_get self key <> Some (VStr s).

Fixpoint summary_put_all (self : dict) (items : list (string * value))
    : answer dict :=
  match items with
  | [] => Returns self
  | (key, val) :: items' =>
      match summary_put self key val with
      | Returns self' => summary_put_all self' items'
      | Raises e => Raises e
      end
  end.

(** *** What a scanner returns *)

(** The name of a field of the statistics dataclass. *)
Definition field_name (f : field) : string :=
  match f with
  | f_total_assign_count => "total_assign_count"
  | f_annotated_assign_count => "annotated_assign_count"
  | f_unannotated_assign_count => "unannotated_assign_count"
  | f_total_func_params_count => "total_func_params_count"
  | f_annotated_func_params_count => "annotated_func_params_count"
  | f_unannotated_func_params_count => "unannotated_func_params_count"
  | f_total_func_returns_count => "total_func_returns_count"
  | f_annotated_func_returns_count => "annotated_func_returns_count"
  | f_unannotated_func_returns_count => "unannotated_func_returns_count"
  end.

(** [dir(result)] without the names that start with an underscore, for a
    group result: its nine fields, sorted by name as [dir] sorts. *)
Definition public_dir : list field :=
  [f_annotated_assign_count; f_annotated_func_params_count;
   f_annotated_func_returns_count; f_total_assign_count;
   f_total_func_params_count; f_total_func_returns_count;
   f_unannotated_assign_count; f_unannotated_func_params_count;
   f_unannotated_func_returns_count].

(** What [scanner.scan_folder] hands to the summary: a dictionary, a group
    result with the attributes it has then, or [None]. *)
Inductive scanned :=
| SDict (d : dict)
| SGroup (o : AnnotationScanStatsBase)
| SNone.

(** The pairs the second loop of [_add_result] meets for a group result:
    every public attribute is an [int]. *)
Definition group_items (o : AnnotationScanStatsBase)
    : list (string * value) :=
  map (fun f => (field_name f, VInt (getattr o f))) public_dir.

(** The numbers of a group result put into a summary one field at a
    time. *)
Definition put_fields (o : AnnotationScanStatsBase) (l : list field)
    (d : dict) : dict :=
  fold_left (fun d f => put_int d (field_name f) (getattr o f)) l d.

(** [ScanSummary._add_result]; [None] has no public attribute. *)
Definition summary_add_result (self : dict) (result : scanned)
    : answer dict :=
  match result with
  | SDict d => summary_put_all self d
  | SGroup o => summary_put_all self (group_items o)
  | SNone => Returns self
  end.

(** [AnnotationScanResult.get_stats_dict]: [asdict] goes by the fields of
    the statistics dataclass, in the order of their declaration. *)
Definition get_stats_dict (r : AnnotationScanResult) : dict :=
  map (fun f => (field_name f, VInt (getattr (stats r) f))) fields.

(** *** [RepositoryNameScanner] and the folder names of
    [05_clone_repos.py] *)

(** [f"{repo.name}@{repo.owner}"] *)
Definition dest_folder (name owner : string) : string :=
  name ++ "@" ++ owner.

(** [get_name_with_owner] *)
Definition get_name_with_owner (owner name : string) : string :=
  owner ++ "/" ++ name.

(** [RepositoryNameScanner.scan_folder], from [dir_name = dir_path.name]
    on. *)
Definition RepositoryNameScanner_scan_folder (dir_name : string)
    : answer dict :=
  if negb (Str.contains "@" dir_name)
  then Raises (WrongDirectoryName dir_name)
  else
    match split_once "@" dir_name with
    | [repo_name; repo_owner] =>
        let full_name := repo_owner ++ "/" ++ repo_name in
        Returns [("name", VStr full_name)]
    | _ => Raises ValueError
    end.

(** *** [AnnotationScannerProxy] *)

(** The process the scanners run in:
    [str(Path(file_path).relative_to(os.getcwd()))], with [None] for the
    [ValueError] of a path outside the working directory, and
    [Path(dir_path).name]. *)
Class Process := {
  relative_to_cwd : string -> option string;
  path_name : string -> string
}.

(** The paths a generator has not reached yet. *)
Definition pending (g : generator) : nat :=
  match g with
  | Created paths | Suspended _ paths => length paths
  | Closed => 0%nat
  end.

Definition carriage_return : string := String (ascii_of_nat 13) "".

(** The body of the loop: the line printed for a file. *)
Definition progress_line `{Process} (file_path : string) : answer string :=
  match relative_to_cwd file_path with
  | None => Raises ValueError
  | Some print_path =>
      match short_path print_path 75 default_delim with
      | Raises e => Raises e
      | Returns print_path' =>
          Returns ("AnnotationScanner: scanning " ++ print_path'
                     ++ carriage_return)
      end
  end.

(** [for summary, file_path, file_res in gen: ...] then [return summary].
    [stdout] collects what is printed.  The loop makes one turn per
    pending path and one more for the end; [None] stands for fuel that
    ran out before the generator ended. *)
Fixpoint proxy_loop `{Runtime} `{Process} (fuel : nat) (h : store)
    (stdout : list string) (gen : generator) (summary : option address)
    : option (store * list string * answer address) :=
  match fuel with
  | O => None
  | S fuel' =>
      match next h gen with
      | (h', _, Raised e) => Some (h', stdout, Raises (ScanError e))
      | (h', _, StopIteration) =>
          Some (h', stdout,
                match summary with
                | Some a => Returns a
                | None => Raises UnboundLocalError
                end)
      | (h', gen', Yielded summary' file_path _) =>
          match progress_line file_path with
          | Raises e => Some (h', stdout, Raises e)
          | Returns line =>
              proxy_loop fuel' h' (stdout ++ [line]) gen' (Some summary')
          end
      end
  end.

(** [AnnotationScannerProxy.scan_folder] *)
Definition AnnotationScannerProxy_scan_folder `{Runtime} `{Process}
    (h : store) (stdout : list string) (dir_path : string)
    : option (store * list string * answer address) :=
  match scan_folder dir_path "**/*.py" with
  | None =>
      let (h', a) := AnnotationScanGroupResult h in
      Some (h', stdout, Returns a)
  | Some gen => proxy_loop (S (pending gen)) h stdout gen None
  end.

(** *** [scan_folder(dir_path, scanners)] *)

(** A scanner class, by its [scan_folder]: it may change the store and
    print, and it returns or raises. *)
Definition scanner : Type :=
  store -> list string -> string
  -> option (store * list string * answer scanned).

Definition RepositoryNameScanner `{Process} : scanner :=
  fun h stdout dir_path =>
    match RepositoryNameScanner_scan_folder (path_name dir_path) with
    | Returns d => Some (h, stdout, Returns (SDict d))
    | Raises e => Some (h, stdout, Raises e)
    end.

(** The proxy returns the group result; the summary reads the attributes
    the object has then. *)
Definition AnnotationScannerProxy `{Runtime} `{Process} : scanner :=
  fun h stdout dir_path =>
    match AnnotationScannerProxy_scan_folder h stdout dir_path with
    | Some (h', stdout', Returns a) =>
        match h' !! a with
        | Some o => Some (h', stdout', Returns (SGroup o))
        | None => None
        end
    | Some (h', stdout', Raises e) => Some (h', stdout', Raises e)
    | None => None
    end.

(** The loop of [scan_folder]: [scan_summary += result] for the result of
    each scanner in turn. *)
Fixpoint scan_folder_loop (scanners : list scanner) (h : store)
    (stdout : list string) (dir_path : string) (scan_summary : dict)
    : option (store * list string * answer dict) :=
  match scanners with
  | [] => Some (h, stdout, Returns scan_summary)
  | scanner :: scanners' =>
      match scanner h stdout dir_path with
      | None => None
      | Some (h', stdout', Raises e) => Some (h', stdout', Raises e)
      | Some (h', stdout', Returns result) =>
          match summary_add_result scan_summary result with
          | Raises e => Some (h', stdout', Raises e)
          | Returns scan_summary' =>
              scan_folder_loop scanners' h' stdout' dir_path scan_summary'
          end
      end
  end.

Definition scan_folder_with (scanners : list scanner) (h : store)
    (stdout : list string) (dir_path : string)
    : option (store * list string * answer dict) :=
  scan_folder_loop scanners h stdout dir_path [].

End Metrics.

(** ** A sample process *)

Module SampleProcess.
Import Scanner Metrics.

(** The working directory is the root of the sample file system, and the
    folder [.] stands for the clone [demo@someone]. *)
#[export] Instance process : Process := {|
  relative_to_cwd file_path := Some file_path;
  path_name dir_path :=
    if String.eqb dir_path "." then "demo@someone" else dir_path
|}.

End SampleProcess.

(** * Properties *)

Import Ast Scanner.

Local Open Scope list_scope.

(** ** Trees and their traversal *)

Section Traversal.
Variable w : node -> nat.

Lemma sum_with_app {A} (f : A -> nat) (l1 l2 : list A) :
  sum_with f (l1 ++ l2) = (sum_with f l1 + sum_with f l2)%nat.
Proof.
  induction l1 as [|a l1 IH]; simpl; [reflexivity|].
  rewrite IH. lia.
Qed.

Lemma sum_with_map {A} (g : A -> node) (f : A -> nat) (l : list A) :
  (forall a, measure w (g a) = f a) ->
  sum_with (measure w) (map g l) = sum_with f l.
Proof.
  intros Hg. induction l as [|a l IH]; simpl; [reflexivity|].
  now rewrite IH, Hg.
Qed.

Lemma sum_with_opt_nodes {A} (g : A -> node) (f : A -> nat)
    (o : option A) :
  (forall a, measure w (g a) = f a) ->
  sum_with (measure w) (opt_nodes g o) = opt_with f o.
Proof. intros Hg. destruct o; simpl; rewrite ?Hg; lia. Qed.

Lemma sum_with_opts_nodes {A} (g : A -> node) (f : A -> nat)
    (l : list (option A)) :
  (forall a, measure w (g a) = f a) ->
  sum_with (measure w) (opts_nodes g l) = sum_with (opt_with f) l.
Proof.
  intros Hg. unfold opts_nodes.
  induction l as [|o l IH]; simpl; [reflexivity|].
  rewrite sum_with_app, IH, (sum_with_opt_nodes g f); auto.
Qed.

Lemma sum_with_stmts (l : list stmt) :
  sum_with (measure w) (map NStmt l) = sum_with (measure_stmt w) l.
Proof. now apply sum_with_map. Qed.

Lemma sum_with_exprs (l : list expr) :
  sum_with (measure w) (map NExpr l) = sum_with (measure_expr w) l.
Proof. now apply sum_with_map. Qed.

Lemma sum_with_args (l : list arg) :
  sum_with (measure w) (map NArg l) = sum_with (measure_arg w) l.
Proof. now apply sum_with_map. Qed.

Lemma sum_with_opt_expr (o : option expr) :
  sum_with (measure w) (opt_nodes NExpr o) = opt_with (measure_expr w) o.
Proof. now apply sum_with_opt_nodes. Qed.

Lemma sum_with_opt_arg (o : option arg) :
  sum_with (measure w) (opt_nodes NArg o) = opt_with (measure_arg w) o.
Proof. now apply sum_with_opt_nodes. Qed.

Lemma sum_with_opt_exprs (l : list (option expr)) :
  sum_with (measure w) (opts_nodes NExpr l)
  = sum_with (opt_with (measure_expr w)) l.
Proof. now apply sum_with_opts_nodes. Qed.

(** The measure of a node is its weight and the measures of its
    children. *)
Lemma measure_children (n : node) :
  measure w n = (w n + sum_with (measure w) (iter_child_nodes n))%nat.
Proof.
  destruct n as [[body]|s|e|a|a|c|o]; simpl.
  - now rewrite sum_with_stmts.
  - destruct s; simpl;
      rewrite ?sum_with_app, ?sum_with_stmts, ?sum_with_exprs,
        ?sum_with_opt_expr; simpl; lia.
  - destruct e; simpl;
      rewrite ?sum_with_app, ?sum_with_exprs; simpl; lia.
  - destruct a; simpl.
    rewrite ?sum_with_app, ?sum_with_args, ?sum_with_exprs,
      ?sum_with_opt_arg, ?sum_with_opt_exprs. lia.
  - destruct a; simpl. rewrite sum_with_opt_expr. reflexivity.
  - lia.
  - lia.
Qed.
End Traversal.

Lemma node_count_pos (n : node) : (1 <= node_count n)%nat.
Proof. unfold node_count. rewrite measure_children. lia. Qed.

(** With one unit of fuel per node of the queue, the loop of [walk] ends
    on the empty queue, and what it yields weighs what the queue
    measures. *)
Lemma walk_todo_sum (w : node -> nat) (fuel : nat) :
  forall todo : list node,
    (sum_with node_count todo <= fuel)%nat ->
    sum_with w (walk_todo fuel todo) = sum_with (measure w) todo.
Proof.
  induction fuel as [|fuel IH]; intros todo Hfuel.
  - destruct todo as [|n rest]; [reflexivity|].
    simpl in Hfuel. pose proof (node_count_pos n). lia.
  - destruct todo as [|n rest]; [reflexivity|].
    simpl. rewrite IH.
    + rewrite sum_with_app, (measure_children w n). lia.
    + simpl in Hfuel. rewrite sum_with_app.
      unfold node_count in *.
      rewrite (measure_children (fun _ => 1%nat) n) in Hfuel. lia.
Qed.

Lemma walk_sum (w : node -> nat) (n : node) :
  sum_with w (walk n) = measure w n.
Proof.
  unfold walk. rewrite walk_todo_sum; simpl; lia.
Qed.

(** ** The tokens of a scan *)

Lemma Assignment_ok (n : node) :
  isinstance_assign n = true -> exists t, Assignment n = Ok t.
Proof.
  destruct n as [m|s|e|a|a|c|o]; try discriminate.
  destruct s; try discriminate; intros _; eexists; reflexivity.
Qed.

Lemma FunctionParameter_ok (n : node) :
  isinstance_arg n = true -> exists t, FunctionParameter n = Ok t.
Proof.
  destruct n as [m|s|e|a|a|c|o]; try discriminate.
  destruct a; intros _; eexists; reflexivity.
Qed.

Lemma FunctionReturn_ok (n : node) :
  isinstance_funcdef n = true -> exists t, FunctionReturn n = Ok t.
Proof.
  destruct n as [m|s|e|a|a|c|o]; try discriminate.
  destruct s; try discriminate; intros _; eexists; reflexivity.
Qed.

(** One turn of the loop never raises: each constructor is called on a
    node of its class only. *)
Lemma scan_node_collected (acc : token_lists) (n : node) :
  scan_node acc n = Ok (collected acc [n]).
Proof.
  unfold scan_node, collected, tokens_of. destruct acc as [la lp lr]. simpl.
  destruct (isinstance_assign n) eqn:Ha;
    [destruct (Assignment_ok n Ha) as [ta ->]|];
    (destruct (isinstance_arg n) eqn:Hp;
       [destruct (FunctionParameter_ok n Hp) as [tp ->]|]);
    (destruct (isinstance_funcdef n) eqn:Hr;
       [destruct (FunctionReturn_ok n Hr) as [tr ->]|]);
    simpl; rewrite ?app_nil_r; reflexivity.
Qed.

Lemma tokens_of_cons isinstance init (n : node) (nodes : list node) :
  tokens_of isinstance init (n :: nodes)
  = tokens_of isinstance init [n] ++ tokens_of isinstance init nodes.
Proof. unfold tokens_of. simpl. now rewrite app_nil_r. Qed.

Lemma scan_nodes_collected (nodes : list node) :
  forall acc, scan_nodes acc nodes = Ok (collected acc nodes).
Proof.
  induction nodes as [|n nodes IH]; intros acc; simpl.
  - unfold collected, tokens_of. destruct acc. simpl.
    now rewrite !app_nil_r.
  - rewrite scan_node_collected. simpl. rewrite IH.
    unfold collected. simpl.
    now rewrite !app_nil_r, <- !app_assoc.
Qed.

(** [scan_text] on a parsed tree always returns, with the tokens of the
    nodes [ast.walk] yields. *)
Lemma scan_tree_tokens (tree : mod_) :
  scan_tree tree
  = Ok (AnnotationScanResult_init
          (tokens_of isinstance_assign Assignment (walk (NMod tree)))
          (tokens_of isinstance_arg FunctionParameter (walk (NMod tree)))
          (tokens_of isinstance_funcdef FunctionReturn (walk (NMod tree)))).
Proof.
  unfold scan_tree. rewrite scan_nodes_collected. reflexivity.
Qed.

Lemma scan_text_tokens `{Runtime} (code : string) (tree : mod_) :
  ast_parse code = Ok tree ->
  scan_text code
  = Ok (AnnotationScanResult_init
          (tokens_of isinstance_assign Assignment (walk (NMod tree)))
          (tokens_of isinstance_arg FunctionParameter (walk (NMod tree)))
          (tokens_of isinstance_funcdef FunctionReturn (walk (NMod tree)))).
Proof.
  intros Hparse. unfold scan_text. rewrite Hparse. simpl.
  apply scan_tree_tokens.
Qed.

(** A class gives one token per node of the class. *)
Lemma length_tokens_of isinstance init (nodes : list node) :
  (forall n, isinstance n = true -> exists t, init n = Ok t) ->
  length (tokens_of isinstance init nodes)
  = sum_with (indicator isinstance) nodes.
Proof.
  intros Hok. induction nodes as [|n nodes IH]; [reflexivity|].
  rewrite tokens_of_cons, length_app, IH. simpl.
  unfold tokens_of, indicator. simpl.
  destruct (isinstance n) eqn:Hn; [|reflexivity].
  destruct (Hok n Hn) as [t ->]. reflexivity.
Qed.

(** The tokens of a class are those of its nodes, node by node. *)
Lemma tokens_of_filter isinstance init (nodes : list node) :
  (forall n, isinstance n = true -> exists t, init n = Ok t) ->
  Forall2 (fun n t => init n = Ok t)
    (List.filter isinstance nodes) (tokens_of isinstance init nodes).
Proof.
  intros Hok. induction nodes as [|n nodes IH]; [constructor|].
  rewrite tokens_of_cons. unfold tokens_of at 1. simpl.
  destruct (isinstance n) eqn:Hn; [|exact IH].
  destruct (Hok n Hn) as [t Ht]. rewrite Ht. simpl.
  constructor; assumption.
Qed.

Lemma length_filter_indicator isinstance (nodes : list node) :
  length (List.filter isinstance nodes)
  = sum_with (indicator isinstance) nodes.
Proof.
  induction nodes as [|n nodes IH]; [reflexivity|].
  simpl. unfold indicator at 1.
  destruct (isinstance n); simpl; rewrite IH; reflexivity.
Qed.

Lemma Forall_tokens_of (P : AnnotationItemBase -> Prop) isinstance init
    (nodes : list node) :
  (forall n t, init n = Ok t -> P t) ->
  Forall P (tokens_of isinstance init nodes).
Proof.
  intros HP. unfold tokens_of.
  induction nodes as [|n nodes IH]; simpl; [constructor|].
  apply Forall_app. split; [|exact IH].
  destruct (isinstance n); [|constructor].
  destruct (init n) as [t|e] eqn:Hn; [|constructor].
  constructor; [eauto|constructor].
Qed.

(** ** Per-file results *)

Lemma length_filter_count_occ {A} (f : A -> bool) (l : list A) :
  length (List.filter f l) = count_occ bool_dec (map f l) true.
Proof.
  induction l as [|a l IH]; [reflexivity|].
  simpl. destruct (f a); simpl; rewrite IH; reflexivity.
Qed.

Lemma length_filter_le {A} (f : A -> bool) (l : list A) :
  (length (List.filter f l) <= length l)%nat.
Proof.
  induction l as [|a l IH]; simpl; [lia|].
  destruct (f a); simpl; lia.
Qed.

Lemma category_counted_init (tokens : list AnnotationItemBase) :
  category_counted tokens (len tokens) (_count_annotated tokens)
    (len tokens - _count_annotated tokens).
Proof.
  unfold category_counted, _count_annotated, len.
  rewrite length_filter_count_occ. repeat split; lia.
Qed.

Lemma counters_agree_init (la lp lr : list AnnotationItemBase) :
  counters_agree (AnnotationScanResult_init la lp lr).
Proof.
  unfold counters_agree. simpl.
  repeat split; apply category_counted_init.
Qed.

(** C3: for every text that parses, [scan_text] returns a result in which,
    for assignments, parameters and returns alike, the total counter is the
    length of the category's token list, the annotated counter is the
    number of its tokens with [is_annotated] true, and annotated plus
    unannotated is the total. *)
Theorem scan_text_counters_agree `{Runtime} (code : string) (tree : mod_) :
  ast_parse code = Ok tree ->
  exists r, scan_text code = Ok r /\ counters_agree r.
Proof.
  intros Hparse. eexists. split.
  - apply scan_text_tokens, Hparse.
  - apply counters_agree_init.
Qed.

Lemma scan_text_counters_agree_witness :
  @ast_parse Sample.runtime Sample.foo_src = Ok Sample.foo_tree
  /\ exists r,
       @scan_text Sample.runtime Sample.foo_src = Ok r /\ counters_agree r.
Proof.
  split; [reflexivity|].
  apply (@scan_text_counters_agree Sample.runtime Sample.foo_src
           Sample.foo_tree).
  reflexivity.
Defined.

Lemma Assignment_invariant (n : node) (t : AnnotationItemBase) :
  Assignment n = Ok t -> annotation_invariant t.
Proof.
  destruct n as [m|s|e|a|a|c|o]; try discriminate.
  destruct s; try discriminate; intros [= <-]; split; simpl; congruence.
Qed.

Lemma FunctionParameter_invariant (n : node) (t : AnnotationItemBase) :
  FunctionParameter n = Ok t -> annotation_invariant t.
Proof.
  destruct n as [m|s|e|a|a|c|o]; try discriminate.
  destruct a as [pos name [ann|] tc]; intros [= <-]; split; simpl;
    congruence.
Qed.

Lemma FunctionReturn_invariant (n : node) (t : AnnotationItemBase) :
  FunctionReturn n = Ok t -> annotation_invariant t.
Proof.
  destruct n as [m|s|e|a|a|c|o]; try discriminate.
  destruct s; try discriminate; intros [= <-];
    unfold init_return; destruct returns; split; simpl; congruence.
Qed.

(** C8: every token [scan_text] produces from a text that parses, of any
    of the three kinds, has no annotation text when [is_annotated] is
    false and has one when it is true. *)
Theorem scan_text_annotation_invariant `{Runtime} (code : string)
    (tree : mod_) :
  ast_parse code = Ok tree ->
  exists r,
    scan_text code = Ok r
    /\ Forall annotation_invariant (assignments r)
    /\ Forall annotation_invariant (func_params r)
    /\ Forall annotation_invariant (func_returns r).
Proof.
  intros Hparse. eexists. split; [apply scan_text_tokens, Hparse|].
  simpl. repeat split; apply Forall_tokens_of.
  - apply Assignment_invariant.
  - apply FunctionParameter_invariant.
  - apply FunctionReturn_invariant.
Qed.

Lemma scan_text_annotation_invariant_witness :
  @ast_parse Sample.runtime Sample.foo_src = Ok Sample.foo_tree
  /\ exists r,
       @scan_text Sample.runtime Sample.foo_src = Ok r
       /\ Forall annotation_invariant (assignments r)
       /\ Forall annotation_invariant (func_params r)
       /\ Forall annotation_invariant (func_returns r).
Proof.
  split; [reflexivity|].
  apply (@scan_text_annotation_invariant Sample.runtime Sample.foo_src
           Sample.foo_tree).
  reflexivity.
Defined.

(** ** One token per node *)

Lemma length_tokens_walk isinstance init (tree : mod_) :
  (forall n, isinstance n = true -> exists t, init n = Ok t) ->
  length (tokens_of isinstance init (walk (NMod tree)))
  = count_nodes isinstance tree.
Proof.
  intros Hok. rewrite length_tokens_of by exact Hok.
  apply walk_sum.
Qed.

(** C9: for every text that parses, [scan_text] produces as many
    Assignment tokens as the tree has assignment statements, whatever the
    number of targets of each: [a = b = 1] gives one unannotated token and
    [a, b = 1, 2] gives one unannotated token. *)
Theorem one_assignment_token_per_statement :
  (forall (R : Runtime) (code : string) (tree : mod_),
      ast_parse code = Ok tree ->
      exists r,
        scan_text code = Ok r
        /\ length (assignments r) = count_nodes isinstance_assign tree)
  /\ (forall pos targets value type_comment,
        indicator isinstance_assign
          (NStmt (Assign pos targets value type_comment)) = 1%nat)
  /\ (exists r t,
        @scan_text Sample.runtime Sample.chained_src = Ok r
        /\ assignments r = [t] /\ is_annotated t = false)
  /\ (exists r t,
        @scan_text Sample.runtime Sample.unpacking_src = Ok r
        /\ assignments r = [t] /\ is_annotated t = false).
Proof.
  split; [|split; [|split]].
  - intros R code tree Hparse. eexists.
    split; [apply scan_text_tokens, Hparse|].
    simpl. apply length_tokens_walk, Assignment_ok.
  - reflexivity.
  - do 2 eexists. split; [vm_compute; reflexivity|]. split; reflexivity.
  - do 2 eexists. split; [vm_compute; reflexivity|]. split; reflexivity.
Qed.

Lemma one_assignment_token_per_statement_witness :
  @ast_parse Sample.runtime Sample.chained_src = Ok Sample.chained_tree
  /\ exists r,
       @scan_text Sample.runtime Sample.chained_src = Ok r
       /\ length (assignments r)
          = count_nodes isinstance_assign Sample.chained_tree.
Proof.
  split; [reflexivity|].
  apply (proj1 one_assignment_token_per_statement Sample.runtime
           Sample.chained_src Sample.chained_tree).
  reflexivity.
Defined.

Lemma append_assoc (s1 s2 s3 : string) :
  ((s1 ++ s2) ++ s3 = s1 ++ (s2 ++ s3))%string.
Proof.
  induction s1 as [|c s1 IH]; [reflexivity|].
  change (String c ((s1 ++ s2) ++ s3) = String c (s1 ++ s2 ++ s3))%string.
  now rewrite IH.
Qed.

(** What the printer gives the definition rebuilt without its body: the
    header and the placeholder. *)
Lemma unparse_bodyless (async : bool) (name : string) (args : arguments)
    (decorator_list : list expr) (returns : option expr)
    (type_comment : option string) :
  Astunparse.unparse
    (NStmt (bodyless_node async name args decorator_list returns
              type_comment))
  = (Str.newline ++ header async name args decorator_list returns ++ ":"
       ++ Astunparse.fill 1 "..." ++ Str.newline)%string.
Proof.
  unfold Astunparse.unparse, Astunparse.dispatch, bodyless_node, header.
  destruct async;
    cbn [Astunparse.dispatch_stmt placeholder map Str.join String.concat
           Astunparse.dispatch_expr Astunparse._Constant];
    now rewrite !append_assoc.
Qed.

(** C4: for every text that parses, [scan_text] produces one Return token
    per function or async function definition of the tree; the source
    text of the token is the stripped printing of the definition with its
    body replaced by the placeholder statement, so it is the same whatever
    the body is: the header (decorators, name, parameters, return
    annotation) and the placeholder; for [def foo(bar) -> None] with the
    body [print(bar + 2)] it holds the signature and not the body. *)
Theorem one_return_token_per_definition :
  (forall (R : Runtime) (code : string) (tree : mod_),
      ast_parse code = Ok tree ->
      exists r,
        scan_text code = Ok r
        /\ Forall2 (fun n t => FunctionReturn n = Ok t)
             (List.filter isinstance_funcdef (walk (NMod tree)))
             (func_returns r)
        /\ length (func_returns r) = count_nodes isinstance_funcdef tree)
  /\ (forall pos name args body decorator_list returns type_comment,
        exists t,
          FunctionReturn
            (NStmt (FunctionDef pos name args body decorator_list returns
                      type_comment)) = Ok t
          /\ code t
             = Str.strip
                 (Astunparse.unparse
                    (NStmt (FunctionDef unlocated name args [placeholder]
                              decorator_list returns type_comment))))
  /\ (forall pos name args body decorator_list returns type_comment,
        exists t,
          FunctionReturn
            (NStmt (AsyncFunctionDef pos name args body decorator_list
                      returns type_comment)) = Ok t
          /\ code t
             = Str.strip
                 (Astunparse.unparse
                    (NStmt (AsyncFunctionDef unlocated name args
                              [placeholder] decorator_list returns
                              type_comment))))
  /\ (forall async name args decorator_list returns type_comment,
        Astunparse.unparse
          (NStmt (bodyless_node async name args decorator_list returns
                    type_comment))
        = (Str.newline ++ header async name args decorator_list returns
             ++ ":" ++ Astunparse.fill 1 "..." ++ Str.newline)%string)
  /\ (forall (s : stmt) (body' : list stmt) (t : AnnotationItemBase),
        FunctionReturn (NStmt s) = Ok t ->
        exists t',
          FunctionReturn (NStmt (set_body body' s)) = Ok t'
          /\ code t' = code t)
  /\ (exists r t,
        @scan_text Sample.runtime Sample.foo_src = Ok r
        /\ func_returns r = [t]
        /\ is_annotated t = true
        /\ annotated_text t = Some "None"
        /\ Str.contains "def foo(bar) -> None" (code t) = true
        /\ Str.contains "print" (code t) = false).
Proof.
  split; [|split; [|split; [|split; [|split]]]].
  - intros R code tree Hparse. eexists.
    split; [apply scan_text_tokens, Hparse|].
    simpl. split.
    + apply tokens_of_filter, FunctionReturn_ok.
    + apply length_tokens_walk, FunctionReturn_ok.
  - intros. eexists. split; [reflexivity|].
    unfold init_return. destruct returns; reflexivity.
  - intros. eexists. split; [reflexivity|].
    unfold init_return. destruct returns; reflexivity.
  - apply unparse_bodyless.
  - intros s body' t Ht.
    destruct s; try discriminate; simpl in *; injection Ht as <-;
      eexists; (split; [reflexivity|]);
      unfold init_return; destruct returns; reflexivity.
  - do 2 eexists. split; [vm_compute; reflexivity|].
    repeat split; vm_compute; reflexivity.
Qed.

Lemma one_return_token_per_definition_witness :
  @ast_parse Sample.runtime Sample.foo_src = Ok Sample.foo_tree
  /\ exists r,
       @scan_text Sample.runtime Sample.foo_src = Ok r
       /\ Forall2 (fun n t => FunctionReturn n = Ok t)
            (List.filter isinstance_funcdef (walk (NMod Sample.foo_tree)))
            (func_returns r)
       /\ length (func_returns r)
          = count_nodes isinstance_funcdef Sample.foo_tree.
Proof.
  split; [reflexivity|].
  apply (proj1 one_return_token_per_definition Sample.runtime
           Sample.foo_src Sample.foo_tree).
  reflexivity.
Defined.

(** ** Assignments *)

(** C5, as stated, fails: the declaration [x: int] binds no value, and
    the scanner classifies it as an Assignment token, annotated. *)
Lemma declaration_without_value_is_a_token :
  binds_names_to_value (NStmt Sample.declaration) = false
  /\ isinstance_assign (NStmt Sample.declaration) = true
  /\ exists r t,
       @scan_text Sample.runtime Sample.declaration_src = Ok r
       /\ assignments r = [t]
       /\ is_annotated t = true
       /\ annotated_text t = Some "int".
Proof.
  split; [reflexivity|]. split; [reflexivity|].
  do 2 eexists. split; [vm_compute; reflexivity|].
  repeat split; reflexivity.
Qed.

(** C5, amended: a node is classified as an Assignment token exactly when
    it is an [ast.Assign] or an [ast.AnnAssign] statement; the tokens of a
    scan are those of these nodes, in the order of the walk; the token of
    an [AnnAssign], with or without a value, has [is_annotated] true and
    the stripped printing of the annotation as [annotated_text]; the token
    of an [Assign] has [is_annotated] false and no [annotated_text];
    [b: int = 2 + 2] gives exactly one token, annotated, with
    [annotated_text] equal to [int]. *)
Theorem assignment_tokens_by_node_class :
  (forall n : node,
      isinstance_assign n = true
      <-> (exists pos targets value type_comment,
              n = NStmt (Assign pos targets value type_comment))
          \/ (exists pos target annotation value simple,
                n = NStmt (AnnAssign pos target annotation value simple)))
  /\ (forall (R : Runtime) (code : string) (tree : mod_),
        ast_parse code = Ok tree ->
        exists r,
          scan_text code = Ok r
          /\ Forall2 (fun n t => Assignment n = Ok t)
               (List.filter isinstance_assign (walk (NMod tree)))
               (assignments r))
  /\ (forall pos target annotation value simple,
        exists t,
          Assignment (NStmt (AnnAssign pos target annotation value simple))
          = Ok t
          /\ is_annotated t = true
          /\ annotated_text t
             = Some (Str.strip (Astunparse.unparse (NExpr annotation))))
  /\ (forall pos targets value type_comment,
        exists t,
          Assignment (NStmt (Assign pos targets value type_comment)) = Ok t
          /\ is_annotated t = false
          /\ annotated_text t = None)
  /\ (exists r t,
        @scan_text Sample.runtime Sample.annotated_src = Ok r
        /\ assignments r = [t]
        /\ is_annotated t = true
        /\ annotated_text t = Some "int").
Proof.
  split; [|split; [|split; [|split]]].
  - intros n. split.
    + destruct n as [m|s|e|a|a|c|o]; try discriminate.
      destruct s; try discriminate; intros _;
        [left|right]; repeat eexists.
    + intros [(pos & targets & value & tc & ->)
             |(pos & target & annotation & value & simple & ->)];
        reflexivity.
  - intros R code tree Hparse. eexists.
    split; [apply scan_text_tokens, Hparse|].
    simpl. apply tokens_of_filter, Assignment_ok.
  - intros. eexists. repeat split.
  - intros. eexists. repeat split.
  - do 2 eexists. split; [vm_compute; reflexivity|].
    repeat split; reflexivity.
Qed.

Lemma assignment_tokens_by_node_class_witness :
  @ast_parse Sample.runtime Sample.annotated_src = Ok Sample.annotated_tree
  /\ exists r,
       @scan_text Sample.runtime Sample.annotated_src = Ok r
       /\ Forall2 (fun n t => Assignment n = Ok t)
            (List.filter isinstance_assign
               (walk (NMod Sample.annotated_tree)))
            (assignments r).
Proof.
  split; [reflexivity|].
  apply (proj1 (proj2 assignment_tokens_by_node_class) Sample.runtime
           Sample.annotated_src Sample.annotated_tree).
  reflexivity.
Defined.

(** ** The group result as a commutative monoid *)

Lemma _add_result_pointwise (a b : AnnotationScanStatsBase) :
  _add_result a b
  = {| total_assign_count := total_assign_count a + total_assign_count b;
       annotated_assign_count :=
         annotated_assign_count a + annotated_assign_count b;
       unannotated_assign_count :=
         unannotated_assign_count a + unannotated_assign_count b;
       total_func_params_count :=
         total_func_params_count a + total_func_params_count b;
       annotated_func_params_count :=
         annotated_func_params_count a + annotated_func_params_count b;
       unannotated_func_params_count :=
         unannotated_func_params_count a + unannotated_func_params_count b;
       total_func_returns_count :=
         total_func_returns_count a + total_func_returns_count b;
       annotated_func_returns_count :=
         annotated_func_returns_count a + annotated_func_returns_count b;
       unannotated_func_returns_count :=
         unannotated_func_returns_count a
         + unannotated_func_returns_count b |}.
Proof. destruct a, b. reflexivity. Qed.

Ltac stats_eq :=
  rewrite ?_add_result_pointwise; simpl; f_equal; lia.

Lemma _add_result_zeros_l (x : AnnotationScanStatsBase) :
  _add_result zeros x = x.
Proof. destruct x. stats_eq. Qed.

Lemma _add_result_zeros_r (x : AnnotationScanStatsBase) :
  _add_result x zeros = x.
Proof. destruct x. stats_eq. Qed.

Lemma _add_result_comm (a b : AnnotationScanStatsBase) :
  _add_result a b = _add_result b a.
Proof. stats_eq. Qed.

Lemma _add_result_assoc (a b c : AnnotationScanStatsBase) :
  _add_result (_add_result a b) c = _add_result a (_add_result b c).
Proof. stats_eq. Qed.

Lemma getattr_add_result (a b : AnnotationScanStatsBase) (f : field) :
  getattr (_add_result a b) f = getattr a f + getattr b f.
Proof. rewrite _add_result_pointwise. destruct f; reflexivity. Qed.

(** Folding results into an accumulator adds their sum to it. *)
Lemma fold_from (results : list AnnotationScanResult) :
  forall acc : AnnotationScanStatsBase,
    fold_left (fun acc r => _add_result acc (stats r)) results acc
    = _add_result acc (fold_results results).
Proof.
  unfold fold_results.
  induction results as [|r results IH]; intros acc; simpl.
  - now rewrite _add_result_zeros_r.
  - rewrite IH, (IH (_add_result zeros (stats r))).
    now rewrite _add_result_zeros_l, _add_result_assoc.
Qed.

Lemma fold_results_cons (r : AnnotationScanResult)
    (results : list AnnotationScanResult) :
  fold_results (r :: results) = _add_result (stats r) (fold_results results).
Proof.
  unfold fold_results at 1. simpl.
  now rewrite fold_from, _add_result_zeros_l.
Qed.

Lemma fold_results_app (l1 l2 : list AnnotationScanResult) :
  fold_results (l1 ++ l2) = _add_result (fold_results l1) (fold_results l2).
Proof.
  induction l1 as [|r l1 IH]; simpl.
  - unfold fold_results at 2. simpl. now rewrite _add_result_zeros_l.
  - now rewrite !fold_results_cons, IH, _add_result_assoc.
Qed.

Lemma fold_results_Permutation (l1 l2 : list AnnotationScanResult) :
  Permutation l1 l2 -> fold_results l1 = fold_results l2.
Proof.
  induction 1 as [|r l1 l2 _ IH|r1 r2 l|l1 l2 l3 _ IH1 _ IH2].
  - reflexivity.
  - now rewrite !fold_results_cons, IH.
  - rewrite !fold_results_cons, <- !_add_result_assoc.
    now rewrite (_add_result_comm (stats r2)).
  - now rewrite IH1.
Qed.

Lemma fold_batches (batches : list (list AnnotationScanResult)) :
  forall acc : AnnotationScanStatsBase,
    fold_left _add_result (map fold_results batches) acc
    = _add_result acc (fold_results (concat batches)).
Proof.
  induction batches as [|b batches IH]; intros acc; simpl.
  - unfold fold_results. simpl. now rewrite _add_result_zeros_r.
  - now rewrite IH, fold_results_app, _add_result_assoc.
Qed.

(** C1: a new group result has its nine counters at zero; adding a record
    to it gives the counters of the record; adding is the sum counter by
    counter, commutative and associative; and for per-file results split
    into batches in any way and any order, adding up the sums of the
    batches gives the sum of the files folded one by one. *)
Theorem group_result_commutative_monoid :
  (forall (h : store) (f : field),
      fst (AnnotationScanGroupResult h) !! snd (AnnotationScanGroupResult h)
      = Some zeros
      /\ getattr zeros f = 0)
  /\ (forall x, _add_result zeros x = x)
  /\ (forall a b f,
        getattr (_add_result a b) f = getattr a f + getattr b f)
  /\ (forall a b, _add_result a b = _add_result b a)
  /\ (forall a b c,
        _add_result (_add_result a b) c = _add_result a (_add_result b c))
  /\ (forall (files : list AnnotationScanResult)
        (batches : list (list AnnotationScanResult)),
        Permutation files (concat batches) ->
        fold_left _add_result (map fold_results batches) zeros
        = fold_results files).
Proof.
  repeat split.
  - unfold AnnotationScanGroupResult. simpl. apply lookup_insert_eq.
  - destruct f; reflexivity.
  - apply _add_result_zeros_l.
  - apply getattr_add_result.
  - apply _add_result_comm.
  - apply _add_result_assoc.
  - intros files batches Hperm.
    rewrite fold_batches, _add_result_zeros_l.
    symmetry. now apply fold_results_Permutation.
Qed.

Lemma group_result_commutative_monoid_witness :
  Permutation
    [Sample.plain_result; Sample.annotated_result; Sample.foo_result]
    (concat [[Sample.annotated_result];
             [Sample.foo_result; Sample.plain_result]])
  /\ fold_left _add_result
       (map fold_results
          [[Sample.annotated_result];
           [Sample.foo_result; Sample.plain_result]])
       zeros
     = fold_results
         [Sample.plain_result; Sample.annotated_result; Sample.foo_result].
Proof.
  assert (Hperm :
    Permutation
      [Sample.plain_result; Sample.annotated_result; Sample.foo_result]
      (concat [[Sample.annotated_result];
               [Sample.foo_result; Sample.plain_result]])).
  { simpl. eapply perm_trans; [apply perm_swap|].
    apply perm_skip, perm_swap. }
  split; [exact Hperm|].
  apply (proj2 (proj2 (proj2 (proj2 (proj2
           group_result_commutative_monoid))))).
  exact Hperm.
Defined.

(** ** Natural order *)

Import Natsort.

Lemma component_compare_antisym (a b : component) :
  component_compare a b = CompOpp (component_compare b a).
Proof.
  destruct a as [s|n], b as [t|m]; simpl; try reflexivity.
  - apply String.compare_antisym.
  - apply N.compare_antisym.
Qed.

Lemma key_compare_antisym (k1 : list component) :
  forall k2, key_compare k1 k2 = CompOpp (key_compare k2 k1).
Proof.
  induction k1 as [|a k1 IH]; intros [|b k2]; simpl; try reflexivity.
  rewrite (component_compare_antisym a b).
  destruct (component_compare b a); simpl; auto.
Qed.

(** If [y] sorts before [x], then [x] does not sort before [y]. *)
Lemma key_lt_asym (x y : string) : key_lt y x = true -> key_lt x y = false.
Proof.
  unfold key_lt. rewrite (key_compare_antisym (natsort_key x)).
  destruct (key_compare (natsort_key y) (natsort_key x));
    simpl; congruence.
Qed.

Lemma insert_Permutation (x : string) (l : list string) :
  Permutation (x :: l) (insert x l).
Proof.
  induction l as [|y l IH]; simpl; [apply Permutation_refl|].
  destruct (key_lt y x).
  - eapply perm_trans; [apply perm_swap|]. now apply perm_skip.
  - apply Permutation_refl.
Qed.

Lemma insert_HdRel (x y : string) (l : list string) :
  natural_le y x -> HdRel natural_le y l -> HdRel natural_le y (insert x l).
Proof.
  intros Hyx Hl. destruct l as [|z l]; simpl.
  - now constructor.
  - destruct (key_lt z x); constructor; [|assumption].
    now inversion Hl.
Qed.

Lemma insert_Sorted (x : string) (l : list string) :
  Sorted natural_le l -> Sorted natural_le (insert x l).
Proof.
  induction 1 as [|y l Hsorted IH Hhd]; simpl.
  - repeat constructor.
  - destruct (key_lt y x) eqn:Hlt.
    + constructor; [exact IH|].
      apply insert_HdRel; [|exact Hhd].
      now apply key_lt_asym.
    + constructor; [now constructor|].
      now constructor.
Qed.

Lemma humansorted_Permutation (paths : list string) :
  Permutation paths (humansorted paths).
Proof.
  induction paths as [|x paths IH]; simpl; [constructor|].
  eapply perm_trans; [apply perm_skip, IH|]. apply insert_Permutation.
Qed.

Lemma humansorted_Sorted (paths : list string) :
  Sorted natural_le (humansorted paths).
Proof.
  induction paths as [|x paths IH]; simpl; [constructor|].
  now apply insert_Sorted.
Qed.

Lemma humansorted_nil (paths : list string) :
  humansorted paths = [] <-> paths = [].
Proof.
  split; [|now intros ->].
  intros Hnil. pose proof (humansorted_Permutation paths) as Hperm.
  rewrite Hnil in Hperm. now apply Permutation_nil, Permutation_sym.
Qed.

Lemma split_alternates (s : string) :
  forall d, hd_error (map fst (split s)) = Some d ->
    alternates d (map component_transform (split s)) = true.
Proof.
  induction s as [|c s IH]; intros d; simpl; [discriminate|].
  generalize (is_digit c). intros dc.
  destruct (split s) as [|[d' run] rest] eqn:Hs.
  - simpl. intros [= <-]. destruct dc; reflexivity.
  - specialize (IH d' eq_refl).
    destruct dc, d'; simpl in *; intros [= <-]; simpl; exact IH.
Qed.

Lemma sep_between_alternates (first : component) (rest : list component) :
  alternates (is_number first) (first :: rest) = true ->
  sep_between first rest = rest.
Proof.
  revert first. induction rest as [|second rest IH]; intros first;
    [reflexivity|].
  simpl. rewrite Bool.eqb_reflx. simpl.
  rewrite andb_true_iff. intros [Hsecond Hrest].
  apply Bool.eqb_prop in Hsecond.
  rewrite Hsecond. destruct (is_number first); simpl.
  - rewrite IH; [reflexivity|]. simpl. rewrite Hsecond. simpl. exact Hrest.
  - rewrite IH; [reflexivity|]. simpl. rewrite Hsecond. simpl. exact Hrest.
Qed.

(** A key starts with a text, and texts and numbers alternate in it. *)
Lemma natsort_key_alternates (path : string) :
  alternates false (natsort_key path) = true.
Proof.
  unfold natsort_key, sep_inserter.
  pose proof (split_alternates (swapcase path)) as Halt.
  destruct (split (swapcase path)) as [|[d run] rest]; [reflexivity|].
  specialize (Halt d eq_refl).
  cbn [map] in *.
  rewrite sep_between_alternates.
  - destruct d; simpl in *; exact Halt.
  - destruct d; simpl in *; exact Halt.
Qed.

Lemma ascii_compare_lt_trans (a b c : ascii) :
  Ascii.compare a b = Lt -> Ascii.compare b c = Lt -> Ascii.compare a c = Lt.
Proof.
  unfold Ascii.compare. rewrite !N.compare_lt_iff. apply N.lt_trans.
Qed.

Lemma ascii_compare_refl (a : ascii) : Ascii.compare a a = Eq.
Proof. unfold Ascii.compare. apply N.compare_refl. Qed.

Lemma string_compare_refl (s : string) : String.compare s s = Eq.
Proof.
  induction s as [|c s IH]; simpl; [reflexivity|].
  now rewrite ascii_compare_refl.
Qed.

Lemma string_compare_lt_trans (s1 : string) :
  forall s2 s3,
    String.compare s1 s2 = Lt -> String.compare s2 s3 = Lt ->
    String.compare s1 s3 = Lt.
Proof.
  induction s1 as [|c1 s1 IH]; intros [|c2 s2] [|c3 s3]; simpl;
    try congruence.
  destruct (Ascii.compare c1 c2) eqn:H12; try discriminate;
    destruct (Ascii.compare c2 c3) eqn:H23; try discriminate.
  - apply Ascii.compare_eq_iff in H12, H23. subst.
    rewrite ascii_compare_refl. apply IH.
  - apply Ascii.compare_eq_iff in H12. subst. now rewrite H23.
  - apply Ascii.compare_eq_iff in H23. subst. now rewrite H12.
  - now rewrite (ascii_compare_lt_trans c1 c2 c3).
Qed.

Lemma component_compare_eq (a b : component) :
  component_compare a b = Eq -> a = b.
Proof.
  destruct a as [s|n], b as [t|m]; simpl; try discriminate.
  - intros Heq. apply String.compare_eq_iff in Heq. now subst.
  - intros Heq. apply N.compare_eq in Heq. now subst.
Qed.

Lemma component_compare_refl (a : component) : component_compare a a = Eq.
Proof.
  destruct a as [s|n]; simpl;
    [apply string_compare_refl|apply N.compare_refl].
Qed.

Lemma component_compare_lt_trans (a b c : component) :
  component_compare a b = Lt -> component_compare b c = Lt ->
  component_compare a c = Lt.
Proof.
  destruct a as [s|n], b as [t|m], c as [u|k]; simpl; try congruence.
  - apply string_compare_lt_trans.
  - rewrite !N.compare_lt_iff. apply N.lt_trans.
Qed.

Lemma key_compare_eq (k1 : list component) :
  forall k2, key_compare k1 k2 = Eq -> k1 = k2.
Proof.
  induction k1 as [|a k1 IH]; intros [|b k2]; simpl; try discriminate;
    [reflexivity|].
  destruct (component_compare a b) eqn:Hab; try discriminate.
  intros Heq. apply component_compare_eq in Hab. apply IH in Heq.
  now subst.
Qed.

Lemma key_compare_lt_trans (k1 : list component) :
  forall k2 k3,
    key_compare k1 k2 = Lt -> key_compare k2 k3 = Lt ->
    key_compare k1 k3 = Lt.
Proof.
  induction k1 as [|a k1 IH]; intros [|b k2] [|c k3]; simpl;
    try congruence.
  destruct (component_compare a b) eqn:Hab; try discriminate;
    destruct (component_compare b c) eqn:Hbc; try discriminate.
  - apply component_compare_eq in Hab, Hbc. subst.
    rewrite component_compare_refl. apply IH.
  - apply component_compare_eq in Hab. subst. now rewrite Hbc.
  - apply component_compare_eq in Hbc. subst. now rewrite Hab.
  - now rewrite (component_compare_lt_trans a b c).
Qed.

(** The natural order is transitive. *)
Lemma natural_le_trans (x y z : string) :
  natural_le x y -> natural_le y z -> natural_le x z.
Proof.
  unfold natural_le, key_lt. intros Hxy Hyz.
  rewrite (key_compare_antisym (natsort_key y)) in Hxy.
  rewrite (key_compare_antisym (natsort_key z)) in Hyz.
  rewrite (key_compare_antisym (natsort_key z)).
  destruct (key_compare (natsort_key x) (natsort_key y)) eqn:H1;
    try discriminate;
    destruct (key_compare (natsort_key y) (natsort_key z)) eqn:H2;
    try discriminate.
  - apply key_compare_eq in H1. rewrite H1, H2. reflexivity.
  - apply key_compare_eq in H1. rewrite H1, H2. reflexivity.
  - apply key_compare_eq in H2. rewrite <- H2, H1. reflexivity.
  - now rewrite (key_compare_lt_trans _ _ _ H1 H2).
Qed.

Lemma humansorted_StronglySorted (paths : list string) :
  StronglySorted natural_le (humansorted paths).
Proof.
  apply Sorted_StronglySorted; [|apply humansorted_Sorted].
  intros x y z. apply natural_le_trans.
Qed.

(** ** The generator of [scan_files] *)

Lemma alter_lookup_insert (h : store) (a : address)
    (f : AnnotationScanStatsBase -> AnnotationScanStatsBase)
    (o : AnnotationScanStatsBase) :
  h !! a = Some o -> alter f a h = <[a := f o]> h.
Proof.
  intros Ha. apply map_eq. intros b.
  destruct (decide (a = b)) as [->|Hne].
  - now rewrite lookup_alter_eq, lookup_insert_eq, Ha.
  - now rewrite lookup_alter_ne, lookup_insert_ne.
Qed.

(** [self + result] changes the object [self] in place and is [self]. *)
Lemma __add___in_place (h : store) (self : address)
    (o result : AnnotationScanStatsBase) :
  h !! self = Some o ->
  __add__ h self result = (<[self := _add_result o result]> h, self).
Proof.
  intros Hself. unfold __add__. now rewrite (alter_lookup_insert h self _ o).
Qed.

Lemma triples_cons (a : address) (p : string) (r : AnnotationScanResult)
    (paths : list string) (results : list AnnotationScanResult) :
  triples a (p :: paths) (r :: results)
  = Yielded a p r :: triples a paths results.
Proof. reflexivity. Qed.

Lemma nexts_app `{Runtime} (n m : nat) :
  forall (h : store) (g : generator),
    nexts (n + m) h g
    = let '(h1, g1, os1) := nexts n h g in
      let '(h2, g2, os2) := nexts m h1 g1 in
      (h2, g2, os1 ++ os2).
Proof.
  induction n as [|n IH]; intros h g; simpl.
  - destruct (nexts m h g) as [[h2 g2] os2]. reflexivity.
  - destruct (next h g) as [[h1 g1] o].
    rewrite IH.
    destruct (nexts n h1 g1) as [[h1' g1'] os1].
    destruct (nexts m h1' g1') as [[h2 g2] os2]. reflexivity.
Qed.

(** From a [yield], the files that scan are folded one by one into the
    one object the generator holds, and each gives a triple with it. *)
Lemma nexts_suspended `{Runtime} (good : list string)
    (results : list AnnotationScanResult) :
  Forall2 (fun p r => scan_file p = Ok r) good results ->
  forall (h : store) (a : address) (acc : AnnotationScanStatsBase)
    (rest : list string),
    h !! a = Some acc ->
    nexts (length good) h (Suspended a (good ++ rest))
    = (<[a := _add_result acc (fold_results results)]> h,
       Suspended a rest, triples a good results).
Proof.
  induction 1 as [|p r good results Hp _ IH]; intros h a acc rest Ha.
  - simpl. unfold fold_results. simpl.
    now rewrite _add_result_zeros_r, insert_id.
  - simpl. rewrite Hp. simpl.
    rewrite (alter_lookup_insert h a _ acc) by exact Ha.
    rewrite (IH _ a (_add_result acc (stats r)))
      by apply lookup_insert_eq.
    rewrite insert_insert_eq, fold_results_cons, _add_result_assoc.
    reflexivity.
Qed.

(** The first [next] makes the accumulator, then runs as from a
    [yield]. *)
Lemma next_created `{Runtime} (h : store) (paths : list string) :
  next h (Created paths)
  = next (<[fresh (dom h) := zeros]> h) (Suspended (fresh (dom h)) paths).
Proof. reflexivity. Qed.

Lemma fresh_lookup (h : store) : h !! fresh (dom h) = None.
Proof. apply not_elem_of_dom, is_fresh. Qed.

Lemma nexts_created `{Runtime} (good : list string)
    (results : list AnnotationScanResult) (rest : list string) (h : store) :
  Forall2 (fun p r => scan_file p = Ok r) good results ->
  good <> [] ->
  nexts (length good) h (Created (good ++ rest))
  = (<[fresh (dom h) := fold_results results]> h,
     Suspended (fresh (dom h)) rest,
     triples (fresh (dom h)) good results).
Proof.
  intros Hgood Hne.
  destruct good as [|p good]; [congruence|].
  pose proof (nexts_suspended (p :: good) results Hgood
                (<[fresh (dom h) := zeros]> h) (fresh (dom h)) zeros rest
                (lookup_insert_eq _ _ _)) as Hs.
  rewrite insert_insert_eq, _add_result_zeros_l in Hs.
  rewrite <- Hs. simpl length. cbn [nexts].
  now rewrite <- app_comm_cons, next_created.
Qed.

Lemma nexts_closed `{Runtime} (n : nat) (h : store) :
  nexts n h Closed = (h, Closed, List.repeat StopIteration n).
Proof.
  induction n as [|n IH]; simpl; [reflexivity|]. now rewrite IH.
Qed.

Lemma yielded_paths_triples (a : address) (paths : list string)
    (results : list AnnotationScanResult) :
  length paths = length results ->
  yielded_paths (triples a paths results) = paths.
Proof.
  revert results. induction paths as [|p paths IH]; intros [|r results];
    simpl; try discriminate; [reflexivity|].
  intros [= Hlen]. unfold yielded_paths, triples in *. simpl.
  now rewrite IH.
Qed.

Lemma yielded_summaries_triples (a : address) (paths : list string)
    (results : list AnnotationScanResult) :
  Forall (fun s => s = a) (yielded_summaries (triples a paths results)).
Proof.
  revert results. induction paths as [|p paths IH]; intros [|r results];
    simpl; try constructor; [reflexivity|].
  apply IH.
Qed.

(** A file whose scan raises ends the generator where it stands. *)
Lemma nexts_raised `{Runtime} (good : list string)
    (results : list AnnotationScanResult) (bad : string) (e : exn)
    (rest : list string) (h : store) (k : nat) :
  Forall2 (fun p r => scan_file p = Ok r) good results ->
  scan_file bad = Raise e ->
  nexts (length good + S k) h (Created (good ++ bad :: rest))
  = (<[fresh (dom h) := fold_results results]> h, Closed,
     triples (fresh (dom h)) good results
       ++ Raised e :: List.repeat StopIteration k).
Proof.
  intros Hgood Hbad. destruct good as [|p good].
  - inversion Hgood; subst. cbn [length Nat.add nexts app].
    rewrite next_created. simpl. rewrite Hbad, nexts_closed. reflexivity.
  - rewrite nexts_app, (nexts_created (p :: good) results) by easy.
    cbn [nexts next for_paths]. rewrite Hbad, nexts_closed. reflexivity.
Qed.

Lemma yielded_paths_app (os1 os2 : list outcome) :
  yielded_paths (os1 ++ os2) = yielded_paths os1 ++ yielded_paths os2.
Proof. unfold yielded_paths. now rewrite flat_map_app. Qed.

Lemma yielded_summaries_app (os1 os2 : list outcome) :
  yielded_summaries (os1 ++ os2)
  = yielded_summaries os1 ++ yielded_summaries os2.
Proof. unfold yielded_summaries. now rewrite flat_map_app. Qed.

Lemma yielded_paths_stops (k : nat) :
  yielded_paths (List.repeat StopIteration k) = [].
Proof. induction k as [|k IH]; [reflexivity|exact IH]. Qed.

(** C2, as stated, fails: in the folder [mixed] the second file does not
    parse and the third does; the generator yields the first file, raises
    the [SyntaxError] of the second, and however often it is asked again
    the third file is never scanned. *)
Lemma malformed_file_ends_the_scan :
  @scan_folder Sample.runtime "mixed" "**/*.py"
  = Some (scan_files ["mixed/a.py"; "mixed/b.py"; "mixed/c.py"])
  /\ @scan_file Sample.runtime "mixed/c.py" = Ok Sample.annotated_result
  /\ forall k : nat,
       exists (h : store) (a : address),
         @nexts Sample.runtime (2 + k) ∅
           (scan_files ["mixed/a.py"; "mixed/b.py"; "mixed/c.py"])
         = (h, Closed,
            Yielded a "mixed/a.py" Sample.plain_result
              :: Raised (SyntaxError "invalid syntax")
              :: List.repeat StopIteration k).
Proof.
  split; [reflexivity|]. split; [reflexivity|].
  intros k. do 2 eexists.
  apply (@nexts_raised Sample.runtime ["mixed/a.py"] [Sample.plain_result]
           "mixed/b.py" (SyntaxError "invalid syntax") ["mixed/c.py"] ∅ k).
  - repeat constructor.
  - reflexivity.
Qed.

(** C2, amended: [scan_files] catches nothing.  When the scan of a file
    raises, the generator has yielded the triples of the files before it,
    the exception leaves the generator at that file and ends it: every
    later [next] gives [StopIteration] and no later file is scanned. *)
Theorem scan_files_stops_at_first_failure `{Runtime} (good : list string)
    (results : list AnnotationScanResult) (bad : string) (e : exn)
    (rest : list string) (h : store) (k : nat) :
  Forall2 (fun p r => scan_file p = Ok r) good results ->
  scan_file bad = Raise e ->
  exists (h' : store) (os : list outcome),
    nexts (length good + S k) h (scan_files (good ++ bad :: rest))
    = (h', Closed, os)
    /\ os = triples (fresh (dom h)) good results
              ++ Raised e :: List.repeat StopIteration k
    /\ yielded_paths os = good.
Proof.
  intros Hgood Hbad. do 2 eexists. split; [|split; [reflexivity|]].
  - unfold scan_files. now apply nexts_raised.
  - rewrite yielded_paths_app, yielded_paths_triples
      by (eapply Forall2_length; eassumption).
    change (yielded_paths (Raised e :: List.repeat StopIteration k))
      with (yielded_paths (List.repeat StopIteration k)).
    now rewrite yielded_paths_stops, app_nil_r.
Qed.

Lemma scan_files_stops_at_first_failure_witness :
  Forall2 (fun p r => @scan_file Sample.runtime p = Ok r)
    ["mixed/a.py"] [Sample.plain_result]
  /\ @scan_file Sample.runtime "mixed/b.py"
     = Raise (SyntaxError "invalid syntax")
  /\ exists (h' : store) (os : list outcome),
       @nexts Sample.runtime (length ["mixed/a.py"] + 2) ∅
         (scan_files (["mixed/a.py"] ++ "mixed/b.py" :: ["mixed/c.py"]))
       = (h', Closed, os)
       /\ os = triples (fresh (dom (∅ : store))) ["mixed/a.py"]
                 [Sample.plain_result]
                 ++ Raised (SyntaxError "invalid syntax")
                      :: List.repeat StopIteration 1
       /\ yielded_paths os = ["mixed/a.py"].
Proof.
  assert (Hgood :
    Forall2 (fun p r => @scan_file Sample.runtime p = Ok r)
      ["mixed/a.py"] [Sample.plain_result])
    by (repeat constructor).
  split; [exact Hgood|]. split; [reflexivity|].
  apply (@scan_files_stops_at_first_failure Sample.runtime ["mixed/a.py"]
           [Sample.plain_result] "mixed/b.py"
           (SyntaxError "invalid syntax") ["mixed/c.py"] ∅ 1 Hgood).
  reflexivity.
Defined.

(** ** One accumulator for all yields *)

Lemma Forall_same_summary (a : address) (P : address -> Prop)
    (summaries : list address) :
  P a -> Forall (fun s => s = a) summaries -> Forall P summaries.
Proof.
  intros Ha Hall. induction Hall as [|s summaries -> _ IH]; constructor;
    assumption.
Qed.

(** C10: [+] changes its left operand in place and is that object, so all
    triples [scan_files] yields carry one accumulator: after [k] files,
    every summary yielded so far, read then, shows the total of the [k]
    files, not the total at its own yield; and once the generator is
    exhausted every yielded summary shows the total of the corpus. *)
Theorem yielded_summaries_share_one_accumulator :
  (forall (h : store) (self : address) (o x : AnnotationScanStatsBase),
      h !! self = Some o ->
      __add__ h self x = (<[self := _add_result o x]> h, self))
  /\ (forall (R : Runtime) (paths : list string)
        (results : list AnnotationScanResult) (h : store) (k : nat),
        Forall2 (fun p r => scan_file p = Ok r) paths results ->
        (1 <= k <= length paths)%nat ->
        exists (h_k : store) (g_k : generator) (os_k : list outcome),
          nexts k h (scan_files paths) = (h_k, g_k, os_k)
          /\ os_k = triples (fresh (dom h)) (take k paths) (take k results)
          /\ Forall
               (fun s => h_k !! s = Some (fold_results (take k results)))
               (yielded_summaries os_k))
  /\ (forall (R : Runtime) (paths : list string)
        (results : list AnnotationScanResult) (h : store),
        Forall2 (fun p r => scan_file p = Ok r) paths results ->
        exists (h_end : store) (os : list outcome),
          nexts (length paths + 1) h (scan_files paths)
          = (h_end, Closed, os ++ [StopIteration])
          /\ os = triples (fresh (dom h)) paths results
          /\ Forall (fun s => h_end !! s = Some (fold_results results))
               (yielded_summaries os))
  /\ (exists (a : address) (h_1 h_3 : store) (g_1 g_3 : generator)
        (os : list outcome),
        @nexts Sample.runtime 1 ∅ (scan_files ["f1.py"; "f2.py"; "f10.py"])
        = (h_1, g_1, [Yielded a "f1.py" Sample.plain_result])
        /\ @nexts Sample.runtime 3 ∅
             (scan_files ["f1.py"; "f2.py"; "f10.py"])
           = (h_3, g_3, Yielded a "f1.py" Sample.plain_result :: os)
        /\ h_1 !! a = Some (stats Sample.plain_result)
        /\ h_3 !! a
           = Some (fold_results
                     [Sample.plain_result; Sample.annotated_result;
                      Sample.foo_result])
        /\ h_3 !! a <> h_1 !! a).
Proof.
  split; [|split; [|split]].
  - intros. now apply __add___in_place.
  - intros R paths results h k Hall [Hk1 Hk].
    assert (Htake : Forall2 (fun p r => scan_file p = Ok r)
                      (take k paths) (take k results))
      by now apply Forall2_take.
    assert (Hne : take k paths <> []).
    { destruct paths as [|p paths]; [simpl in Hk; lia|].
      destruct k; [lia|]. discriminate. }
    pose proof (nexts_created (take k paths) (take k results)
                  (drop k paths) h Htake Hne) as Hn.
    rewrite take_drop, length_take, Nat.min_l in Hn by exact Hk.
    do 3 eexists. split; [exact Hn|]. split; [reflexivity|].
    apply (Forall_same_summary (fresh (dom h))).
    + apply lookup_insert_eq.
    + apply yielded_summaries_triples.
  - intros R paths results h Hall.
    destruct paths as [|p paths].
    + inversion Hall; subst.
      exists (<[fresh (dom h) := zeros]> h), [].
      split; [reflexivity|]. split; [reflexivity|]. constructor.
    + assert (Hne : p :: paths <> []) by discriminate.
      pose proof (nexts_created (p :: paths) results [] h Hall Hne) as Hn.
      rewrite app_nil_r in Hn.
      do 2 eexists. split; [|split; [reflexivity|]].
      * unfold scan_files. rewrite nexts_app, Hn. reflexivity.
      * apply (Forall_same_summary (fresh (dom h))).
        -- apply lookup_insert_eq.
        -- apply yielded_summaries_triples.
  - exists (fresh (dom (∅ : store))).
    do 5 eexists.
    split; [vm_compute; reflexivity|].
    split; [vm_compute; reflexivity|].
    split; [vm_compute; reflexivity|].
    split; [vm_compute; reflexivity|].
    vm_compute. discriminate.
Qed.

Lemma yielded_summaries_share_one_accumulator_witness :
  Forall2 (fun p r => @scan_file Sample.runtime p = Ok r)
    ["f1.py"; "f2.py"; "f10.py"]
    [Sample.plain_result; Sample.annotated_result; Sample.foo_result]
  /\ (1 <= 2 <= length ["f1.py"; "f2.py"; "f10.py"])%nat
  /\ exists (h_k : store) (g_k : generator) (os_k : list outcome),
       @nexts Sample.runtime 2 ∅ (scan_files ["f1.py"; "f2.py"; "f10.py"])
       = (h_k, g_k, os_k)
       /\ os_k
          = triples (fresh (dom (∅ : store)))
              (take 2 ["f1.py"; "f2.py"; "f10.py"])
              (take 2 [Sample.plain_result; Sample.annotated_result;
                       Sample.foo_result])
       /\ Forall
            (fun s =>
               h_k !! s
               = Some (fold_results
                         (take 2 [Sample.plain_result;
                                  Sample.annotated_result;
                                  Sample.foo_result])))
            (yielded_summaries os_k).
Proof.
  assert (Hall :
    Forall2 (fun p r => @scan_file Sample.runtime p = Ok r)
      ["f1.py"; "f2.py"; "f10.py"]
      [Sample.plain_result; Sample.annotated_result; Sample.foo_result])
    by (repeat constructor).
  assert (Hk : (1 <= 2 <= length ["f1.py"; "f2.py"; "f10.py"])%nat)
    by (simpl; lia).
  split; [exact Hall|]. split; [exact Hk|].
  exact (proj1 (proj2 yielded_summaries_share_one_accumulator)
           Sample.runtime _ _ ∅ 2%nat Hall Hk).
Defined.

(** ** [scan_folder] *)

(** C6: when no file matches the pattern [scan_folder] returns [None],
    which no generator is, whatever summaries it yields; when a file
    matches it returns the generator of [scan_files] over the sorted
    paths. *)
Theorem scan_folder_signals_no_files `{Runtime}
    (folder_path glob : string) :
  (path_glob folder_path glob = [] -> scan_folder folder_path glob = None)
  /\ (path_glob folder_path glob <> [] ->
        scan_folder folder_path glob
        = Some (scan_files (humansorted (path_glob folder_path glob))))
  /\ (forall g : generator,
        scan_folder folder_path glob = None ->
        scan_folder folder_path glob <> Some g).
Proof.
  unfold scan_folder. split; [|split].
  - intros ->. reflexivity.
  - intros Hne.
    destruct (humansorted (path_glob folder_path glob)) as [|p ps] eqn:Hs.
    + apply (proj1 (humansorted_nil _)) in Hs. contradiction.
    + reflexivity.
  - intros g ->. discriminate.
Qed.

Lemma scan_folder_signals_no_files_witness :
  (@path_glob Sample.runtime "empty" "**/*.py" = []
   /\ @scan_folder Sample.runtime "empty" "**/*.py" = None)
  /\ (@path_glob Sample.runtime "." "**/*.py" <> []
      /\ @scan_folder Sample.runtime "." "**/*.py"
         = Some (scan_files
                   (humansorted (@path_glob Sample.runtime "." "**/*.py")))).
Proof.
  split.
  - split; [reflexivity|].
    apply (proj1 (@scan_folder_signals_no_files Sample.runtime "empty"
                    "**/*.py")).
    reflexivity.
  - assert (Hne : @path_glob Sample.runtime "." "**/*.py" <> [])
      by discriminate.
    split; [exact Hne|].
    apply (proj1 (proj2 (@scan_folder_signals_no_files Sample.runtime "."
                           "**/*.py"))).
    exact Hne.
Defined.

(** C7: [scan_folder] gives [scan_files] the matched paths in natural
    order, a rearrangement of them in which no path sorts before an
    earlier one, under a comparison that takes runs of digits by value and
    letters without regard to case; the order depends on nothing but the
    paths the pattern matches; the generator visits the paths in the order
    of the list; [f2.py], [f10.py], [f1.py] are visited as [f1.py],
    [f2.py], [f10.py]. *)
Theorem scan_folder_visits_in_natural_order :
  (forall (R : Runtime) (folder_path glob : string) (g : generator),
      scan_folder folder_path glob = Some g ->
      g = scan_files (humansorted (path_glob folder_path glob)))
  /\ (forall (R1 R2 : Runtime) (folder_path glob : string),
        @path_glob R1 folder_path glob = @path_glob R2 folder_path glob ->
        @scan_folder R1 folder_path glob = @scan_folder R2 folder_path glob)
  /\ (forall paths : list string,
        Permutation paths (humansorted paths)
        /\ StronglySorted natural_le (humansorted paths))
  /\ (forall (R : Runtime) (paths : list string)
        (results : list AnnotationScanResult) (h : store),
        Forall2 (fun p r => scan_file p = Ok r) paths results ->
        exists (h' : store) (g' : generator) (os : list outcome),
          nexts (length paths) h (scan_files paths) = (h', g', os)
          /\ yielded_paths os = paths)
  /\ humansorted ["f2.py"; "f10.py"; "f1.py"] = ["f1.py"; "f2.py"; "f10.py"]
  /\ (exists (g : generator) (h' : store) (g' : generator)
        (os : list outcome),
        @scan_folder Sample.runtime "." "**/*.py" = Some g
        /\ @nexts Sample.runtime 3 ∅ g = (h', g', os)
        /\ yielded_paths os = ["f1.py"; "f2.py"; "f10.py"])
  /\ (key_lt "file2" "file10" = true /\ key_lt "file10" "file2" = false)
  /\ (key_lt "a.py" "B.py" = true /\ key_lt "A.py" "b.py" = true).
Proof.
  split; [|split; [|split; [|split; [|split; [|split; [|split]]]]]].
  - intros R folder_path glob g. unfold scan_folder.
    destruct (Z.eqb _ _); [discriminate|]. now intros [= <-].
  - intros R1 R2 folder_path glob Hsame. unfold scan_folder.
    now rewrite Hsame.
  - intros paths. split.
    + apply humansorted_Permutation.
    + apply humansorted_StronglySorted.
  - intros R paths results h Hall. destruct paths as [|p paths].
    + do 3 eexists. split; reflexivity.
    + assert (Hne : p :: paths <> []) by discriminate.
      pose proof (nexts_created (p :: paths) results [] h Hall Hne) as Hn.
      rewrite app_nil_r in Hn. do 3 eexists. split; [exact Hn|].
      apply yielded_paths_triples. eapply Forall2_length, Hall.
  - reflexivity.
  - do 4 eexists. split; [reflexivity|].
    split; [vm_compute; reflexivity|]. reflexivity.
  - split; reflexivity.
  - split; reflexivity.
Qed.

Lemma scan_folder_visits_in_natural_order_witness :
  Forall2 (fun p r => @scan_file Sample.runtime p = Ok r)
    ["f1.py"; "f2.py"; "f10.py"]
    [Sample.plain_result; Sample.annotated_result; Sample.foo_result]
  /\ exists (h' : store) (g' : generator) (os : list outcome),
       @nexts Sample.runtime (length ["f1.py"; "f2.py"; "f10.py"]) ∅
         (scan_files ["f1.py"; "f2.py"; "f10.py"])
       = (h', g', os)
       /\ yielded_paths os = ["f1.py"; "f2.py"; "f10.py"].
Proof.
  assert (Hall :
    Forall2 (fun p r => @scan_file Sample.runtime p = Ok r)
      ["f1.py"; "f2.py"; "f10.py"]
      [Sample.plain_result; Sample.annotated_result; Sample.foo_result])
    by (repeat constructor).
  split; [exact Hall|].
  exact (proj1 (proj2 (proj2 (proj2 scan_folder_visits_in_natural_order)))
           Sample.runtime _ _ ∅ Hall).
Defined.

(** ** The counters by class of node *)

Import Census Ties.

Lemma sum_with_ext {A} (f g : A -> nat) (l : list A) :
  (forall a, f a = g a) -> sum_with f l = sum_with g l.
Proof.
  intros Hfg. induction l as [|a l IH]; simpl; [reflexivity|].
  now rewrite Hfg, IH.
Qed.

Lemma sum_with_add {A} (f g : A -> nat) (l : list A) :
  sum_with (fun a => (f a + g a)%nat) l
  = (sum_with f l + sum_with g l)%nat.
Proof.
  induction l as [|a l IH]; simpl; [reflexivity|]. rewrite IH. lia.
Qed.

(** A class that splits in two is counted as the two together. *)
Lemma sum_with_indicator_split (c c1 c2 : node -> bool) (nodes : list node) :
  (forall n, indicator c n = (indicator c1 n + indicator c2 n)%nat) ->
  sum_with (indicator c) nodes
  = (sum_with (indicator c1) nodes + sum_with (indicator c2) nodes)%nat.
Proof.
  intros Hsplit. rewrite <- sum_with_add. now apply sum_with_ext.
Qed.

Lemma count_nodes_walk (c : node -> bool) (tree : mod_) :
  count_nodes c tree = sum_with (indicator c) (walk (NMod tree)).
Proof. unfold count_nodes. now rewrite walk_sum. Qed.

(** The annotated tokens of a class are those of its annotated nodes. *)
Lemma count_annotated_tokens_of isinstance init (ann : node -> bool)
    (nodes : list node) :
  (forall n, isinstance n = true ->
             exists t, init n = Ok t /\ is_annotated t = ann n) ->
  (forall n, ann n = true -> isinstance n = true) ->
  length (List.filter is_annotated (tokens_of isinstance init nodes))
  = sum_with (indicator ann) nodes.
Proof.
  intros Hinit Hsub. induction nodes as [|n nodes IH]; [reflexivity|].
  rewrite tokens_of_cons, List.filter_app, length_app, IH. simpl.
  f_equal. unfold tokens_of, indicator. simpl.
  destruct (isinstance n) eqn:Hn.
  - destruct (Hinit n Hn) as (t & -> & Ht). simpl. rewrite Ht.
    destruct (ann n); reflexivity.
  - destruct (ann n) eqn:Ha; [|reflexivity].
    apply Hsub in Ha. congruence.
Qed.

Lemma Assignment_annotated (n : node) :
  isinstance_assign n = true ->
  exists t, Assignment n = Ok t /\ is_annotated t = annotated_assign n.
Proof.
  destruct n as [m|s|e|a|a|c|o]; try discriminate.
  destruct s; try discriminate; intros _; eexists; split; reflexivity.
Qed.

Lemma FunctionParameter_annotated (n : node) :
  isinstance_arg n = true ->
  exists t, FunctionParameter n = Ok t /\ is_annotated t = annotated_arg n.
Proof.
  destruct n as [m|s|e|a|a|c|o]; try discriminate.
  destruct a as [pos name [ann|] tc]; intros _; eexists; split;
    reflexivity.
Qed.

Lemma FunctionReturn_annotated (n : node) :
  isinstance_funcdef n = true ->
  exists t, FunctionReturn n = Ok t /\ is_annotated t = annotated_funcdef n.
Proof.
  destruct n as [m|s|e|a|a|c|o]; try discriminate.
  destruct s; try discriminate; intros _; destruct returns;
    eexists; split; reflexivity.
Qed.

Lemma assign_split (n : node) :
  indicator isinstance_assign n
  = (indicator annotated_assign n + indicator plain_assign n)%nat.
Proof. destruct n as [m|s|e|a|a|c|o]; try reflexivity. now destruct s. Qed.

Lemma arg_split (n : node) :
  indicator isinstance_arg n
  = (indicator annotated_arg n + indicator plain_arg n)%nat.
Proof.
  destruct n as [m|s|e|a|a|c|o]; try reflexivity.
  now destruct a as [pos name [ann|] tc].
Qed.

Lemma funcdef_split (n : node) :
  indicator isinstance_funcdef n
  = (indicator annotated_funcdef n + indicator plain_funcdef n)%nat.
Proof.
  destruct n as [m|s|e|a|a|c|o]; try reflexivity.
  destruct s; try reflexivity; now destruct returns.
Qed.

(** The statistics of the tokens of a walk are the census of its nodes. *)
Lemma stats_of_tokens (tree : mod_) :
  _init_compute_stats
    (tokens_of isinstance_assign Assignment (walk (NMod tree)))
    (tokens_of isinstance_arg FunctionParameter (walk (NMod tree)))
    (tokens_of isinstance_funcdef FunctionReturn (walk (NMod tree)))
  = census tree.
Proof.
  unfold _init_compute_stats, census, _count_annotated, len.
  rewrite !count_nodes_walk.
  rewrite
    (length_tokens_of _ _ _ Assignment_ok),
    (length_tokens_of _ _ _ FunctionParameter_ok),
    (length_tokens_of _ _ _ FunctionReturn_ok).
  rewrite
    (count_annotated_tokens_of _ _ annotated_assign _ Assignment_annotated),
    (count_annotated_tokens_of _ _ annotated_arg _
       FunctionParameter_annotated),
    (count_annotated_tokens_of _ _ annotated_funcdef _
       FunctionReturn_annotated).
  - rewrite (sum_with_indicator_split _ _ _ _ assign_split),
      (sum_with_indicator_split _ _ _ _ arg_split),
      (sum_with_indicator_split _ _ _ _ funcdef_split).
    f_equal; lia.
  - intros [m|s|e|a|a|c|o]; try discriminate.
    destruct s; try discriminate; reflexivity.
  - intros [m|s|e|a|a|c|o]; try discriminate. reflexivity.
  - intros [m|s|e|a|a|c|o]; try discriminate.
    destruct s; try discriminate; reflexivity.
Qed.

(** X1: the nine counters of a scan are the numbers of nodes of nine
    classes in the tree: assignment statements, annotated ([AnnAssign])
    and plain ([Assign]); parameters, with and without an annotation;
    definitions, with and without a return annotation. *)
Theorem scan_text_census `{Runtime} (code : string) (tree : mod_) :
  ast_parse code = Ok tree ->
  exists r, scan_text code = Ok r /\ stats r = census tree.
Proof.
  intros Hparse. eexists. split; [apply scan_text_tokens, Hparse|].
  apply stats_of_tokens.
Qed.

Lemma scan_text_census_witness :
  @ast_parse Sample.runtime Sample.foo_src = Ok Sample.foo_tree
  /\ exists r,
       @scan_text Sample.runtime Sample.foo_src = Ok r
       /\ stats r = census Sample.foo_tree.
Proof.
  split; [reflexivity|].
  apply (@scan_text_census Sample.runtime Sample.foo_src Sample.foo_tree).
  reflexivity.
Defined.

Lemma count_nodes_app (c : node -> bool) (body1 body2 : list stmt) :
  (forall m, c (NMod m) = false) ->
  count_nodes c (Module (body1 ++ body2))
  = (count_nodes c (Module body1) + count_nodes c (Module body2))%nat.
Proof.
  intros Hmod. unfold count_nodes, indicator. simpl.
  rewrite !Hmod, sum_with_app. lia.
Qed.

Lemma census_app (body1 body2 : list stmt) :
  census (Module (body1 ++ body2))
  = _add_result (census (Module body1)) (census (Module body2)).
Proof.
  rewrite _add_result_pointwise. unfold census. simpl.
  rewrite !count_nodes_app by reflexivity.
  f_equal; lia.
Qed.

(** X2: the counters of a module are the sum of the counters of its
    parts: scanning the statements of two modules as one module gives,
    counter by counter, what adding the two results gives; the empty
    module gives the zero record. *)
Theorem scan_tree_additive (body1 body2 : list stmt) :
  (exists r r1 r2,
      scan_tree (Module (body1 ++ body2)) = Ok r
      /\ scan_tree (Module body1) = Ok r1
      /\ scan_tree (Module body2) = Ok r2
      /\ stats r = _add_result (stats r1) (stats r2))
  /\ (exists r0, scan_tree (Module []) = Ok r0 /\ stats r0 = zeros).
Proof.
  split.
  - do 3 eexists. repeat split; try apply scan_tree_tokens.
    cbn [stats AnnotationScanResult_init].
    rewrite !stats_of_tokens. apply census_app.
  - eexists. split; [apply scan_tree_tokens|]. reflexivity.
Qed.

(** X3: for every text that parses, the Parameter tokens are those of the
    [arg] nodes of the tree, node by node in the order of the walk, one
    per node; the parameters of a [lambda] are among them. *)
Theorem one_parameter_token_per_arg :
  (forall (R : Runtime) (code : string) (tree : mod_),
      ast_parse code = Ok tree ->
      exists r,
        scan_text code = Ok r
        /\ Forall2 (fun n t => FunctionParameter n = Ok t)
             (List.filter isinstance_arg (walk (NMod tree)))
             (func_params r)
        /\ length (func_params r) = count_nodes isinstance_arg tree)
  /\ (forall pos posonlyargs args vararg kwonlyargs kw_defaults kwarg
        defaults body,
        (length posonlyargs + length args + length kwonlyargs
         <= count_nodes isinstance_arg
              (Module
                 [Expr pos
                    (Lambda
                       (mk_arguments posonlyargs args vararg kwonlyargs
                          kw_defaults kwarg defaults)
                       body)]))%nat).
Proof.
  split.
  - intros R code tree Hparse. eexists.
    split; [apply scan_text_tokens, Hparse|].
    simpl. split.
    + apply tokens_of_filter, FunctionParameter_ok.
    + apply length_tokens_walk, FunctionParameter_ok.
  - intros. unfold count_nodes. simpl.
    assert (Hargs : forall l : list arg,
               (length l <= sum_with (measure_arg (indicator isinstance_arg))
                              l)%nat).
    { induction l as [|a l IH]; simpl; [lia|].
      destruct a. simpl. unfold indicator at 1. simpl. lia. }
    pose proof (Hargs posonlyargs). pose proof (Hargs args).
    pose proof (Hargs kwonlyargs). lia.
Qed.

Lemma one_parameter_token_per_arg_witness :
  @ast_parse Sample.runtime Sample.foo_src = Ok Sample.foo_tree
  /\ exists r,
       @scan_text Sample.runtime Sample.foo_src = Ok r
       /\ Forall2 (fun n t => FunctionParameter n = Ok t)
            (List.filter isinstance_arg (walk (NMod Sample.foo_tree)))
            (func_params r)
       /\ length (func_params r)
          = count_nodes isinstance_arg Sample.foo_tree.
Proof.
  split; [reflexivity|].
  apply (proj1 one_parameter_token_per_arg Sample.runtime Sample.foo_src
           Sample.foo_tree).
  reflexivity.
Defined.

(** ** Nodes below the statements *)

Lemma below_map {A} (g : A -> node) (l : list A) :
  (forall a, below_statements (g a) = true) ->
  Forall (fun c => below_statements c = true) (map g l).
Proof.
  intros Hg. induction l as [|a l IH]; simpl; constructor; auto.
Qed.

Lemma below_opt_nodes {A} (g : A -> node) (o : option A) :
  (forall a, below_statements (g a) = true) ->
  Forall (fun c => below_statements c = true) (opt_nodes g o).
Proof. intros Hg. destruct o; simpl; repeat constructor; auto. Qed.

Lemma below_opts_nodes {A} (g : A -> node) (l : list (option A)) :
  (forall a, below_statements (g a) = true) ->
  Forall (fun c => below_statements c = true) (opts_nodes g l).
Proof.
  intros Hg. unfold opts_nodes.
  induction l as [|o l IH]; simpl; [constructor|].
  apply Forall_app. split; [now apply below_opt_nodes|exact IH].
Qed.

Ltac below :=
  repeat first
    [ apply below_map; reflexivity
    | apply below_opt_nodes; reflexivity
    | apply below_opts_nodes; reflexivity
    | apply Forall_app; split
    | constructor; [reflexivity|]
    | constructor ].

(** The children of a node below the statements are below them too. *)
Lemma children_below (n : node) :
  below_statements n = true ->
  Forall (fun c => below_statements c = true) (iter_child_nodes n).
Proof.
  destruct n as [m|s|e|a|a|c|o]; try discriminate; intros _.
  - destruct e; simpl; below.
  - destruct a. simpl. below.
  - destruct a. simpl. below.
  - constructor.
  - constructor.
Qed.

Lemma walk_todo_below (fuel : nat) :
  forall todo : list node,
    Forall (fun n => below_statements n = true) todo ->
    Forall (fun n => below_statements n = true) (walk_todo fuel todo).
Proof.
  induction fuel as [|fuel IH]; intros todo Htodo; [constructor|].
  destruct todo as [|n rest]; [constructor|].
  simpl. inversion Htodo as [|? ? Hn Hrest]; subst.
  constructor; [exact Hn|].
  apply IH, Forall_app. split; [exact Hrest|].
  now apply children_below.
Qed.

Lemma sum_with_zero {A} (P : A -> Prop) (f : A -> nat) (l : list A) :
  (forall a, P a -> f a = 0%nat) -> Forall P l -> sum_with f l = 0%nat.
Proof.
  intros Hf. induction 1 as [|a l Ha _ IH]; simpl; [reflexivity|].
  now rewrite (Hf a Ha), IH.
Qed.

(** A class of statements has no node in an expression. *)
Lemma measure_expr_statements (c : node -> bool) (e : expr) :
  (forall n, below_statements n = true -> c n = false) ->
  measure (indicator c) (NExpr e) = 0%nat.
Proof.
  intros Hc. rewrite <- walk_sum.
  apply (sum_with_zero (fun n => below_statements n = true)).
  - intros n Hn. unfold indicator. now rewrite (Hc n Hn).
  - apply walk_todo_below. repeat constructor.
Qed.

(** X4: only statements give Assignment and Return tokens: whatever the
    expression of an expression statement holds, an assignment expression
    [(y := 1)] or a [lambda] included, scanning it gives no Assignment
    token and no Return token. *)
Theorem expressions_give_no_statement_tokens (pos : position) (e : expr) :
  exists r,
    scan_tree (Module [Expr pos e]) = Ok r
    /\ assignments r = []
    /\ func_returns r = [].
Proof.
  assert (Hcount : forall c : node -> bool,
             (forall n, below_statements n = true -> c n = false) ->
             c (NMod (Module [Expr pos e])) = false ->
             c (NStmt (Expr pos e)) = false ->
             count_nodes c (Module [Expr pos e]) = 0%nat).
  { intros c Hbelow Hmod Hstmt.
    pose proof (measure_expr_statements c e Hbelow) as He.
    unfold count_nodes, indicator in *. simpl in *.
    rewrite Hmod, Hstmt. lia. }
  eexists. split; [apply scan_tree_tokens|].
  cbn [assignments func_returns AnnotationScanResult_init].
  split; apply length_zero_iff_nil.
  - rewrite (length_tokens_walk _ _ _ Assignment_ok).
    apply Hcount; try reflexivity.
    intros [m|s|x|a|a|c|o]; try discriminate; reflexivity.
  - rewrite (length_tokens_walk _ _ _ FunctionReturn_ok).
    apply Hcount; try reflexivity.
    intros [m|s|x|a|a|c|o]; try discriminate; reflexivity.
Qed.

(** ** What the accumulator keeps *)

Lemma scan_file_census `{Runtime} (file_path : string)
    (r : AnnotationScanResult) :
  scan_file file_path = Ok r -> exists tree, stats r = census tree.
Proof.
  unfold scan_file, scan_text.
  destruct (from_path_best file_path) as [text|e]; [|discriminate].
  simpl. destruct (ast_parse text) as [tree|e]; [|discriminate].
  simpl. rewrite scan_tree_tokens. intros [= <-].
  exists tree. apply stats_of_tokens.
Qed.

Lemma census_nonnegative (tree : mod_) : nonnegative (census tree).
Proof. intros f. destruct f; simpl; lia. Qed.

Lemma census_balanced (tree : mod_) : balanced (census tree).
Proof.
  unfold balanced, census. simpl. rewrite !count_nodes_walk.
  rewrite (sum_with_indicator_split _ _ _ _ assign_split),
    (sum_with_indicator_split _ _ _ _ arg_split),
    (sum_with_indicator_split _ _ _ _ funcdef_split).
  repeat split; lia.
Qed.

Lemma _add_result_nonnegative (a b : AnnotationScanStatsBase) :
  nonnegative a -> nonnegative b -> nonnegative (_add_result a b).
Proof.
  intros Ha Hb f. rewrite getattr_add_result.
  specialize (Ha f). specialize (Hb f). lia.
Qed.

Lemma _add_result_balanced (a b : AnnotationScanStatsBase) :
  balanced a -> balanced b -> balanced (_add_result a b).
Proof.
  unfold balanced. rewrite _add_result_pointwise. simpl.
  intros (Ha1 & Ha2 & Ha3) (Hb1 & Hb2 & Hb3). repeat split; lia.
Qed.

(** The sum of the results of files that scan is balanced and has no
    negative counter. *)
Lemma fold_results_kept `{Runtime} (paths : list string)
    (results : list AnnotationScanResult) :
  Forall2 (fun p r => scan_file p = Ok r) paths results ->
  balanced (fold_results results) /\ nonnegative (fold_results results).
Proof.
  induction 1 as [|p r paths results Hp _ [IHb IHn]].
  - split; [repeat split|intros f; destruct f; reflexivity].
  - rewrite fold_results_cons.
    destruct (scan_file_census p r Hp) as [tree ->].
    split.
    + apply _add_result_balanced; [apply census_balanced|exact IHb].
    + apply _add_result_nonnegative; [apply census_nonnegative|exact IHn].
Qed.

(** X5: after any number of files that scan, whatever follows them, the
    accumulator the generator holds keeps, in each category, annotated
    plus unannotated equal to the total, and no counter is negative. *)
Theorem accumulator_stays_balanced `{Runtime} (good : list string)
    (results : list AnnotationScanResult) (rest : list string) (h : store) :
  Forall2 (fun p r => scan_file p = Ok r) good results ->
  good <> [] ->
  exists (h' : store) (g' : generator) (os : list outcome)
    (o : AnnotationScanStatsBase),
    nexts (length good) h (scan_files (good ++ rest)) = (h', g', os)
    /\ Forall (fun s => h' !! s = Some o) (yielded_summaries os)
    /\ balanced o
    /\ nonnegative o.
Proof.
  intros Hgood Hne.
  do 3 eexists. exists (fold_results results).
  split; [exact (nexts_created good results rest h Hgood Hne)|].
  split.
  - apply (Forall_same_summary (fresh (dom h))).
    + apply lookup_insert_eq.
    + apply yielded_summaries_triples.
  - now apply (fold_results_kept good).
Qed.

Lemma accumulator_stays_balanced_witness :
  Forall2 (fun p r => @scan_file Sample.runtime p = Ok r)
    ["f1.py"; "f2.py"] [Sample.plain_result; Sample.annotated_result]
  /\ ["f1.py"; "f2.py"] <> []
  /\ exists (h' : store) (g' : generator) (os : list outcome)
       (o : AnnotationScanStatsBase),
       @nexts Sample.runtime (length ["f1.py"; "f2.py"]) ∅
         (scan_files (["f1.py"; "f2.py"] ++ ["f10.py"]))
       = (h', g', os)
       /\ Forall (fun s => h' !! s = Some o) (yielded_summaries os)
       /\ balanced o
       /\ nonnegative o.
Proof.
  assert (Hgood :
    Forall2 (fun p r => @scan_file Sample.runtime p = Ok r)
      ["f1.py"; "f2.py"] [Sample.plain_result; Sample.annotated_result])
    by (repeat constructor).
  assert (Hne : ["f1.py"; "f2.py"] <> []) by discriminate.
  split; [exact Hgood|]. split; [exact Hne|].
  exact (@accumulator_stays_balanced Sample.runtime _ _ ["f10.py"] ∅
           Hgood Hne).
Defined.

Lemma Forall2_app_scan `{Runtime} (good1 good2 : list string)
    (results1 results2 : list AnnotationScanResult) :
  Forall2 (fun p r => scan_file p = Ok r) good1 results1 ->
  Forall2 (fun p r => scan_file p = Ok r) good2 results2 ->
  Forall2 (fun p r => scan_file p = Ok r) (good1 ++ good2)
    (results1 ++ results2).
Proof. intros H1 H2. now apply Forall2_app. Qed.

(** X6: the cumulative summary only grows: when further files scan, each
    counter read from the accumulator is at least what it was before
    them. *)
Theorem accumulator_only_grows `{Runtime} (good1 good2 : list string)
    (results1 results2 : list AnnotationScanResult) (rest : list string)
    (h : store) :
  Forall2 (fun p r => scan_file p = Ok r) good1 results1 ->
  Forall2 (fun p r => scan_file p = Ok r) good2 results2 ->
  good1 <> [] ->
  exists (h1 h2 : store) (g1 g2 : generator) (os1 os2 : list outcome)
    (o1 o2 : AnnotationScanStatsBase),
    nexts (length good1) h (scan_files (good1 ++ good2 ++ rest))
    = (h1, g1, os1)
    /\ nexts (length (good1 ++ good2)) h
         (scan_files (good1 ++ good2 ++ rest))
       = (h2, g2, os2)
    /\ h1 !! fresh (dom h) = Some o1
    /\ h2 !! fresh (dom h) = Some o2
    /\ forall f : field, getattr o1 f <= getattr o2 f.
Proof.
  intros H1 H2 Hne.
  pose proof (nexts_created good1 results1 (good2 ++ rest) h H1 Hne) as Hn1.
  assert (Hne12 : good1 ++ good2 <> [])
    by (destruct good1; [congruence|discriminate]).
  pose proof (nexts_created (good1 ++ good2) (results1 ++ results2) rest h
                (Forall2_app_scan _ _ _ _ H1 H2) Hne12) as Hn2.
  rewrite <- app_assoc in Hn2.
  do 8 eexists. split; [exact Hn1|]. split; [exact Hn2|].
  split; [apply lookup_insert_eq|]. split; [apply lookup_insert_eq|].
  intros f. rewrite fold_results_app, getattr_add_result.
  destruct (fold_results_kept good2 results2 H2) as [_ Hnn].
  specialize (Hnn f). lia.
Qed.

Lemma accumulator_only_grows_witness :
  Forall2 (fun p r => @scan_file Sample.runtime p = Ok r)
    ["f1.py"] [Sample.plain_result]
  /\ Forall2 (fun p r => @scan_file Sample.runtime p = Ok r)
       ["f2.py"; "f10.py"] [Sample.annotated_result; Sample.foo_result]
  /\ ["f1.py"] <> []
  /\ exists (h1 h2 : store) (g1 g2 : generator) (os1 os2 : list outcome)
       (o1 o2 : AnnotationScanStatsBase),
       @nexts Sample.runtime (length ["f1.py"]) ∅
         (scan_files (["f1.py"] ++ ["f2.py"; "f10.py"] ++ []))
       = (h1, g1, os1)
       /\ @nexts Sample.runtime (length (["f1.py"] ++ ["f2.py"; "f10.py"]))
            ∅ (scan_files (["f1.py"] ++ ["f2.py"; "f10.py"] ++ []))
          = (h2, g2, os2)
       /\ h1 !! fresh (dom (∅ : store)) = Some o1
       /\ h2 !! fresh (dom (∅ : store)) = Some o2
       /\ forall f : field, getattr o1 f <= getattr o2 f.
Proof.
  assert (H1 :
    Forall2 (fun p r => @scan_file Sample.runtime p = Ok r)
      ["f1.py"] [Sample.plain_result])
    by (repeat constructor).
  assert (H2 :
    Forall2 (fun p r => @scan_file Sample.runtime p = Ok r)
      ["f2.py"; "f10.py"] [Sample.annotated_result; Sample.foo_result])
    by (repeat constructor).
  assert (Hne : ["f1.py"] <> []) by discriminate.
  split; [exact H1|]. split; [exact H2|]. split; [exact Hne|].
  exact (@accumulator_only_grows Sample.runtime _ _ _ _ [] ∅ H1 H2 Hne).
Defined.

(** ** What a scan leaves alone *)

Lemma yielded_summaries_stops (k : nat) :
  yielded_summaries (List.repeat StopIteration k) = [].
Proof. induction k as [|k IH]; [reflexivity|exact IH]. Qed.

(** From a [yield] or from the end, the generator writes to its own
    accumulator only, keeps it, and yields no other summary. *)
Lemma nexts_suspended_frame `{Runtime} (n : nat) :
  forall (h : store) (a : address) (paths : list string) (h' : store)
    (g' : generator) (os : list outcome),
    nexts n h (Suspended a paths) = (h', g', os) ->
    (forall b, b <> a -> h' !! b = h !! b)
    /\ (is_Some (h !! a) -> is_Some (h' !! a))
    /\ Forall (fun s => s = a) (yielded_summaries os).
Proof.
  induction n as [|n IH]; intros h a paths h' g' os.
  - simpl. intros [= <- <- <-]. repeat split; [easy|constructor].
  - destruct paths as [|p paths].
    + simpl. rewrite nexts_closed. intros [= <- <- <-].
      repeat split; [easy|].
      change (yielded_summaries
                (StopIteration :: List.repeat StopIteration n))
        with (yielded_summaries (List.repeat StopIteration n)).
      rewrite yielded_summaries_stops. constructor.
    + simpl. destruct (scan_file p) as [r|e].
      * simpl.
        destruct (nexts n _ (Suspended a paths)) as [[h2 g2] os2] eqn:Hn.
        intros [= <- <- <-].
        destruct (IH _ _ _ _ _ _ Hn) as (Hframe & Hkeep & Hsame).
        repeat split.
        -- intros b Hb. rewrite (Hframe b Hb).
           now apply lookup_alter_ne.
        -- intros Ha. apply Hkeep. rewrite lookup_alter_eq.
           now apply fmap_is_Some.
        -- constructor; [reflexivity|exact Hsame].
      * rewrite nexts_closed. intros [= <- <- <-].
        repeat split; [easy|].
        change (yielded_summaries
                  (Raised e :: List.repeat StopIteration n))
          with (yielded_summaries (List.repeat StopIteration n)).
        rewrite yielded_summaries_stops. constructor.
Qed.

Lemma nexts_created_suspended `{Runtime} (n : nat) (h : store)
    (paths : list string) :
  nexts (S n) h (Created paths)
  = nexts (S n) (<[fresh (dom h) := zeros]> h)
      (Suspended (fresh (dom h)) paths).
Proof. cbn [nexts]. now rewrite next_created. Qed.

(** X7: a scan leaves every object that existed before it as it was,
    however many times [next] is called and whether files fail or not. *)
Theorem scan_leaves_other_objects `{Runtime} (n : nat)
    (paths : list string) (h h' : store) (g' : generator)
    (os : list outcome) (b : address) (o : AnnotationScanStatsBase) :
  nexts n h (scan_files paths) = (h', g', os) ->
  h !! b = Some o ->
  h' !! b = Some o.
Proof.
  unfold scan_files. destruct n as [|n].
  - simpl. now intros [= <- <- <-].
  - rewrite nexts_created_suspended. intros Hn Hb.
    destruct (nexts_suspended_frame _ _ _ _ _ _ _ Hn) as (Hframe & _ & _).
    assert (Hne : b <> fresh (dom h)).
    { intros ->. rewrite fresh_lookup in Hb. discriminate. }
    rewrite (Hframe b Hne). now rewrite lookup_insert_ne.
Qed.

Lemma scan_leaves_other_objects_witness :
  @nexts Sample.runtime 3 (<[7%positive := stats Sample.foo_result]> ∅)
    (scan_files ["mixed/a.py"; "mixed/b.py"; "mixed/c.py"])
  = (<[fresh (dom (<[7%positive := stats Sample.foo_result]>
                     (∅ : store)))
       := stats Sample.plain_result]>
       (<[7%positive := stats Sample.foo_result]> ∅),
     Closed,
     [Yielded
        (fresh (dom (<[7%positive := stats Sample.foo_result]>
                       (∅ : store))))
        "mixed/a.py" Sample.plain_result;
      Raised (SyntaxError "invalid syntax"); StopIteration])
  /\ (<[7%positive := stats Sample.foo_result]> (∅ : store)) !! 7%positive
     = Some (stats Sample.foo_result)
  /\ (<[fresh (dom (<[7%positive := stats Sample.foo_result]>
                      (∅ : store)))
        := stats Sample.plain_result]>
        (<[7%positive := stats Sample.foo_result]> (∅ : store)))
       !! 7%positive
     = Some (stats Sample.foo_result).
Proof.
  assert (Hn :
    @nexts Sample.runtime 3 (<[7%positive := stats Sample.foo_result]> ∅)
      (scan_files ["mixed/a.py"; "mixed/b.py"; "mixed/c.py"])
    = (<[fresh (dom (<[7%positive := stats Sample.foo_result]>
                       (∅ : store)))
         := stats Sample.plain_result]>
         (<[7%positive := stats Sample.foo_result]> ∅),
       Closed,
       [Yielded
          (fresh (dom (<[7%positive := stats Sample.foo_result]>
                         (∅ : store))))
          "mixed/a.py" Sample.plain_result;
        Raised (SyntaxError "invalid syntax"); StopIteration])).
  { vm_compute. reflexivity. }
  assert (Hb :
    (<[7%positive := stats Sample.foo_result]> (∅ : store)) !! 7%positive
    = Some (stats Sample.foo_result))
    by apply lookup_insert_eq.
  split; [exact Hn|]. split; [exact Hb|].
  exact (@scan_leaves_other_objects Sample.runtime _ _ _ _ _ _ _ _ Hn Hb).
Defined.

(** X8: every summary a generator yields is an object made at its first
    [next]: it did not exist in the store the generator started from, so
    it is none of the summaries of an earlier scan. *)
Theorem yielded_summaries_are_new `{Runtime} (n : nat)
    (paths : list string) (h h' : store) (g' : generator)
    (os : list outcome) :
  nexts n h (scan_files paths) = (h', g', os) ->
  Forall (fun s => h !! s = None /\ is_Some (h' !! s))
    (yielded_summaries os).
Proof.
  unfold scan_files. destruct n as [|n].
  - simpl. intros [= <- <- <-]. constructor.
  - rewrite nexts_created_suspended. intros Hn.
    destruct (nexts_suspended_frame _ _ _ _ _ _ _ Hn)
      as (_ & Hkeep & Hsame).
    apply (Forall_same_summary (fresh (dom h))); [|exact Hsame].
    split; [apply fresh_lookup|].
    apply Hkeep. rewrite lookup_insert_eq. now eexists.
Qed.

Lemma yielded_summaries_are_new_witness :
  @nexts Sample.runtime 2 (<[7%positive := stats Sample.foo_result]> ∅)
    (scan_files ["f1.py"])
  = (<[fresh (dom (<[7%positive := stats Sample.foo_result]>
                     (∅ : store)))
       := stats Sample.plain_result]>
       (<[7%positive := stats Sample.foo_result]> ∅),
     Closed,
     [Yielded
        (fresh (dom (<[7%positive := stats Sample.foo_result]>
                       (∅ : store))))
        "f1.py" Sample.plain_result;
      StopIteration])
  /\ Forall
       (fun s =>
          (<[7%positive := stats Sample.foo_result]> (∅ : store)) !! s
          = None
          /\ is_Some
               ((<[fresh (dom (<[7%positive := stats Sample.foo_result]>
                                 (∅ : store)))
                   := stats Sample.plain_result]>
                   (<[7%positive := stats Sample.foo_result]>
                      (∅ : store))) !! s))
       (yielded_summaries
          [Yielded
             (fresh (dom (<[7%positive := stats Sample.foo_result]>
                            (∅ : store))))
             "f1.py" Sample.plain_result;
           StopIteration]).
Proof.
  assert (Hn :
    @nexts Sample.runtime 2 (<[7%positive := stats Sample.foo_result]> ∅)
      (scan_files ["f1.py"])
    = (<[fresh (dom (<[7%positive := stats Sample.foo_result]>
                       (∅ : store)))
         := stats Sample.plain_result]>
         (<[7%positive := stats Sample.foo_result]> ∅),
       Closed,
       [Yielded
          (fresh (dom (<[7%positive := stats Sample.foo_result]>
                         (∅ : store))))
          "f1.py" Sample.plain_result;
        StopIteration])).
  { vm_compute. reflexivity. }
  split; [exact Hn|].
  exact (@yielded_summaries_are_new Sample.runtime _ _ _ _ _ _ Hn).
Defined.

(** ** Sorting again, and ties *)

Lemma humansorted_of_Sorted (paths : list string) :
  Sorted natural_le paths -> humansorted paths = paths.
Proof.
  induction 1 as [|x paths Hsorted IH Hhd]; [reflexivity|].
  simpl. rewrite IH. destruct Hhd as [|y paths Hxy]; [reflexivity|].
  simpl. unfold natural_le in Hxy. now rewrite Hxy.
Qed.

(** X9: [humansorted] returns a list already in natural order as it is;
    in particular sorting twice is sorting once. *)
Theorem humansorted_idempotent :
  (forall paths : list string,
      Sorted natural_le paths -> humansorted paths = paths)
  /\ (forall paths : list string,
        humansorted (humansorted paths) = humansorted paths).
Proof.
  split.
  - apply humansorted_of_Sorted.
  - intros paths. apply humansorted_of_Sorted, humansorted_Sorted.
Qed.

Lemma humansorted_idempotent_witness :
  Sorted natural_le ["f1.py"; "f2.py"; "f10.py"]
  /\ humansorted ["f1.py"; "f2.py"; "f10.py"] = ["f1.py"; "f2.py"; "f10.py"].
Proof.
  assert (Hsorted : Sorted natural_le ["f1.py"; "f2.py"; "f10.py"])
    by (repeat constructor).
  split; [exact Hsorted|].
  exact (proj1 humansorted_idempotent _ Hsorted).
Defined.

(** Inserting a path moves it past paths of other keys only. *)
Lemma filter_insert (k : list component) (x : string) (l : list string) :
  List.filter (has_key k) (insert x l) = List.filter (has_key k) (x :: l).
Proof.
  induction l as [|y l IH]; [reflexivity|].
  simpl insert. destruct (key_lt y x) eqn:Hlt; [|reflexivity].
  simpl in *. rewrite IH.
  destruct (has_key k x) eqn:Hx; [|reflexivity].
  destruct (has_key k y) eqn:Hy; [|reflexivity].
  exfalso. unfold has_key, key_lt in *.
  destruct (key_compare (natsort_key x) k) eqn:Hxk; try discriminate.
  destruct (key_compare (natsort_key y) k) eqn:Hyk; try discriminate.
  apply key_compare_eq in Hxk, Hyk. rewrite Hxk, Hyk in Hlt.
  clear -Hlt. induction k as [|c k IH]; simpl in Hlt; [discriminate|].
  rewrite component_compare_refl in Hlt. auto.
Qed.

(** X10: the sort is stable: the paths with one key come out in the order
    they went in; [f1.py] and [f01.py] have one key, the digits being
    taken by value, so either order of the two is kept. *)
Theorem humansorted_stable :
  (forall (k : list component) (paths : list string),
      List.filter (has_key k) (humansorted paths)
      = List.filter (has_key k) paths)
  /\ natsort_key "f01.py" = natsort_key "f1.py"
  /\ humansorted ["f01.py"; "f1.py"] = ["f01.py"; "f1.py"]
  /\ humansorted ["f1.py"; "f01.py"] = ["f1.py"; "f01.py"].
Proof.
  split; [|repeat split].
  intros k paths.
  induction paths as [|x paths IH]; [reflexivity|].
  simpl humansorted. rewrite filter_insert. simpl. now rewrite IH.
Qed.

(** ** [short_path] *)

Import Metrics.

Lemma length_append (s1 s2 : string) :
  String.length (s1 ++ s2)%string
  = (String.length s1 + String.length s2)%nat.
Proof.
  induction s1 as [|c s1 IH]; [reflexivity|].
  change (S (String.length (s1 ++ s2)%string)
          = S (String.length s1 + String.length s2)).
  now rewrite IH.
Qed.

Lemma strlen_append (s1 s2 : string) :
  strlen (s1 ++ s2)%string = strlen s1 + strlen s2.
Proof. unfold strlen. rewrite length_append. lia. Qed.

Lemma length_repeat_space (n : nat) :
  String.length (Str.repeat " " n) = n.
Proof.
  induction n as [|n IH]; [reflexivity|].
  simpl Str.repeat. rewrite length_append, IH. reflexivity.
Qed.


Lemma get_in_range (n : nat) :
  forall s : string,
    (n < String.length s)%nat -> exists c, String.get n s = Some c.
Proof.
  induction n as [|n IH]; intros [|c s] Hn; simpl in *; try lia.
  - now exists c.
  - apply IH. lia.
Qed.

Lemma short_path_short_case (path : string) (max_len : Z)
    (delim : string) :
  strlen path <= max_len ->
  short_path path max_len delim
  = Returns
      (path ++ Str.repeat " " (Z.to_nat (max_len - strlen path)))%string.
Proof.
  intros Hlen. unfold short_path.
  now rewrite (proj2 (Z.leb_le _ _) Hlen).
Qed.

(** X11: a path no longer than [max_len] comes back padded with spaces on
    the right to exactly [max_len] characters, whatever the delimiter. *)
Theorem short_path_pads (path : string) (max_len : Z) (delim : string) :
  strlen path <= max_len ->
  exists pad : nat,
    short_path path max_len delim
    = Returns (path ++ Str.repeat " " pad)%string
    /\ strlen (path ++ Str.repeat " " pad)%string = max_len.
Proof.
  intros Hlen. exists (Z.to_nat (max_len - strlen path)).
  split; [now apply short_path_short_case|].
  rewrite strlen_append. unfold strlen at 2.
  rewrite length_repeat_space. lia.
Qed.

Lemma short_path_pads_witness :
  strlen "f1.py" <= 75
  /\ exists pad : nat,
       short_path "f1.py" 75 default_delim
       = Returns ("f1.py" ++ Str.repeat " " pad)%string
       /\ strlen ("f1.py" ++ Str.repeat " " pad)%string = 75.
Proof.
  assert (Hlen : strlen "f1.py" <= 75) by (vm_compute; discriminate).
  split; [exact Hlen|].
  exact (short_path_pads "f1.py" 75 default_delim Hlen).
Defined.

Lemma short_path_long_case (path : string) (max_len : Z) (delim : string) :
  max_len < strlen path ->
  2 * strlen delim <= max_len ->
  exists c : ascii,
    short_path path max_len delim
    = Returns
        (String.substring 0 (Z.to_nat (max_len / 2)) path ++ delim
           ++ String c "")%string.
Proof.
  intros Hlong Hdelim.
  assert (Hd : 0 <= strlen delim) by (unfold strlen; lia).
  assert (Hquot : Z.quot max_len 2 = max_len / 2)
    by (apply Z.quot_div_nonneg; lia).
  assert (Hhalf : strlen delim <= max_len / 2)
    by (apply Z.div_le_lower_bound; lia).
  assert (Hhalf_le : max_len / 2 <= max_len)
    by (apply Z.div_le_upper_bound; lia).
  unfold short_path. rewrite Hquot.
  rewrite (proj2 (Z.leb_gt _ _) Hlong).
  assert (Hitem : exists c, item path (- (max_len / 2 - strlen delim))
                            = Some c).
  { unfold item.
    destruct (Z.ltb_spec (- (max_len / 2 - strlen delim)) 0) as [Hneg|Hpos].
    - rewrite (proj2 (Z.leb_le _ _)), (proj2 (Z.ltb_lt _ _)) by lia.
      apply get_in_range. unfold strlen in *. lia.
    - rewrite (proj2 (Z.leb_le _ _)), (proj2 (Z.ltb_lt _ _)) by lia.
      apply get_in_range. unfold strlen in *. lia. }
  destruct Hitem as [c Hc]. exists c. rewrite Hc.
  unfold slice_to. rewrite (proj2 (Z.ltb_ge _ _)) by lia.
  now rewrite Z.min_l by lia.
Qed.



(** With the delimiter of the program and the widths it asks for,
    [short_path] returns. *)
Lemma short_path_returns (path : string) (max_len : Z) :
  8 <= max_len ->
  exists text, short_path path max_len default_delim = Returns text.
Proof.
  intros Hmax. destruct (Z.le_gt_cases (strlen path) max_len) as [Hle|Hgt].
  - eexists. now apply short_path_short_case.
  - assert (Hdelim : 2 * strlen default_delim <= max_len)
      by (change (strlen default_delim) with 4; lia).
    destruct (short_path_long_case path max_len default_delim Hgt Hdelim)
      as (c & Hs).
    eexists. exact Hs.
Qed.

(** ** Folder names *)

Lemma contains_at_cons (c : ascii) (s : string) :
  Str.contains "@" (String c s)
  = Ascii.eqb c "@" || Str.contains "@" s.
Proof.
  change (Str.contains "@" (String c s))
    with (String.prefix "@" (String c s) || Str.contains "@" s).
  change (String.prefix "@" (String c s))
    with (if ascii_dec "@" c then String.prefix "" s else false).
  destruct (ascii_dec "@" c) as [<-|Hne].
  - destruct s; reflexivity.
  - assert (Heqb : Ascii.eqb c "@" = false).
    { apply Ascii.eqb_neq. congruence. }
    now rewrite Heqb.
Qed.

Lemma contains_at_dest_folder (name owner : string) :
  Str.contains "@" (dest_folder name owner) = true.
Proof.
  unfold dest_folder. induction name as [|c name IH].
  - change ("" ++ "@" ++ owner)%string with (String "@" owner).
    now rewrite contains_at_cons.
  - change (String c name ++ "@" ++ owner)%string
      with (String c (name ++ "@" ++ owner)%string).
    rewrite contains_at_cons, IH. apply orb_true_r.
Qed.

Lemma split_once_dest_folder (name owner : string) :
  Str.contains "@" name = false ->
  split_once "@" (dest_folder name owner) = [name; owner].
Proof.
  unfold dest_folder. induction name as [|c name IH]; intros Hname.
  - change ("" ++ "@" ++ owner)%string with (String "@" owner).
    reflexivity.
  - rewrite contains_at_cons in Hname.
    apply orb_false_iff in Hname. destruct Hname as [Hc Hname].
    change (String c name ++ "@" ++ owner)%string
      with (String c (name ++ "@" ++ owner)%string).
    simpl split_once. rewrite Hc, (IH Hname). reflexivity.
Qed.

(** X13: the folder name the cloning script gives a repository reads back
    as the repository: for a name without [@], the name scanner turns
    [name@owner] into [owner/name], which is [get_name_with_owner]; a
    folder name without [@] is refused. *)
Theorem repository_name_round_trip :
  (forall name owner : string,
      Str.contains "@" name = false ->
      RepositoryNameScanner_scan_folder (dest_folder name owner)
      = Returns [("name", VStr (get_name_with_owner owner name))])
  /\ (forall dir_name : string,
        Str.contains "@" dir_name = false ->
        RepositoryNameScanner_scan_folder dir_name
        = Raises (WrongDirectoryName dir_name)).
Proof.
  split.
  - intros name owner Hname. unfold RepositoryNameScanner_scan_folder.
    rewrite contains_at_dest_folder, split_once_dest_folder by exact Hname.
    reflexivity.
  - intros dir_name Hname. unfold RepositoryNameScanner_scan_folder.
    now rewrite Hname.
Qed.

Lemma repository_name_round_trip_witness :
  Str.contains "@" "demo" = false
  /\ RepositoryNameScanner_scan_folder (dest_folder "demo" "someone")
     = Returns [("name", VStr (get_name_with_owner "someone" "demo"))].
Proof.
  split; [reflexivity|].
  apply (proj1 repository_name_round_trip "demo" "someone").
  reflexivity.
Defined.

(** ** Summaries *)

Lemma dict_get_set_eq (d : dict) (k : string) (v : value) :
  dict_get (dict_set d k v) k = Some v.
Proof.
  induction d as [|[k0 v0] d IH]; simpl.
  - now rewrite String.eqb_refl.
  - destruct (String.eqb k0 k) eqn:Hk; simpl; rewrite Hk; auto.
Qed.

Lemma dict_get_set_ne (d : dict) (k k' : string) (v : value) :
  k <> k' -> dict_get (dict_set d k v) k' = dict_get d k'.
Proof.
  intros Hne. induction d as [|[k0 v0] d IH]; simpl.
  - now rewrite (proj2 (String.eqb_neq k k') Hne).
  - destruct (String.eqb k0 k) eqn:Hk; simpl.
    + apply String.eqb_eq in Hk. subst k0.
      now rewrite (proj2 (String.eqb_neq k k') Hne).
    + destruct (String.eqb k0 k'); auto.
Qed.

Lemma dict_set_set (d : dict) (k : string) (v v' : value) :
  dict_set (dict_set d k v) k v' = dict_set d k v'.
Proof.
  induction d as [|[k0 v0] d IH]; simpl.
  - now rewrite String.eqb_refl.
  - destruct (String.eqb k0 k) eqn:Hk; simpl; rewrite Hk; [reflexivity|].
    now rewrite IH.
Qed.

(** Setting a key of the dictionary and setting another key commute: the
    first is in place. *)
Lemma dict_set_comm (d : dict) (k k' : string) (v v' : value) :
  k <> k' ->
  dict_get d k <> None ->
  dict_set (dict_set d k' v') k v = dict_set (dict_set d k v) k' v'.
Proof.
  intros Hne. induction d as [|[k0 v0] d IH]; intros Hin; simpl in *.
  - congruence.
  - destruct (String.eqb k0 k) eqn:Hk.
    + apply String.eqb_eq in Hk. subst k0.
      rewrite (proj2 (String.eqb_neq k k') Hne). simpl.
      rewrite String.eqb_refl, (proj2 (String.eqb_neq k k') Hne).
      reflexivity.
    + destruct (String.eqb k0 k') eqn:Hk'; simpl; rewrite Hk, ?Hk';
        [reflexivity|].
      now rewrite IH.
Qed.

Lemma dict_set_absent (d : dict) (k : string) (v : value) :
  dict_get d k = None -> dict_set d k v = d ++ [(k, v)].
Proof.
  induction d as [|[k0 v0] d IH]; simpl; [reflexivity|].
  destruct (String.eqb k0 k); [discriminate|].
  intros Hd. now rewrite IH.
Qed.

Lemma dict_get_put_int_ne (d : dict) (k k' : string) (z : Z) :
  k <> k' -> dict_get (put_int d k z) k' = dict_get d k'.
Proof. intros Hne. unfold put_int. now apply dict_get_set_ne. Qed.

Lemma put_int_put_int (d : dict) (k : string) (z1 z2 : Z) :
  no_text d k -> put_int (put_int d k z1) k z2 = put_int d k (z1 + z2).
Proof.
  intros Hok. unfold put_int. rewrite dict_get_set_eq, dict_set_set.
  destruct (dict_get d k) as [[x|s]|] eqn:Hd.
  - do 2 f_equal. lia.
  - now destruct (Hok s).
  - reflexivity.
Qed.

Lemma put_int_comm (d : dict) (k k' : string) (z z' : Z) :
  k <> k' ->
  dict_get d k <> None ->
  put_int (put_int d k' z') k z = put_int (put_int d k z) k' z'.
Proof.
  intros Hne Hin. unfold put_int.
  rewrite !dict_get_set_ne by congruence.
  now apply dict_set_comm.
Qed.

Lemma summary_put_int (d : dict) (k : string) (z : Z) :
  no_text d k -> summary_put d k (VInt z) = Returns (put_int d k z).
Proof.
  intros Hok. unfold summary_put, put_int.
  destruct (dict_get d k) as [[x|s]|] eqn:Hd; try reflexivity.
  now destruct (Hok s).
Qed.

Lemma no_text_put_int (d : dict) (k k' : string) (z : Z) :
  no_text d k' -> no_text (put_int d k z) k'.
Proof.
  intros Hok s. destruct (String.eqb_spec k k') as [<-|Hne].
  - unfold put_int. rewrite dict_get_set_eq. discriminate.
  - rewrite dict_get_put_int_ne by exact Hne. apply Hok.
Qed.

Lemma no_text_put_fields (o : AnnotationScanStatsBase) (l : list field)
    (k : string) :
  forall d : dict, no_text d k -> no_text (put_fields o l d) k.
Proof.
  induction l as [|f l IH]; intros d Hd; [exact Hd|].
  simpl. apply IH. now apply no_text_put_int.
Qed.

Lemma put_all_fields (o : AnnotationScanStatsBase) (l : list field) :
  forall d : dict,
    Forall (fun f => no_text d (field_name f)) l ->
    summary_put_all d (map (fun f => (field_name f, VInt (getattr o f))) l)
    = Returns (put_fields o l d).
Proof.
  induction l as [|f l IH]; intros d Hok; [reflexivity|].
  inversion Hok as [|? ? Hf Hl]; subst.
  simpl. rewrite (summary_put_int d _ _ Hf). apply IH.
  eapply Forall_impl; [exact Hl|].
  intros f' Hf'. now apply no_text_put_int.
Qed.

(** Adding to a key the summary has can be done before the other fields
    are put. *)
Lemma put_fields_push (o : AnnotationScanStatsBase) (l : list field)
    (k : string) (z : Z) :
  forall d : dict,
    Forall (fun f => field_name f <> k) l ->
    dict_get d k <> None ->
    put_int (put_fields o l d) k z = put_fields o l (put_int d k z).
Proof.
  induction l as [|f l IH]; intros d Hne Hin; [reflexivity|].
  inversion Hne as [|? ? Hf Hl]; subst.
  simpl. rewrite IH.
  - now rewrite put_int_comm.
  - exact Hl.
  - now rewrite dict_get_put_int_ne.
Qed.

Lemma notin_map_Forall {A} (g : A -> string) (x : string) (l : list A) :
  ~ In x (map g l) -> Forall (fun a => g a <> x) l.
Proof.
  induction l as [|a l IH]; intros Hnotin; constructor.
  - intros Heq. apply Hnotin. now left.
  - apply IH. intros Hin. apply Hnotin. now right.
Qed.

(** Putting two group results one after the other is putting their
    sum. *)
Lemma put_fields_twice (o1 o2 : AnnotationScanStatsBase) (l : list field) :
  forall d : dict,
    List.NoDup (map field_name l) ->
    Forall (fun f => no_text d (field_name f)) l ->
    put_fields o2 l (put_fields o1 l d)
    = put_fields (_add_result o1 o2) l d.
Proof.
  induction l as [|f l IH]; intros d Hnodup Hok; [reflexivity|].
  inversion Hok as [|? ? Hf Hl]; subst.
  inversion Hnodup as [|? ? Hnotin Hnodup']; subst.
  simpl. rewrite put_fields_push.
  - rewrite put_int_put_int by exact Hf.
    rewrite IH.
    + now rewrite getattr_add_result.
    + exact Hnodup'.
    + eapply Forall_impl; [exact Hl|].
      intros f' Hf'. now apply no_text_put_int.
  - now apply notin_map_Forall.
  - unfold put_int. rewrite dict_get_set_eq. discriminate.
Qed.

Lemma public_dir_NoDup : List.NoDup (map field_name public_dir).
Proof.
  repeat constructor; simpl; intuition discriminate.
Qed.

Lemma dict_get_snoc (d : dict) (k k' : string) (v : value) :
  k <> k' -> dict_get (d ++ [(k, v)]) k' = dict_get d k'.
Proof.
  intros Hne. induction d as [|[k0 v0] d IH]; simpl.
  - now rewrite (proj2 (String.eqb_neq k k') Hne).
  - destruct (String.eqb k0 k'); auto.
Qed.

(** A summary without any of the names takes the counters at its end, in
    the order they are put. *)
Lemma put_fields_absent (o : AnnotationScanStatsBase) (l : list field) :
  forall d : dict,
    List.NoDup (map field_name l) ->
    Forall (fun f => dict_get d (field_name f) = None) l ->
    put_fields o l d
    = d ++ map (fun f => (field_name f, VInt (getattr o f))) l.
Proof.
  induction l as [|f l IH]; intros d Hnodup Habsent; simpl.
  - now rewrite app_nil_r.
  - inversion Habsent as [|? ? Hf Hl]; subst.
    inversion Hnodup as [|? ? Hnotin Hnodup']; subst.
    unfold put_int at 1. rewrite Hf, (dict_set_absent _ _ _ Hf).
    rewrite IH.
    + now rewrite <- app_assoc.
    + exact Hnodup'.
    + pose proof (notin_map_Forall _ _ _ Hnotin) as Hne.
      clear -Hl Hne. induction Hl as [|f' l Hf' Hl IH]; constructor.
      * inversion Hne; subst. rewrite dict_get_snoc by congruence.
        exact Hf'.
      * apply IH. now inversion Hne.
Qed.

Lemma absent_no_text (d : dict) (l : list field) :
  Forall (fun f => dict_get d (field_name f) = None) l ->
  Forall (fun f => no_text d (field_name f)) l.
Proof.
  intros Habsent. eapply Forall_impl; [exact Habsent|].
  intros f Hf s. rewrite Hf. discriminate.
Qed.

(** X14: a summary that has none of the nine counter names takes the
    counters of a group result at its end, sorted by name, each under its
    field name, and keeps what it had: the columns of the report. *)
Theorem summary_takes_group_result (self : dict)
    (o : AnnotationScanStatsBase) :
  (forall f : field, dict_get self (field_name f) = None) ->
  summary_add_result self (SGroup o)
  = Returns
      (self
         ++ [("annotated_assign_count", VInt (annotated_assign_count o));
             ("annotated_func_params_count",
              VInt (annotated_func_params_count o));
             ("annotated_func_returns_count",
              VInt (annotated_func_returns_count o));
             ("total_assign_count", VInt (total_assign_count o));
             ("total_func_params_count", VInt (total_func_params_count o));
             ("total_func_returns_count",
              VInt (total_func_returns_count o));
             ("unannotated_assign_count",
              VInt (unannotated_assign_count o));
             ("unannotated_func_params_count",
              VInt (unannotated_func_params_count o));
             ("unannotated_func_returns_count",
              VInt (unannotated_func_returns_count o))]).
Proof.
  intros Habsent.
  assert (Hall : Forall (fun f => dict_get self (field_name f) = None)
                   public_dir).
  { unfold public_dir. repeat constructor; apply Habsent. }
  unfold summary_add_result, group_items.
  rewrite put_all_fields by (now apply absent_no_text).
  rewrite put_fields_absent by (exact Hall || apply public_dir_NoDup).
  reflexivity.
Qed.

Lemma summary_takes_group_result_witness :
  (forall f : field,
      dict_get [("name", VStr "someone/demo")] (field_name f) = None)
  /\ summary_add_result [("name", VStr "someone/demo")] (SGroup zeros)
     = Returns
         ([("name", VStr "someone/demo")]
            ++ [("annotated_assign_count",
                 VInt (annotated_assign_count zeros));
                ("annotated_func_params_count",
                 VInt (annotated_func_params_count zeros));
                ("annotated_func_returns_count",
                 VInt (annotated_func_returns_count zeros));
                ("total_assign_count", VInt (total_assign_count zeros));
                ("total_func_params_count",
                 VInt (total_func_params_count zeros));
                ("total_func_returns_count",
                 VInt (total_func_returns_count zeros));
                ("unannotated_assign_count",
                 VInt (unannotated_assign_count zeros));
                ("unannotated_func_params_count",
                 VInt (unannotated_func_params_count zeros));
                ("unannotated_func_returns_count",
                 VInt (unannotated_func_returns_count zeros))]).
Proof.
  assert (Habsent : forall f : field,
             dict_get [("name", VStr "someone/demo")] (field_name f)
             = None)
    by (intros f; destruct f; reflexivity).
  split; [exact Habsent|].
  exact (summary_takes_group_result _ zeros Habsent).
Defined.

(** X15: adding group results to a summary agrees with adding them to
    each other: for a summary with no text under a counter name, adding
    one group result and then another gives what adding their sum
    gives. *)
Theorem summary_add_agrees_with_group_add (self : dict)
    (o1 o2 : AnnotationScanStatsBase) :
  (forall f : field, no_text self (field_name f)) ->
  exists self1 : dict,
    summary_add_result self (SGroup o1) = Returns self1
    /\ summary_add_result self1 (SGroup o2)
       = summary_add_result self (SGroup (_add_result o1 o2)).
Proof.
  intros Hok.
  assert (Hall : Forall (fun f => no_text self (field_name f)) public_dir).
  { unfold public_dir. repeat constructor; apply Hok. }
  exists (put_fields o1 public_dir self).
  unfold summary_add_result, group_items.
  rewrite !put_all_fields; try exact Hall.
  - split; [reflexivity|].
    now rewrite put_fields_twice by (exact Hall || apply public_dir_NoDup).
  - eapply Forall_impl; [exact Hall|].
    intros f Hf. now apply no_text_put_fields.
Qed.

Lemma summary_add_agrees_with_group_add_witness :
  (forall f : field,
      no_text [("total_assign_count", VInt 5)] (field_name f))
  /\ exists self1 : dict,
       summary_add_result [("total_assign_count", VInt 5)]
         (SGroup (stats Sample.plain_result))
       = Returns self1
       /\ summary_add_result self1 (SGroup (stats Sample.foo_result))
          = summary_add_result [("total_assign_count", VInt 5)]
              (SGroup (_add_result (stats Sample.plain_result)
                         (stats Sample.foo_result))).
Proof.
  assert (Hok : forall f : field,
             no_text [("total_assign_count", VInt 5)] (field_name f))
    by (intros f s; destruct f; discriminate).
  split; [exact Hok|].
  exact (summary_add_agrees_with_group_add _ _ _ Hok).
Defined.

Lemma put_all_text_raises (o : AnnotationScanStatsBase) (l : list field)
    (f : field) (s : string) :
  forall d : dict,
    In f l ->
    dict_get d (field_name f) = Some (VStr s) ->
    summary_put_all d (map (fun f => (field_name f, VInt (getattr o f))) l)
    = Raises SummaryTypeError.
Proof.
  induction l as [|f0 l IH]; intros d Hin Hd; [contradiction|].
  simpl. unfold summary_put.
  destruct (String.eqb_spec (field_name f0) (field_name f)) as [Heq|Hne].
  - rewrite Heq, Hd. reflexivity.
  - destruct (dict_get d (field_name f0)) as [[x|s0]|] eqn:Hd0; simpl.
    + apply IH.
      * destruct Hin as [->|Hin]; [congruence|exact Hin].
      * now rewrite dict_get_set_ne.
    + reflexivity.
    + apply IH.
      * destruct Hin as [->|Hin]; [congruence|exact Hin].
      * now rewrite dict_get_set_ne.
Qed.

(** X16: a summary with a text under one of the counter names cannot
    take a group result: the addition raises [TypeError]. *)
Theorem summary_text_under_counter_raises (self : dict)
    (o : AnnotationScanStatsBase) (f : field) (s : string) :
  dict_get self (field_name f) = Some (VStr s) ->
  summary_add_result self (SGroup o) = Raises SummaryTypeError.
Proof.
  intros Hself. unfold summary_add_result, group_items.
  apply (put_all_text_raises o public_dir f s); [|exact Hself].
  destruct f; simpl; tauto.
Qed.

Lemma summary_text_under_counter_raises_witness :
  dict_get [("total_assign_count", VStr "many")]
    (field_name f_total_assign_count)
  = Some (VStr "many")
  /\ summary_add_result [("total_assign_count", VStr "many")] (SGroup zeros)
     = Raises SummaryTypeError.
Proof.
  split; [reflexivity|].
  apply (summary_text_under_counter_raises _ zeros f_total_assign_count
           "many").
  reflexivity.
Defined.

(** ** The proxy *)

Lemma progress_line_returns `{Process} (file_path print_path : string) :
  relative_to_cwd file_path = Some print_path ->
  exists line, progress_line file_path = Returns line.
Proof.
  intros Hrel. unfold progress_line. rewrite Hrel.
  destruct (short_path_returns print_path 75) as [text ->]; [lia|].
  now eexists.
Qed.

Lemma progress_lines `{Process} (paths : list string) :
  Forall (fun p => is_Some (relative_to_cwd p)) paths ->
  exists lines,
    Forall2 (fun p line => progress_line p = Returns line) paths lines.
Proof.
  induction 1 as [|p paths [rel Hp] _ [lines IH]].
  - exists []. constructor.
  - destruct (progress_line_returns p rel Hp) as [line Hline].
    exists (line :: lines). now constructor.
Qed.

(** From a [yield], the loop of the proxy takes the files that scan and
    print one by one. *)
Lemma proxy_loop_suspended `{Runtime} `{Process} (good : list string)
    (results : list AnnotationScanResult) :
  Forall2 (fun p r => scan_file p = Ok r) good results ->
  forall (lines : list string),
    Forall2 (fun p line => progress_line p = Returns line) good lines ->
    forall (fuel : nat) (h : store) (stdout : list string) (a : address)
      (acc : AnnotationScanStatsBase) (rest : list string)
      (summary : option address),
      h !! a = Some acc ->
      proxy_loop (length good + fuel) h stdout (Suspended a (good ++ rest))
        summary
      = proxy_loop fuel
          (<[a := _add_result acc (fold_results results)]> h)
          (stdout ++ lines) (Suspended a rest)
          (match good with [] => summary | _ :: _ => Some a end).
Proof.
  induction 1 as [|p r good results Hp _ IH];
    intros lines Hlines fuel h stdout a acc rest summary Ha.
  - inversion Hlines; subst. simpl.
    unfold fold_results. simpl.
    now rewrite _add_result_zeros_r, insert_id, app_nil_r.
  - inversion Hlines as [|? line ? lines' Hline Hlines']; subst.
    simpl. rewrite Hp. simpl. rewrite Hline.
    rewrite (alter_lookup_insert h a _ acc) by exact Ha.
    rewrite (IH lines' Hlines' fuel _ _ a (_add_result acc (stats r)))
      by apply lookup_insert_eq.
    rewrite insert_insert_eq, fold_results_cons, _add_result_assoc,
      <- app_assoc.
    simpl. now destruct good.
Qed.

Lemma proxy_loop_created `{Runtime} `{Process} (fuel : nat) (h : store)
    (stdout : list string) (paths : list string)
    (summary : option address) :
  proxy_loop (S fuel) h stdout (Created paths) summary
  = proxy_loop (S fuel) (<[fresh (dom h) := zeros]> h) stdout
      (Suspended (fresh (dom h)) paths) summary.
Proof. reflexivity. Qed.

(** The proxy on the sorted paths of a folder, when all of them scan and
    print. *)
Lemma proxy_scan_folder_sum `{Runtime} `{Process} (h : store)
    (stdout : list string) (dir_path : string)
    (results : list AnnotationScanResult) :
  Forall2 (fun p r => scan_file p = Ok r)
    (Natsort.humansorted (path_glob dir_path "**/*.py")) results ->
  Forall (fun p => is_Some (relative_to_cwd p))
    (Natsort.humansorted (path_glob dir_path "**/*.py")) ->
  exists lines : list string,
    AnnotationScannerProxy_scan_folder h stdout dir_path
    = Some (<[fresh (dom h) := fold_results results]> h, stdout ++ lines,
            Returns (fresh (dom h)))
    /\ length lines = length (path_glob dir_path "**/*.py").
Proof.
  intros Hok Hprint. unfold AnnotationScannerProxy_scan_folder, scan_folder.
  pose proof (humansorted_Permutation (path_glob dir_path "**/*.py"))
    as Hperm.
  apply Permutation_length in Hperm.
  destruct (Natsort.humansorted (path_glob dir_path "**/*.py"))
    as [|p paths] eqn:Hsorted.
  - inversion Hok; subst. exists []. simpl.
    rewrite app_nil_r. split; [reflexivity|exact (eq_sym Hperm)].
  - destruct (progress_lines _ Hprint) as [lines Hlines].
    exists lines. split.
    + change (len (p :: paths) =? 0)%Z with false. cbn iota.
      unfold scan_files, pending.
      rewrite proxy_loop_created.
      pose proof (proxy_loop_suspended (p :: paths) results Hok lines
                    Hlines 1 (<[fresh (dom h) := zeros]> h) stdout
                    (fresh (dom h)) zeros [] None
                    (lookup_insert_eq _ _ _)) as Hloop.
      rewrite app_nil_r, insert_insert_eq, _add_result_zeros_l in Hloop.
      replace (S (length (p :: paths)))
        with (length (p :: paths) + 1)%nat by lia.
      rewrite Hloop. reflexivity.
    + rewrite Hperm. symmetry. eapply Forall2_length, Hlines.
Qed.

(** X17: when every matched file scans and lies under the working
    directory, the proxy returns a new group result that holds the sum of
    the per-file results, leaves the objects there were as they are, and
    prints one line per file; when no file matches, this is a new group
    result at zero, as for files without tokens. *)
Theorem proxy_returns_sum `{Runtime} `{Process} (h : store)
    (stdout : list string) (dir_path : string)
    (results : list AnnotationScanResult) :
  Forall2 (fun p r => scan_file p = Ok r)
    (Natsort.humansorted (path_glob dir_path "**/*.py")) results ->
  Forall (fun p => is_Some (relative_to_cwd p))
    (Natsort.humansorted (path_glob dir_path "**/*.py")) ->
  exists (h' : store) (lines : list string) (a : address),
    AnnotationScannerProxy_scan_folder h stdout dir_path
    = Some (h', stdout ++ lines, Returns a)
    /\ h !! a = None
    /\ h' !! a = Some (fold_results results)
    /\ (forall b o, h !! b = Some o -> h' !! b = Some o)
    /\ length lines = length (path_glob dir_path "**/*.py").
Proof.
  intros Hok Hprint.
  destruct (proxy_scan_folder_sum h stdout dir_path results Hok Hprint)
    as (lines & Hproxy & Hlines).
  exists (<[fresh (dom h) := fold_results results]> h), lines,
    (fresh (dom h)).
  split; [exact Hproxy|]. split; [apply fresh_lookup|].
  split; [apply lookup_insert_eq|]. split; [|exact Hlines].
  intros b o Hb. rewrite lookup_insert_ne; [exact Hb|].
  intros <-. rewrite fresh_lookup in Hb. discriminate.
Qed.

Lemma proxy_returns_sum_witness :
  Forall2 (fun p r => @scan_file Sample.runtime p = Ok r)
    (Natsort.humansorted (@path_glob Sample.runtime "." "**/*.py"))
    [Sample.plain_result; Sample.annotated_result; Sample.foo_result]
  /\ Forall (fun p => is_Some (@relative_to_cwd SampleProcess.process p))
       (Natsort.humansorted (@path_glob Sample.runtime "." "**/*.py"))
  /\ exists (h' : store) (lines : list string) (a : address),
       @AnnotationScannerProxy_scan_folder Sample.runtime
         SampleProcess.process ∅ [] "."
       = Some (h', [] ++ lines, Returns a)
       /\ (∅ : store) !! a = None
       /\ h' !! a
          = Some (fold_results
                    [Sample.plain_result; Sample.annotated_result;
                     Sample.foo_result])
       /\ (forall b o, (∅ : store) !! b = Some o -> h' !! b = Some o)
       /\ length lines = length (@path_glob Sample.runtime "." "**/*.py").
Proof.
  assert (Hok :
    Forall2 (fun p r => @scan_file Sample.runtime p = Ok r)
      (Natsort.humansorted (@path_glob Sample.runtime "." "**/*.py"))
      [Sample.plain_result; Sample.annotated_result; Sample.foo_result])
    by (repeat constructor).
  assert (Hprint :
    Forall (fun p => is_Some (@relative_to_cwd SampleProcess.process p))
      (Natsort.humansorted (@path_glob Sample.runtime "." "**/*.py")))
    by (repeat constructor; eexists; reflexivity).
  split; [exact Hok|]. split; [exact Hprint|].
  exact (@proxy_returns_sum Sample.runtime SampleProcess.process ∅ [] "."
           _ Hok Hprint).
Defined.

(** The proxy on a folder with a file that does not scan. *)
Lemma proxy_scan_folder_raised `{Runtime} `{Process} (h : store)
    (stdout : list string) (dir_path : string) (good : list string)
    (results : list AnnotationScanResult) (bad : string) (e : exn)
    (rest : list string) :
  Natsort.humansorted (path_glob dir_path "**/*.py") = good ++ bad :: rest ->
  Forall2 (fun p r => scan_file p = Ok r) good results ->
  Forall (fun p => is_Some (relative_to_cwd p)) good ->
  scan_file bad = Raise e ->
  exists lines : list string,
    AnnotationScannerProxy_scan_folder h stdout dir_path
    = Some (<[fresh (dom h) := fold_results results]> h, stdout ++ lines,
            Raises (ScanError e))
    /\ length lines = length good.
Proof.
  intros Hsorted Hok Hprint Hbad.
  destruct (progress_lines _ Hprint) as [lines Hlines].
  exists lines. split; [|symmetry; eapply Forall2_length, Hlines].
  unfold AnnotationScannerProxy_scan_folder, scan_folder.
  rewrite Hsorted.
  assert (Hlen : (len (good ++ bad :: rest) =? 0)%Z = false).
  { apply Z.eqb_neq. unfold len. rewrite length_app. simpl. lia. }
  rewrite Hlen. unfold scan_files, pending.
  rewrite proxy_loop_created.
  replace (S (length (good ++ bad :: rest)))
    with (length good + S (S (length rest)))%nat
    by (rewrite length_app; simpl; lia).
  rewrite (proxy_loop_suspended good results Hok lines Hlines _ _ _ _ zeros)
    by apply lookup_insert_eq.
  rewrite insert_insert_eq, _add_result_zeros_l.
  simpl. rewrite Hbad. reflexivity.
Qed.

(** X18: the proxy catches nothing either: when a matched file does not
    scan, the exception of that file leaves the proxy after the lines of
    the files before it, and the folder gets no result. *)
Theorem proxy_propagates_failure `{Runtime} `{Process} (h : store)
    (stdout : list string) (dir_path : string) (good : list string)
    (results : list AnnotationScanResult) (bad : string) (e : exn)
    (rest : list string) :
  Natsort.humansorted (path_glob dir_path "**/*.py") = good ++ bad :: rest ->
  Forall2 (fun p r => scan_file p = Ok r) good results ->
  Forall (fun p => is_Some (relative_to_cwd p)) good ->
  scan_file bad = Raise e ->
  exists (h' : store) (lines : list string),
    AnnotationScannerProxy_scan_folder h stdout dir_path
    = Some (h', stdout ++ lines, Raises (ScanError e))
    /\ length lines = length good
    /\ (forall b o, h !! b = Some o -> h' !! b = Some o).
Proof.
  intros Hsorted Hok Hprint Hbad.
  destruct (proxy_scan_folder_raised h stdout dir_path good results bad e
              rest Hsorted Hok Hprint Hbad) as (lines & Hproxy & Hlines).
  exists (<[fresh (dom h) := fold_results results]> h), lines.
  split; [exact Hproxy|]. split; [exact Hlines|].
  intros b o Hb. rewrite lookup_insert_ne; [exact Hb|].
  intros <-. rewrite fresh_lookup in Hb. discriminate.
Qed.

Lemma proxy_propagates_failure_witness :
  Natsort.humansorted (@path_glob Sample.runtime "mixed" "**/*.py")
  = ["mixed/a.py"] ++ "mixed/b.py" :: ["mixed/c.py"]
  /\ Forall2 (fun p r => @scan_file Sample.runtime p = Ok r)
       ["mixed/a.py"] [Sample.plain_result]
  /\ Forall (fun p => is_Some (@relative_to_cwd SampleProcess.process p))
       ["mixed/a.py"]
  /\ @scan_file Sample.runtime "mixed/b.py"
     = Raise (SyntaxError "invalid syntax")
  /\ exists (h' : store) (lines : list string),
       @AnnotationScannerProxy_scan_folder Sample.runtime
         SampleProcess.process ∅ [] "mixed"
       = Some (h', [] ++ lines,
               Raises (ScanError (SyntaxError "invalid syntax")))
       /\ length lines = length ["mixed/a.py"]
       /\ (forall b o, (∅ : store) !! b = Some o -> h' !! b = Some o).
Proof.
  assert (Hsorted :
    Natsort.humansorted (@path_glob Sample.runtime "mixed" "**/*.py")
    = ["mixed/a.py"] ++ "mixed/b.py" :: ["mixed/c.py"])
    by reflexivity.
  assert (Hok :
    Forall2 (fun p r => @scan_file Sample.runtime p = Ok r)
      ["mixed/a.py"] [Sample.plain_result])
    by (repeat constructor).
  assert (Hprint :
    Forall (fun p => is_Some (@relative_to_cwd SampleProcess.process p))
      ["mixed/a.py"])
    by (repeat constructor; eexists; reflexivity).
  assert (Hbad :
    @scan_file Sample.runtime "mixed/b.py"
    = Raise (SyntaxError "invalid syntax"))
    by reflexivity.
  split; [exact Hsorted|]. split; [exact Hok|]. split; [exact Hprint|].
  split; [exact Hbad|].
  exact (@proxy_propagates_failure Sample.runtime SampleProcess.process ∅
           [] "mixed" _ _ _ _ _ Hsorted Hok Hprint Hbad).
Defined.

(** ** The row of a repository *)

(** X19: for the clone of a repository whose name has no [@], with files
    that all scan and print, the name scanner and the proxy together give
    the row of the report: the name with its owner first, then the nine
    counters of the whole folder, sorted by name. *)
Theorem repository_row `{Runtime} `{Process} (h : store)
    (stdout : list string) (dir_path name owner : string)
    (results : list AnnotationScanResult) :
  path_name dir_path = dest_folder name owner ->
  Str.contains "@" name = false ->
  Forall2 (fun p r => scan_file p = Ok r)
    (Natsort.humansorted (path_glob dir_path "**/*.py")) results ->
  Forall (fun p => is_Some (relative_to_cwd p))
    (Natsort.humansorted (path_glob dir_path "**/*.py")) ->
  exists (h' : store) (lines : list string),
    scan_folder_with [RepositoryNameScanner; AnnotationScannerProxy] h
      stdout dir_path
    = Some (h', stdout ++ lines,
            Returns
              (("name", VStr (get_name_with_owner owner name))
                 :: group_items (fold_results results))).
Proof.
  intros Hname Hat Hok Hprint.
  destruct (proxy_scan_folder_sum h stdout dir_path results Hok Hprint)
    as (lines & Hproxy & _).
  exists (<[fresh (dom h) := fold_results results]> h), lines.
  unfold scan_folder_with. cbn [scan_folder_loop].
  unfold RepositoryNameScanner at 1. rewrite Hname.
  unfold RepositoryNameScanner_scan_folder.
  rewrite contains_at_dest_folder, split_once_dest_folder by exact Hat.
  cbn [negb summary_add_result summary_put_all summary_put dict_get
         dict_set].
  unfold AnnotationScannerProxy at 1. rewrite Hproxy, lookup_insert_eq.
  cbn [summary_add_result]. unfold group_items.
  rewrite put_all_fields.
  - rewrite put_fields_absent.
    + reflexivity.
    + apply public_dir_NoDup.
    + unfold public_dir. repeat constructor.
  - unfold public_dir. repeat constructor; intros s; discriminate.
Qed.

Lemma repository_row_witness :
  @path_name SampleProcess.process "." = dest_folder "demo" "someone"
  /\ Str.contains "@" "demo" = false
  /\ Forall2 (fun p r => @scan_file Sample.runtime p = Ok r)
       (Natsort.humansorted (@path_glob Sample.runtime "." "**/*.py"))
       [Sample.plain_result; Sample.annotated_result; Sample.foo_result]
  /\ Forall (fun p => is_Some (@relative_to_cwd SampleProcess.process p))
       (Natsort.humansorted (@path_glob Sample.runtime "." "**/*.py"))
  /\ exists (h' : store) (lines : list string),
       scan_folder_with
         [@RepositoryNameScanner SampleProcess.process;
          @AnnotationScannerProxy Sample.runtime SampleProcess.process]
         ∅ [] "."
       = Some (h', [] ++ lines,
               Returns
                 (("name", VStr (get_name_with_owner "someone" "demo"))
                    :: group_items
                         (fold_results
                            [Sample.plain_result; Sample.annotated_result;
                             Sample.foo_result]))).
Proof.
  assert (Hname :
    @path_name SampleProcess.process "." = dest_folder "demo" "someone")
    by reflexivity.
  assert (Hat : Str.contains "@" "demo" = false) by reflexivity.
  assert (Hok :
    Forall2 (fun p r => @scan_file Sample.runtime p = Ok r)
      (Natsort.humansorted (@path_glob Sample.runtime "." "**/*.py"))
      [Sample.plain_result; Sample.annotated_result; Sample.foo_result])
    by (repeat constructor).
  assert (Hprint :
    Forall (fun p => is_Some (@relative_to_cwd SampleProcess.process p))
      (Natsort.humansorted (@path_glob Sample.runtime "." "**/*.py")))
    by (repeat constructor; eexists; reflexivity).
  split; [exact Hname|]. split; [exact Hat|]. split; [exact Hok|].
  split; [exact Hprint|].
  exact (@repository_row Sample.runtime SampleProcess.process ∅ [] "."
           "demo" "someone" _ Hname Hat Hok Hprint).
Defined.

(** ** The dictionary of a result *)

(** X20: [get_stats_dict] holds the nine counters and nothing else, each
    under the name of its field; put into an empty summary it comes back
    as it is; and the summary made from the result itself has, under
    every key, what this dictionary has, though in the order of the names
    and not of the fields. *)
Theorem get_stats_dict_counters (r : AnnotationScanResult) :
  (forall f : field,
      dict_get (get_stats_dict r) (field_name f)
      = Some (VInt (getattr (stats r) f)))
  /\ keys (get_stats_dict r) = map field_name fields
  /\ summary_add_result [] (SDict (get_stats_dict r))
     = Returns (get_stats_dict r)
  /\ (exists summary : dict,
        summary_add_result [] (SGroup (stats r)) = Returns summary
        /\ forall key : string,
             dict_get summary key = dict_get (get_stats_dict r) key).
Proof.
  split; [|split; [|split]].
  - intros f. destruct f; reflexivity.
  - reflexivity.
  - reflexivity.
  - exists (group_items (stats r)). split; [reflexivity|].
    intros key. unfold group_items, get_stats_dict, public_dir, fields.
    cbn -[String.eqb].
    repeat match goal with
           | |- context [String.eqb ?name key] =>
               destruct (String.eqb_spec name key) as [<-|?];
               [reflexivity|]
           end.
    reflexivity.
Qed.

(** ** Stripped texts *)

Lemma lstrip_idempotent (s : string) :
  Str.lstrip (Str.lstrip s) = Str.lstrip s.
Proof.
  induction s as [|c s IH]; [reflexivity|].
  simpl. destruct (Str.is_space c) eqn:Hc; [exact IH|].
  simpl. now rewrite Hc.
Qed.

Lemma lstrip_length (s : string) :
  (String.length (Str.lstrip s) <= String.length s)%nat.
Proof.
  induction s as [|c s IH]; simpl; [lia|].
  destruct (Str.is_space c); simpl; lia.
Qed.

(** A text that [lstrip] keeps does not start with white space. *)
Lemma lstrip_fixed_head (c : ascii) (s : string) :
  Str.lstrip (String c s) = String c s -> Str.is_space c = false.
Proof.
  simpl. destruct (Str.is_space c); [|reflexivity].
  intros Heq. pose proof (lstrip_length s) as Hlen.
  rewrite Heq in Hlen. simpl in Hlen. lia.
Qed.

Lemma list_ascii_of_string_app (s1 s2 : string) :
  list_ascii_of_string (s1 ++ s2)%string
  = list_ascii_of_string s1 ++ list_ascii_of_string s2.
Proof.
  induction s1 as [|c s1 IH]; [reflexivity|].
  change (c :: list_ascii_of_string (s1 ++ s2)%string
          = c :: (list_ascii_of_string s1 ++ list_ascii_of_string s2)).
  now rewrite IH.
Qed.

Lemma string_of_list_ascii_app (l1 l2 : list ascii) :
  string_of_list_ascii (l1 ++ l2)
  = (string_of_list_ascii l1 ++ string_of_list_ascii l2)%string.
Proof.
  induction l1 as [|c l1 IH]; [reflexivity|].
  change (String c (string_of_list_ascii (l1 ++ l2))
          = String c (string_of_list_ascii l1 ++ string_of_list_ascii l2)).
  now rewrite IH.
Qed.

Lemma reverse_involutive (s : string) : Str.reverse (Str.reverse s) = s.
Proof.
  unfold Str.reverse.
  now rewrite list_ascii_of_string_of_list_ascii, rev_involutive,
    string_of_list_ascii_of_string.
Qed.

Lemma reverse_app (s1 s2 : string) :
  Str.reverse (s1 ++ s2)%string
  = (Str.reverse s2 ++ Str.reverse s1)%string.
Proof.
  unfold Str.reverse.
  now rewrite list_ascii_of_string_app, rev_app_distr,
    string_of_list_ascii_app.
Qed.

(** [lstrip] cuts a text at its start only. *)
Lemma lstrip_suffix (s : string) :
  exists p : string, s = (p ++ Str.lstrip s)%string.
Proof.
  induction s as [|c s [p IH]]; [now exists ""|].
  simpl. destruct (Str.is_space c).
  - exists (String c p).
    change (String c s = String c (p ++ Str.lstrip s)).
    now rewrite <- IH.
  - now exists "".
Qed.

(** [rstrip] cuts a text at its end only. *)
Lemma rstrip_prefix (s : string) :
  exists q : string, s = (Str.rstrip s ++ q)%string.
Proof.
  unfold Str.rstrip.
  destruct (lstrip_suffix (Str.reverse s)) as [p Hp].
  exists (Str.reverse p).
  now rewrite <- reverse_app, <- Hp, reverse_involutive.
Qed.

Lemma rstrip_idempotent (s : string) :
  Str.rstrip (Str.rstrip s) = Str.rstrip s.
Proof.
  unfold Str.rstrip. now rewrite reverse_involutive, lstrip_idempotent.
Qed.

Lemma strip_trimmed (s : string) : trimmed (Str.strip s).
Proof.
  unfold trimmed, Str.strip. split; [|apply rstrip_idempotent].
  destruct (rstrip_prefix (Str.lstrip s)) as [q Hq].
  destruct (Str.rstrip (Str.lstrip s)) as [|c t] eqn:Hr; [reflexivity|].
  assert (Hc : Str.is_space c = false).
  { apply (lstrip_fixed_head c (t ++ q)%string).
    change (String c (t ++ q)%string) with (String c t ++ q)%string.
    rewrite <- Hq. apply lstrip_idempotent. }
  simpl. now rewrite Hc.
Qed.

Lemma Assignment_trimmed (n : node) (t : AnnotationItemBase) :
  Assignment n = Ok t ->
  trimmed (code t) /\ forall a, annotated_text t = Some a -> trimmed a.
Proof.
  destruct n as [m|s|e|a|a|c|o]; try discriminate.
  destruct s; try discriminate; intros [= <-]; simpl;
    (split; [apply strip_trimmed|]); intros a' [= <-];
    apply strip_trimmed.
Qed.

Lemma FunctionParameter_trimmed (n : node) (t : AnnotationItemBase) :
  FunctionParameter n = Ok t ->
  trimmed (code t) /\ forall a, annotated_text t = Some a -> trimmed a.
Proof.
  destruct n as [m|s|e|a|a|c|o]; try discriminate.
  destruct a as [pos name [ann|] tc]; intros [= <-]; simpl;
    (split; [apply strip_trimmed|]); intros a' [= <-];
    apply strip_trimmed.
Qed.

Lemma FunctionReturn_trimmed (n : node) (t : AnnotationItemBase) :
  FunctionReturn n = Ok t ->
  trimmed (code t) /\ forall a, annotated_text t = Some a -> trimmed a.
Proof.
  destruct n as [m|s|e|a|a|c|o]; try discriminate.
  destruct s; try discriminate; intros [= <-];
    unfold init_return; destruct returns; simpl;
    (split; [apply strip_trimmed|]); intros a' [= <-];
    apply strip_trimmed.
Qed.

(** X21: the texts of every token of a scan are stripped: neither the
    source text nor the annotation text starts or ends with white
    space. *)
Theorem token_texts_are_stripped `{Runtime} (code_text : string)
    (tree : mod_) :
  ast_parse code_text = Ok tree ->
  exists r,
    scan_text code_text = Ok r
    /\ Forall
         (fun t =>
            trimmed (code t)
            /\ forall a, annotated_text t = Some a -> trimmed a)
         (assignments r ++ func_params r ++ func_returns r).
Proof.
  intros Hparse. eexists. split; [apply scan_text_tokens, Hparse|].
  cbn [assignments func_params func_returns AnnotationScanResult_init].
  rewrite !Forall_app. repeat split; apply Forall_tokens_of.
  - apply Assignment_trimmed.
  - apply FunctionParameter_trimmed.
  - apply FunctionReturn_trimmed.
Qed.

Lemma token_texts_are_stripped_witness :
  @ast_parse Sample.runtime Sample.foo_src = Ok Sample.foo_tree
  /\ exists r,
       @scan_text Sample.runtime Sample.foo_src = Ok r
       /\ Forall
            (fun t =>
               trimmed (code t)
               /\ forall a, annotated_text t = Some a -> trimmed a)
            (assignments r ++ func_params r ++ func_returns r).
Proof.
  split; [reflexivity|].
  apply (@token_texts_are_stripped Sample.runtime Sample.foo_src
           Sample.foo_tree).
  reflexivity.
Defined.
